(** * Intent classification and dispatch: the classifiers and the role gate

    A shallow embedding of the Python sources

    - [app/orchestrator/intent_detector.py]    (pattern classifier, follow-up),
    - [app/agno_runtime/intent_classifier.py]  (Gemini adapter),
    - [app/agno_runtime/llm_provider.py]       (the completion call),
    - [app/agno_runtime.py]                    (Groq/OpenAI adapter),
    - [app/agno_runtime/message_polisher.py]   (the message polisher),
    - [app/agno_runtime/prompts.py]            (the prompt's history section),
    - [app/api/chat.py]                        (the role gate of the endpoint
                                                and its helpers),

    and the properties of them that the specification states, followed by
    further properties read off the code.

    The pattern classifier and the Gemini adapter are given twice: over
    histories typed as the specification's Turn and over the reply alone
    ([Detector], [Gemini]), and over histories of arbitrary decoded values,
    with the prompt and the log lines of the adapter ([FollowUp],
    [IntentClassifier]), where a lookup or a format can raise.  The lemmas
    [typed_history_agrees] and [classify_intent_refines] relate the two.

    The orchestrator and its access policy are not among the sources; the
    policy is modelled from the specification ([Policy]) and checked
    against the table of [app/tests/test_orchestrator_rbac.py].

    Python [str] values are sequences of Unicode code points and are modelled
    as [list N].  The library functions whose full Unicode behaviour is a
    table of the interpreter ([str.lower], [str.upper], [re.search],
    [json.loads], [str]) are Section variables: every general theorem holds for any
    behaviour of them.  Executable instances, exact on Basic Latin and
    Latin-1 text, are given for the concrete runs. *)

From Stdlib Require Import List String Ascii NArith ZArith QArith Bool Arith Lia.
Import ListNotations.

(* ====================================================================== *)
(** * Text *)
(* ====================================================================== *)

Module Text.

Local Open Scope N_scope.

(** A Python string: its code points. *)
Definition str := list N.

Fixpoint bytes (s : string) : list N :=
  match s with
  | EmptyString => []
  | String a r => N_of_ascii a :: bytes r
  end.

(** Source literals are UTF-8; [utf8] decodes the one-, two- and three-byte
    forms (all the sources use). *)
Fixpoint utf8 (bs : list N) : str :=
  match bs with
  | [] => []
  | b :: r =>
      if b <? 128 then b :: utf8 r
      else if b <? 224 then
        match r with
        | c1 :: r1 => ((b - 192) * 64 + (c1 - 128)) :: utf8 r1
        | [] => [b]
        end
      else
        match r with
        | c1 :: c2 :: r2 =>
            ((b - 224) * 4096 + (c1 - 128) * 64 + (c2 - 128)) :: utf8 r2
        | _ => b :: r
        end
  end.

(** [u "text"] is the Python literal ["text"]. *)
Definition u (s : string) : str := utf8 (bytes s).

Fixpoint str_eqb (a b : str) : bool :=
  match a, b with
  | [], [] => true
  | x :: a', y :: b' => (x =? y) && str_eqb a' b'
  | _, _ => false
  end.

(** [x in (a, b, ...)] for a tuple of strings. *)
Definition mem (x : str) (l : list str) : bool := existsb (str_eqb x) l.

(** [str.isspace] on one code point: the characters [str.strip()] and
    [str.split()] treat as whitespace. *)
Definition is_space (c : N) : bool :=
  ((9 <=? c) && (c <=? 13)) || ((28 <=? c) && (c <=? 32))
  || (c =? 133) || (c =? 160) || (c =? 5760)
  || ((8192 <=? c) && (c <=? 8202))
  || (c =? 8232) || (c =? 8233) || (c =? 8239) || (c =? 8287) || (c =? 12288).

Fixpoint lstrip (s : str) : str :=
  match s with
  | [] => []
  | c :: r => if is_space c then lstrip r else s
  end.

Definition rstrip (s : str) : str := rev (lstrip (rev s)).

(** [s.strip()] *)
Definition strip (s : str) : str := rstrip (lstrip s).

(** [s.split()]: the maximal runs of non-whitespace characters.  [cur] is
    the token being read, reversed. *)
Fixpoint split_aux (cur : str) (s : str) : list str :=
  match s with
  | [] => match cur with [] => [] | _ => [rev cur] end
  | c :: r =>
      if is_space c
      then match cur with [] => split_aux [] r | _ => rev cur :: split_aux [] r end
      else split_aux (c :: cur) r
  end.

Definition split (s : str) : list str := split_aux [] s.

(** [s.startswith(p)] *)
Fixpoint startswith (s p : str) : bool :=
  match p, s with
  | [], _ => true
  | x :: p', y :: s' => (x =? y) && startswith s' p'
  | _ :: _, [] => false
  end.

(** [p in s]: substring test. *)
Fixpoint contains (s p : str) : bool :=
  startswith s p ||
  match s with
  | [] => false
  | _ :: r => contains r p
  end.

(** [not s] for a string: the empty string is falsy. *)
Definition falsy (s : str) : bool := match s with [] => true | _ => false end.

End Text.

(* ====================================================================== *)
(** * The pattern classifier: [app/orchestrator/intent_detector.py] *)
(* ====================================================================== *)

Module Detector.

Import Text.
Local Open Scope Q_scope.

(** Python's [max(a, b)]: the first argument unless the second is larger. *)
Definition Qltb (a b : Q) : bool := negb (Qle_bool b a).
Definition py_max (a b : Q) : Q := if Qltb a b then b else a.

(** A dict with string keys and list-of-string values (the entity hints). *)
Definition hints := list (str * list str).

(** [@dataclass class IntentResult] *)
Record IntentResult := {
  intent : str;
  confidence : Q;
  reasoning : list str;
  entities_hint : hints
}.

(** One rule: [(pattern, rule_name, confidence)].  The pattern is the raw
    source text of the regular expression. *)
Definition rule := (string * str * Q)%type.
Definition rule_pattern (r : rule) : string := fst (fst r).
Definition rule_name (r : rule) : str := snd (fst r).
Definition rule_confidence (r : rule) : Q := snd r.

(** The rule table is a dict literal; iteration follows insertion order, so
    it is an association list. *)
Definition table := list (str * list rule).

Definition INTENT_PATTERNS : table := [
  (u "help", [
    ("\b(help|assist|what can|how to|guide|aide|comment)\b"%string, u "help_keyword", 0.95);
    ("^(hi|hello|hey|bonjour|salam|salut)([\s\!]|$)"%string, u "greeting", 0.95);
    ("\b(what (can|do) you|qu[''']est-ce que tu|que peux-tu)\b"%string, u "capability_query", 0.90)
  ]);
  (u "blockchain_audit", [
    ("\b(blockchain|proof|verify|audit|trace|prouv|vérif)\b.*\b(booking|reservation|ref|transaction)\b"%string, u "blockchain_booking", 0.90);
    ("\b(prove|verify|audit|trace|prouv|vérif)\b"%string, u "audit_keyword", 0.85)
  ]);
  (u "operator_analytics_overview", [
    ("\b(operator|opérateur).*\b(analytics|performance|analyse|aperçu|overview)\b"%string, u "operator_analytics_explicit", 0.92);
    ("\b(ai overview|aperçu ia|business analyst|ba report)\b"%string, u "ai_overview", 0.90);
    ("\b(management score|planning quality|operator behavior)\b"%string, u "operator_metrics", 0.88);
    ("\b(forecast|prévision|predict).*\b(month|mois|throughput|capacity)\b"%string, u "forecast_request", 0.85)
  ]);
  (u "passage_history", [
    ("\b(passage|entry|entries|truck|vehicle|camion|véhicule).*\b(history|yesterday|past|previous|historique|hier|passé|précédent)\b"%string, u "passage_history_explicit", 0.90);
    ("\b(show|list|get|afficher|lister).*\b(passage|entry|truck|camion)\b"%string, u "show_passage", 0.85);
    ("\byesterday.*\b(passage|truck|entry|camion)\b"%string, u "yesterday_passage", 0.88);
    ("\b(hier|yesterday).*\b(passage|entrée|camion)\b"%string, u "french_yesterday_passage", 0.88)
  ]);
  (u "slot_recommendation", [
    ("\b(recommend|suggest|best|optimal|conseiller|suggérer|meilleur)\b.*\b(slot|time|créneau|heure)\b"%string, u "recommend_slot_explicit", 0.92);
    ("\b(which|what|quel).*\b(slot|time|créneau).*\b(best|better|recommend|meilleur|conseillé)\b"%string, u "which_best_slot", 0.90);
    ("\b(alternative|other|autre).*\b(slot|time|créneau)\b"%string, u "alternative_slot", 0.85)
  ]);
  (u "slot_availability", [
    ("\b(available|availability|free|open|disponible|disponibilité|libre|ouvert).*\b(slot|time|appointment|créneau|heure|rendez-vous)\b"%string, u "slot_availability_explicit", 0.90);
    ("\b(slot|time|appointment|créneau|heure).*\b(available|free|open|disponible|libre)\b"%string, u "slot_available_reversed", 0.90);
    ("\b(book|reserve|schedule|réserver|planifier).*\b(slot|time|créneau|heure)\b"%string, u "book_slot", 0.85);
    ("\b(check|voir|vérifier).*\b(availability|disponibilité)\b"%string, u "check_availability", 0.82)
  ]);
  (u "booking_status", [
    ("\b(status|track|where|check|find|locate|statut|suivre|où|vérifier|trouver|localiser).*\b(booking|reservation|ref|reference|réservation|référence)\b"%string, u "status_booking_explicit", 0.90);
    ("\b(booking|reservation|ref|reference|réservation).*\b(status|track|where|check|statut|suivre|où)\b"%string, u "booking_status_reversed", 0.90);
    ("\b(REF|ref)[-\s]?\d{3,}\b"%string, u "booking_ref_pattern", 0.85);
    ("\b(where is|où est|quand|when).*\b(booking|reservation|my|ma|mon)\b"%string, u "where_booking", 0.82)
  ]);
  (u "smalltalk", [
    ("^(ok|okay|d'accord|merci|thanks|thank you|oui|yes|non|no)([\s\!\.]|$)"%string, u "acknowledgment", 0.70);
    ("^(good|bien|bon)([\s\!\.]|$)"%string, u "positive_short", 0.65);
    ("\b(how are you|comment ça va|ça va)\b"%string, u "how_are_you", 0.75)
  ])
].

(** The follow-up marker pattern of [detect_intent]. *)
Definition FOLLOW_UP_PATTERN : string :=
  "\b(and|what about|then|also|too|same|yesterday|tomorrow|today|next|previous|et|puis|aussi|même|hier|demain|aujourd'hui)\b".

(** A history entry.  A turn is a dict; the classifier reads its ["intent"]
    key and the ["intent"] key of its ["metadata"] map.  Entries that are
    not dicts are skipped by the [isinstance] test. *)
Record Turn := {
  role : str;
  content : str;
  turn_intent : option str;
  metadata : option (list (str * str))
}.

Inductive entry :=
| Dict (t : Turn)
| NotDict.

Definition history := list entry.

(** [d.get(k)] on a dict with string values. *)
Fixpoint dict_get {A : Type} (d : list (str * A)) (k : str) : option A :=
  match d with
  | [] => None
  | (k', v) :: r => if str_eqb k k' then Some v else dict_get r k
  end.

(** Truthiness of an optional string: [None] and [""] are falsy. *)
Definition truthy (o : option str) : bool :=
  match o with
  | Some (_ :: _) => true
  | _ => false
  end.

(** [a or b] *)
Definition py_or (a b : option str) : option str := if truthy a then a else b.

Definition GENERIC_INTENTS : list str :=
  [u "unknown"; u "help"; u "smalltalk"; u "forbidden"; u "not_implemented"].

Definition LOW_INFORMATION : list str := [u "unknown"; u "help"; u "smalltalk"].

(** [msg.get("intent") or msg.get("metadata", {}).get("intent")] *)
Definition recorded_intent (t : Turn) : option str :=
  py_or (turn_intent t)
        (dict_get (match metadata t with Some m => m | None => [] end) (u "intent")).

(** The body of the loop of [_get_last_intent] on one entry: the intent it
    returns there, if it returns. *)
Definition eligible (e : entry) : option str :=
  match e with
  | NotDict => None
  | Dict t =>
      match recorded_intent t with
      | Some i => if truthy (Some i) && negb (mem i GENERIC_INTENTS) then Some i else None
      | None => None
      end
  end.

Fixpoint first_eligible (h : list entry) : option str :=
  match h with
  | [] => None
  | e :: r => match eligible e with Some i => Some i | None => first_eligible r end
  end.

(** [_get_last_intent]: [for msg in reversed(history)]. *)
Definition _get_last_intent (h : history) : option str :=
  match h with
  | [] => None
  | _ => first_eligible (rev h)
  end.

(** [_get_entity_hints] *)
Definition HINTS : list (str * hints) := [
  (u "booking_status", [(u "expected", [u "booking_ref"]); (u "optional", [u "date"])]);
  (u "slot_availability", [(u "expected", [u "terminal"; u "date"]); (u "optional", [u "gate"])]);
  (u "slot_recommendation", [(u "expected", [u "terminal"; u "date"]);
                             (u "optional", [u "gate"; u "carrier_id"; u "requested_time"])]);
  (u "passage_history", [(u "expected", [u "date"]); (u "optional", [u "terminal"; u "gate"])]);
  (u "blockchain_audit", [(u "expected", [u "booking_ref"]); (u "optional", [])]);
  (u "operator_analytics_overview", [(u "expected", [u "operator_id"]);
                                     (u "optional", [u "terminal"; u "range_days"; u "bucket"])])
].

Definition _get_entity_hints (i : str) : hints :=
  match dict_get HINTS i with
  | Some h => h
  | None => [(u "expected", []); (u "optional", [])]
  end.

(** One element of [all_matches]. *)
Definition hit := (str * Q * list str)%type.
Definition hit_intent (h : hit) : str := fst (fst h).
Definition hit_confidence (h : hit) : Q := snd (fst h).
Definition hit_reasons (h : hit) : list str := snd h.

(** [all_matches.sort(key=lambda x: x[1], reverse=True)]: Python's sort is
    stable, also with [reverse=True]; an element goes before the first one
    whose key is not larger than its own. *)
Fixpoint insert_desc (x : hit) (l : list hit) : list hit :=
  match l with
  | [] => [x]
  | y :: r => if Qltb (hit_confidence x) (hit_confidence y)
              then y :: insert_desc x r
              else x :: l
  end.

Fixpoint sort_desc (l : list hit) : list hit :=
  match l with
  | [] => []
  | x :: r => insert_desc x (sort_desc r)
  end.

Section Classifier.

(** [str.lower] and [re.search(pattern, text, re.IGNORECASE) is not None]. *)
Variable lower : str -> str.
Variable re_search : string -> str -> bool.

(** The inner loop: [for pattern, rule_name, confidence in patterns]. *)
Fixpoint scan_rules (patterns : list rule) (message_lower : str)
         (intent_reasons : list str) (intent_confidence : Q) : list str * Q :=
  match patterns with
  | [] => (intent_reasons, intent_confidence)
  | (pattern, name, conf) :: rest =>
      if re_search pattern message_lower
      then scan_rules rest message_lower (intent_reasons ++ [name])
                      (py_max intent_confidence conf)
      else scan_rules rest message_lower intent_reasons intent_confidence
  end.

(** The outer loop: [for intent, patterns in INTENT_PATTERNS.items()]. *)
Fixpoint scan_groups (t : table) (message_lower : str) (all_matches : list hit)
  : list hit :=
  match t with
  | [] => all_matches
  | (i, patterns) :: rest =>
      let '(intent_reasons, intent_confidence) :=
        scan_rules patterns message_lower [] 0.0 in
      scan_groups rest message_lower
        (match intent_reasons with
         | [] => all_matches
         | _ => all_matches ++ [(i, intent_confidence, intent_reasons)]
         end)
  end.

(** [detect_intent], over the rule table it reads. *)
Definition detect_intent_with (t : table) (message : str) (h : history)
  : IntentResult :=
  if falsy message || falsy (strip message) then
    {| intent := u "unknown"; confidence := 1.0;
       reasoning := [u "empty_message"]; entities_hint := [] |}
  else
    let message_lower := strip (lower message) in
    let message_words := split message_lower in
    let all_matches := sort_desc (scan_groups t message_lower []) in
    match all_matches with
    | (i, conf, reasons) :: _ =>
        {| intent := i; confidence := conf; reasoning := reasons;
           entities_hint := _get_entity_hints i |}
    | [] =>
        let unknown :=
          {| intent := u "unknown"; confidence := 0.5;
             reasoning := [u "no_pattern_matched"]; entities_hint := [] |} in
        match h with
        | [] => unknown
        | _ =>
            let is_short := (List.length message_words <=? 4)%nat in
            let has_follow_up_keyword := re_search FOLLOW_UP_PATTERN message_lower in
            if is_short || has_follow_up_keyword then
              match _get_last_intent h with
              | Some last_intent =>
                  if truthy (Some last_intent) && negb (mem last_intent LOW_INFORMATION)
                  then {| intent := last_intent; confidence := 0.70;
                          reasoning := [u "follow_up_pattern";
                                        (u "last_intent:" ++ last_intent)%list];
                          entities_hint := _get_entity_hints last_intent |}
                  else unknown
              | None => unknown
              end
            else unknown
        end
    end.

Definition detect_intent : str -> history -> IntentResult :=
  detect_intent_with INTENT_PATTERNS.

(** The rules of a group that match the text. *)
Definition matching (text : str) (rules : list rule) : list rule :=
  filter (fun r => re_search (rule_pattern r) text) rules.

(** What [logger.debug] receives: the winning hit, when there is one. *)
Definition debug_record (t : table) (message : str) : list hit :=
  if falsy message || falsy (strip message) then []
  else match sort_desc (scan_groups t (strip (lower message)) []) with
       | w :: _ => [w]
       | [] => []
       end.

(** What a call can read or write besides its arguments: the module's rule
    table, a mutable dict, and the debug log. *)
Record Process := {
  rule_table : table;
  debug_log : list hit
}.

(** One call of [detect_intent] in a process. *)
Definition call (message : str) (h : history) (p : Process)
  : IntentResult * Process :=
  (detect_intent_with (rule_table p) message h,
   {| rule_table := rule_table p;
      debug_log := (debug_log p ++ debug_record (rule_table p) message)%list |}).

End Classifier.

End Detector.

(* ====================================================================== *)
(** * An executable instance of the library functions

    [Py.lower], [Py.upper] and [Py.re_search] compute what [str.lower],
    [str.upper] and [re.search(..., re.IGNORECASE)] compute on text of the
    Basic Latin and Latin-1 Supplement blocks, for the regular-expression
    syntax the sources use: literals, [.], [^], [$], escapes
    [\b \d \s \w], character classes, groups, alternation and the
    quantifiers [* + ? {n} {n,} {n,m}]. *)
(* ====================================================================== *)

Module Py.

Import Text.
Local Open Scope N_scope.

Definition lower_char (c : N) : N :=
  if ((65 <=? c) && (c <=? 90)) || ((192 <=? c) && (c <=? 222) && negb (c =? 215))
  then c + 32 else c.

Definition upper_char (c : N) : N :=
  if ((97 <=? c) && (c <=? 122)) || ((224 <=? c) && (c <=? 254) && negb (c =? 247))
  then c - 32 else c.

Definition lower (s : str) : str := map lower_char s.

(** [str.upper]: the sharp s becomes two letters, and the micro sign and
    the y with diaeresis have their capitals outside Latin-1. *)
Definition upper (s : str) : str :=
  flat_map (fun c => if c =? 223 then [83; 83]
                     else if c =? 181 then [924]
                     else if c =? 255 then [376]
                     else [upper_char c]) s.

Definition is_digit (c : N) : bool := (48 <=? c) && (c <=? 57).

(** [\w]: alphanumeric or underscore. *)
Definition is_word (c : N) : bool :=
  is_digit c || ((65 <=? c) && (c <=? 90)) || (c =? 95) || ((97 <=? c) && (c <=? 122))
  || (c =? 170) || (c =? 178) || (c =? 179) || (c =? 181) || (c =? 185) || (c =? 186)
  || ((188 <=? c) && (c <=? 190))
  || ((192 <=? c) && (c <=? 214)) || ((216 <=? c) && (c <=? 246))
  || ((248 <=? c) && (c <=? 255)).

Inductive cset :=
| CChar (c : N)
| CRange (a b : N)
| CSpace
| CDigit
| CWord.

Inductive regex :=
| Eps
| Lit (c : N)
| Dot
| Class (negated : bool) (items : list cset)
| Bol
| Eol
| Wb
| Cat (a b : regex)
| Alt (a b : regex)
| Star (a : regex).

(** ** Compiling a pattern *)

Fixpoint repeat_re (n : nat) (r : regex) : regex :=
  match n with
  | O => Eps
  | S n' => Cat r (repeat_re n' r)
  end.

(** [r{lo,hi}] with [hi = lo + extra]. *)
Fixpoint upto_re (extra : nat) (r : regex) : regex :=
  match extra with
  | O => Eps
  | S e => Alt (Cat r (upto_re e r)) Eps
  end.

Fixpoint read_nat (acc : nat) (s : str) : nat * str :=
  match s with
  | c :: r => if is_digit c then read_nat (10 * acc + N.to_nat (c - 48)) r else (acc, s)
  | [] => (acc, s)
  end.

(** A quantifier after an atom, if there is one. *)
Definition p_quant (a : regex) (s : str) : option (regex * str) :=
  match s with
  | 42 :: r => Some (Star a, r)                          (* * *)
  | 43 :: r => Some (Cat a (Star a), r)                  (* + *)
  | 63 :: r => Some (Alt a Eps, r)                       (* ? *)
  | 123 :: r =>                                          (* { *)
      let '(lo, r1) := read_nat 0 r in
      match r1 with
      | 125 :: r2 => Some (repeat_re lo a, r2)           (* {n} *)
      | 44 :: 125 :: r2 => Some (Cat (repeat_re lo a) (Star a), r2)   (* {n,} *)
      | 44 :: r2 =>
          let '(hi, r3) := read_nat 0 r2 in
          match r3 with
          | 125 :: r4 =>
              if (lo <=? hi)%nat
              then Some (Cat (repeat_re lo a) (upto_re (hi - lo) a), r4)
              else None
          | _ => None
          end
      | _ => None
      end
  | _ => Some (a, s)
  end.

(** An escape [\c]: as a class item. *)
Definition escape_item (c : N) : option cset :=
  if c =? 115 then Some CSpace                           (* \s *)
  else if c =? 100 then Some CDigit                      (* \d *)
  else if c =? 119 then Some CWord                       (* \w *)
  else if c =? 110 then Some (CChar 10)                  (* \n *)
  else if c =? 116 then Some (CChar 9)                   (* \t *)
  else if c =? 114 then Some (CChar 13)                  (* \r *)
  else if is_word c then None
  else Some (CChar c).

(** The items of a class, up to the closing bracket. *)
Fixpoint p_class (fuel : nat) (s : str) (acc : list cset) : option (list cset * str) :=
  match fuel with
  | O => None
  | S f =>
      match s with
      | [] => None
      | 93 :: r => match acc with [] => p_class f r [CChar 93] | _ => Some (rev acc, r) end
      | 92 :: c :: r =>
          match escape_item c with
          | Some i => p_class f r (i :: acc)
          | None => None
          end
      | a :: 45 :: b :: r =>
          if (b =? 93) || (b =? 92) then p_class f (45 :: b :: r) (CChar a :: acc)
          else if a <=? b then p_class f r (CRange a b :: acc) else None
      | a :: r => p_class f r (CChar a :: acc)
      end
  end.

Fixpoint p_alt (fuel : nat) (s : str) {struct fuel} : option (regex * str) :=
  match fuel with
  | O => None
  | S f =>
      match p_seq f s with
      | Some (r1, 124 :: s1) =>
          match p_alt f s1 with
          | Some (r2, s2) => Some (Alt r1 r2, s2)
          | None => None
          end
      | other => other
      end
  end
with p_seq (fuel : nat) (s : str) {struct fuel} : option (regex * str) :=
  match fuel with
  | O => None
  | S f =>
      match s with
      | [] => Some (Eps, [])
      | c :: _ =>
          if (c =? 124) || (c =? 41) then Some (Eps, s)
          else
            match p_atom f s with
            | Some (a, s1) =>
                match p_quant a s1 with
                | Some (q, s2) =>
                    match p_seq f s2 with
                    | Some (r, s3) => Some (Cat q r, s3)
                    | None => None
                    end
                | None => None
                end
            | None => None
            end
      end
  end
with p_atom (fuel : nat) (s : str) {struct fuel} : option (regex * str) :=
  match fuel with
  | O => None
  | S f =>
      match s with
      | [] => None
      | 40 :: r =>                                       (* ( *)
          match p_alt f r with
          | Some (g, 41 :: r1) => Some (g, r1)
          | _ => None
          end
      | 91 :: 94 :: r =>                                 (* [^ *)
          match p_class (S (List.length r)) r [] with
          | Some (items, r1) => Some (Class true items, r1)
          | None => None
          end
      | 91 :: r =>                                       (* [ *)
          match p_class (S (List.length r)) r [] with
          | Some (items, r1) => Some (Class false items, r1)
          | None => None
          end
      | 92 :: c :: r =>                                  (* \ *)
          if c =? 98 then Some (Wb, r)
          else match escape_item c with
               | Some (CChar x) => Some (Lit x, r)
               | Some i => Some (Class false [i], r)
               | None => None
               end
      | 46 :: r => Some (Dot, r)
      | 94 :: r => Some (Bol, r)
      | 36 :: r => Some (Eol, r)
      | c :: r =>
          if (c =? 42) || (c =? 43) || (c =? 63) || (c =? 41) || (c =? 92)
          then None else Some (Lit c, r)
      end
  end.

(** [re.compile]: [None] where Python raises [re.error]. *)
Definition re_compile (pattern : string) : option regex :=
  let p := u pattern in
  match p_alt (2 * List.length p + 2) p with
  | Some (r, []) => Some r
  | _ => None
  end.

(** ** Matching *)

(** A position in the text: the character before it and the text after. *)
Record pos := { before : option N; after : str }.

Definition word_at (o : option N) : bool :=
  match o with Some c => is_word c | None => false end.

Definition in_item (i : cset) (c : N) : bool :=
  match i with
  | CChar x => c =? x
  | CRange a b => (a <=? c) && (c <=? b)
  | CSpace => is_space c
  | CDigit => is_digit c
  | CWord => is_word c
  end.

(** Membership under [re.IGNORECASE]: the character or one of its case
    variants is in the set. *)
Definition in_class (items : list cset) (c : N) : bool :=
  existsb (fun i => in_item i c || in_item i (lower_char c) || in_item i (upper_char c)) items.

Definition step (p : pos) (ok : N -> bool) (k : pos -> bool) : bool :=
  match after p with
  | c :: r => ok c && k {| before := Some c; after := r |}
  | [] => false
  end.

(** [m r p k]: some match of [r] starting at [p] ends at a position that
    [k] accepts.  The iteration of [Star] runs at most once per remaining
    character, each round consuming at least one. *)
Fixpoint m (r : regex) (p : pos) (k : pos -> bool) {struct r} : bool :=
  match r with
  | Eps => k p
  | Lit c => step p (fun x => lower_char x =? lower_char c) k
  | Dot => step p (fun x => negb (x =? 10)) k
  | Class neg items => step p (fun x => xorb neg (in_class items x)) k
  | Bol => match before p with None => k p | Some _ => false end
  | Eol => match after p with
           | [] => k p
           | [10] => k p
           | _ => false
           end
  | Wb => xorb (word_at (before p)) (word_at (hd_error (after p))) && k p
  | Cat a b => m a p (fun q => m b q k)
  | Alt a b => m a p k || m b p k
  | Star a =>
      (fix loop (n : nat) (p0 : pos) {struct n} : bool :=
         k p0 ||
         match n with
         | O => false
         | S n' =>
             m a p0 (fun q => (List.length (after q) <? List.length (after p0))%nat
                              && loop n' q)
         end) (List.length (after p)) p
  end.

(** [re.search]: a match starting at some position of the text. *)
Fixpoint search_from (r : regex) (prev : option N) (s : str) : bool :=
  m r {| before := prev; after := s |} (fun _ => true) ||
  match s with
  | [] => false
  | c :: rest => search_from r (Some c) rest
  end.

Definition re_search (pattern : string) (text : str) : bool :=
  match re_compile pattern with
  | Some r => search_from r None text
  | None => false
  end.

End Py.

(* ====================================================================== *)
(** * JSON values and Python dicts *)
(* ====================================================================== *)

Module Json.

Import Text.

(** What [json.loads] can return.  Python's decoder also accepts the
    literals [NaN], [Infinity] and [-Infinity]. *)
#[warnings="-register-all"]
Inductive json :=
| JNull
| JBool (b : bool)
| JNum (q : Q)
| JInf (negative : bool)
| JNaN
| JStr (s : str)
| JArr (l : list json)
| JObj (d : list (str * json)).

(** A dict with string keys, in insertion order. *)
Definition dict := list (str * json).

Fixpoint get (d : dict) (k : str) : option json :=
  match d with
  | [] => None
  | (k', v) :: r => if str_eqb k k' then Some v else get r k
  end.

(** [k in d] *)
Definition has (d : dict) (k : str) : bool :=
  match get d k with Some _ => true | None => false end.

(** [d[k] = v]: an existing key keeps its place, a new key goes last. *)
Fixpoint set (d : dict) (k : str) (v : json) : dict :=
  match d with
  | [] => [(k, v)]
  | (k', v') :: r => if str_eqb k k' then (k', v) :: r else (k', v') :: set r k v
  end.

(** The outcome of [json.loads]. *)
Inductive loaded :=
| Loaded (v : json)
| JSONDecodeError
| OtherError.

(** [x < t] for a JSON value [x] and a float [t]; [None] where Python
    raises [TypeError]. *)
Definition lt_float (x : json) (t : Q) : option bool :=
  match x with
  | JNum q => Some (negb (Qle_bool t q))
  | JBool b => Some (negb (Qle_bool t (if b then 1 else 0)))
  | JInf negative => Some negative
  | JNaN => Some false
  | _ => None
  end.

(** Splitting on one character: [s.split("\n")]. *)
Fixpoint split_char (sep : N) (cur : str) (s : str) : list str :=
  match s with
  | [] => [rev cur]
  | c :: r => if N.eqb c sep then rev cur :: split_char sep [] r
              else split_char sep (c :: cur) r
  end.

(** [sep.join(l)] *)
Fixpoint join (sep : str) (l : list str) : str :=
  match l with
  | [] => []
  | [x] => x
  | x :: r => (x ++ sep ++ join sep r)%list
  end.

(** [l[1:-1]] *)
Definition inner {A : Type} (l : list A) : list A := removelast (tl l).

(** [s[n:]] *)
Definition drop {A : Type} (n : nat) (l : list A) : list A := skipn n l.

(** [s.split(sep)] for a separator of several characters. *)
Fixpoint split_str (fuel : nat) (sep : str) (cur : str) (s : str) : list str :=
  match fuel with
  | O => [(rev cur ++ s)%list]
  | S f =>
      match s with
      | [] => [rev cur]
      | c :: r =>
          if startswith s sep
          then rev cur :: split_str f sep [] (skipn (List.length sep) s)
          else split_str f sep (c :: cur) r
      end
  end.

End Json.

(* ====================================================================== *)
(** * The Gemini adapter: [llm_provider.py] and [intent_classifier.py] *)
(* ====================================================================== *)

Module Gemini.

Import Text Json.
Local Open Scope string_scope.
Local Open Scope Q_scope.

(** What one [model.generate_content] call under [asyncio.wait_for] does:
    it answers with a text, runs into the timeout, or fails. *)
Inductive outcome :=
| Replied (text : str)
| TimedOut
| Failed (e : str).

(** The exceptions of these modules. *)
Inductive exn :=
| TimeoutError
| Exception (msg : str).

(** [str(e)] *)
Definition message_of (e : exn) : str :=
  match e with
  | TimeoutError => []
  | Exception msg => msg
  end.

(** Computations that issue completion calls and may raise.  The state is
    the number of external calls issued so far. *)
Definition M (A : Type) : Type := nat -> (A + exn) * nat.

Definition ret {A : Type} (a : A) : M A := fun n => (inl a, n).
Definition raise {A : Type} (e : exn) : M A := fun n => (inr e, n).

Definition bind {A B : Type} (c : M A) (f : A -> M B) : M B :=
  fun n => match c n with
           | (inl a, n') => f a n'
           | (inr e, n') => (inr e, n')
           end.

(** [try: c except ... as e: handler(e)] *)
Definition try_except {A : Type} (c : M A) (handler : exn -> M A) : M A :=
  fun n => match c n with
           | (inl a, n') => (inl a, n')
           | (inr e, n') => handler e n'
           end.

Notation "x <- c ;; k" := (bind c (fun x => k))
  (at level 61, c at next level, right associativity).

(** [settings] as the adapter reads it. *)
Record Settings := {
  intent_confidence_threshold : Q;
  llm_timeout_seconds : Q
}.

Definition default_settings : Settings :=
  {| intent_confidence_threshold := 0.45; llm_timeout_seconds := 20 |}.

Definition VALID_INTENTS : list str :=
  [u "booking_status"; u "booking_create"; u "slot_availability";
   u "passage_history"; u "blockchain_audit"; u "help"; u "unknown"].

Definition result_of (i : str) (c : json) : dict :=
  [(u "intent", JStr i); (u "entities", JObj []); (u "confidence", c)].

(** [_fallback_intent_extraction] *)
Section Parsing.

Variable lower : str -> str.
Variable json_loads : str -> loaded.

Definition _fallback_intent_extraction (response : str) : dict :=
  let response_lower := lower response in
  let has w := contains response_lower (u w) in
  let i :=
    if has "booking_status" || has "status" then u "booking_status"
    else if has "booking_create" || has "create" || has "book" then u "booking_create"
    else if has "slot_availability" || has "availability" then u "slot_availability"
    else if has "passage_history" || has "passage" then u "passage_history"
    else if has "blockchain" || has "audit" then u "blockchain_audit"
    else if has "help" || has "greeting" then u "help"
    else u "unknown" in
  result_of i (JNum 0.3).

(** The text handed to [json.loads]: stripped, and without the first and
    last line when it opens with a code fence. *)
Definition unfenced (response : str) : str :=
  let response := strip response in
  if startswith response (u "```")
  then join [10%N] (inner (split_char 10%N [] response))
  else response.

(** [_parse_intent_response].  A decoded value that is not a dict, or a
    dict whose intent is a list or a dict, ends in the [except Exception]
    branch, like every other error that is not a [JSONDecodeError]. *)
Definition _parse_intent_response (response : str) : dict :=
  let response := unfenced response in
  match json_loads response with
  | JSONDecodeError => _fallback_intent_extraction response
  | OtherError => result_of (u "unknown") (JNum 0.0)
  | Loaded (JObj result) =>
      if negb (has result (u "intent")) then result_of (u "unknown") (JNum 0.0)
      else
        let result := if has result (u "entities") then result
                      else set result (u "entities") (JObj []) in
        let result := if has result (u "confidence") then result
                      else set result (u "confidence") (JNum 0.5) in
        match get result (u "intent") with
        | Some (JArr _) | Some (JObj _) | None => result_of (u "unknown") (JNum 0.0)
        | Some (JStr i) =>
            if mem i VALID_INTENTS then result
            else set result (u "intent") (JStr (u "unknown"))
        | Some _ => set result (u "intent") (JStr (u "unknown"))
        end
  | Loaded _ => result_of (u "unknown") (JNum 0.0)
  end.

Section Calls.

(** The completion service: the outcome of its n-th call. *)
Variable service : nat -> outcome.
Variable settings : Settings.

(** One [await asyncio.wait_for(asyncio.to_thread(model.generate_content,
    prompt), timeout=...)] followed by [response.text]. *)
Definition generate_content : M str :=
  fun n => match service n with
           | Replied text => (inl text, S n)
           | TimedOut => (inr TimeoutError, S n)
           | Failed e => (inr (Exception e), S n)
           end.

(** [llm_complete] *)
Definition llm_complete : M str :=
  try_except generate_content
    (fun e =>
       match e with
       | TimeoutError => raise (Exception (u "LLM request timed out"))
       | Exception _ =>
           (* Retry once *)
           try_except generate_content
             (fun _ => raise (Exception (u "LLM request failed: " ++ message_of e)%list))
       end).

(** [classify_intent].  Building the prompt only formats text and is left
    out. *)
Definition classify_intent (message : str) : M dict :=
  try_except
    (response <- llm_complete ;;
     let result := _parse_intent_response response in
     let confidence :=
       match get result (u "confidence") with Some c => c | None => JNum 0.0 end in
     match lt_float confidence (intent_confidence_threshold settings) with
     | None => raise (Exception (u "TypeError"))
     | Some true => ret (result_of (u "unknown") confidence)
     | Some false => ret result
     end)
    (fun _ => ret (result_of (u "unknown") (JNum 0.0))).

End Calls.

End Parsing.

End Gemini.

(* ====================================================================== *)
(** * The Groq/OpenAI adapter: [app/agno_runtime.py] *)
(* ====================================================================== *)

Module Groq.

Import Text Json.
Local Open Scope string_scope.
Local Open Scope Q_scope.

(** The module-level configuration, read from the environment at import. *)
Record Config := {
  AGNO_ENABLED : bool;
  AGNO_PROVIDER : str;
  GROQ_API_KEY : str;
  OPENAI_API_KEY : str;
  AGNO_TIMEOUT : Q
}.

(** [is_agno_enabled] *)
Definition is_agno_enabled (c : Config) : bool :=
  if negb (AGNO_ENABLED c) then false
  else if str_eqb (AGNO_PROVIDER c) (u "groq") && falsy (GROQ_API_KEY c) then false
  else if str_eqb (AGNO_PROVIDER c) (u "openai") && falsy (OPENAI_API_KEY c) then false
  else true.

(** What happens to the awaited classification: the [asyncio.wait_for]
    expires, the [groq] package cannot be imported, the completion call
    fails, or it returns a message content. *)
Inductive event :=
| Expired
| ImportFailed
| CallFailed
| Content (c : str).

(** What [classify_intent] raises. *)
Inductive http_error :=
| HTTPException (status_code : nat) (error : str).

Definition HTTP_504_GATEWAY_TIMEOUT : nat := 504.

Definition reply (i : string) (c : Q) : dict :=
  [(u "intent", JStr (u i)); (u "entities", JObj []); (u "confidence", JNum c)].

Section Adapter.

Variable lower : str -> str.
Variable json_loads : str -> loaded.

(** [any(word in message_lower for word in words)] *)
Definition any_in (message_lower : str) (words : list string) : bool :=
  existsb (fun w => contains message_lower (u w)) words.

(** [_classify_with_patterns] *)
Definition _classify_with_patterns (message : str) : dict :=
  let message_lower := lower message in
  let has w := contains message_lower (u w) in
  if any_in message_lower ["help"; "assist"; "guide"; "hi"; "hello"; "bonjour"]%string
  then reply "help" 0.95
  else if has "ref" || (has "status" && has "booking")
  then reply "booking_status" 0.90
  else if any_in message_lower ["book"; "reserve"; "create"; "réserver"]%string
  then reply "booking_create" 0.85
  else if any_in message_lower ["available"; "slot"; "free"; "disponible"]%string
  then reply "slot_availability" 0.85
  else if has "passage" || has "history" || has "historique"
  then reply "passage_history" 0.85
  else if has "blockchain" || has "proof" || has "verify"
  then reply "blockchain_audit" 0.85
  else if has "carrier" && (has "score" || has "performance")
  then reply "carrier_scoring" 0.85
  else reply "help" 0.60.

(** The content handed to [json.loads] by [_classify_with_groq]. *)
Definition groq_unfenced (content : str) : str :=
  let content := strip content in
  if startswith content (u "```") then
    let content := nth 1 (split_str (List.length content) (u "```") [] content) [] in
    if startswith content (u "json") then drop 4 content else content
  else content.

(** [_classify_with_groq], once the awaited call has completed: every
    failure inside it falls back to the patterns.  The result is returned
    as decoded; the log line reads its ["intent"] and ["confidence"]. *)
Definition _classify_with_groq (message : str) (e : event) : dict :=
  match e with
  | Content c =>
      match json_loads (groq_unfenced c) with
      | Loaded (JObj result) =>
          if has result (u "intent") && has result (u "confidence") then result
          else _classify_with_patterns message
      | _ => _classify_with_patterns message
      end
  | _ => _classify_with_patterns message
  end.

(** [_classify_with_openai] *)
Definition _classify_with_openai (message : str) : dict :=
  _classify_with_patterns message.

(** [classify_intent] *)
Definition classify_intent (c : Config) (message : str) (e : event)
  : dict + http_error :=
  if negb (is_agno_enabled c) then inl (_classify_with_patterns message)
  else
    match e with
    | Expired => inr (HTTPException HTTP_504_GATEWAY_TIMEOUT (u "agno_timeout"))
    | _ =>
        if str_eqb (AGNO_PROVIDER c) (u "groq")
        then inl (_classify_with_groq message e)
        else inl (_classify_with_openai message)
    end.

End Adapter.

End Groq.

(* ====================================================================== *)
(** * The endpoint's role gate: [app/api/chat.py] *)
(* ====================================================================== *)

Module Chat.

Import Text.

Definition ALLOWED_ROLES : list str := [u "ADMIN"; u "OPERATOR"; u "CARRIER"].

(** [ChatRequest] *)
Record ChatRequest := {
  message : str;
  user_id : Z;
  user_role : str;
  conversation_id : option str
}.

(** [ChatResponse] *)
Record ChatResponse := {
  response_conversation_id : str;
  response_message : str;
  response_intent : option str
}.

Inductive http_error :=
| HTTPException (status_code : nat) (detail : str).

Definition HTTP_400_BAD_REQUEST : nat := 400.

Section Endpoint.

Variable upper : str -> str.

(** Everything [chat] does after the role gate: conversation, history, the
    orchestrator and its access policy.  It receives the normalised role. *)
Variable serve : str -> ChatRequest -> ChatResponse + http_error.

(** [chat] *)
Definition chat (request : ChatRequest) : ChatResponse + http_error :=
  let role := upper (strip (user_role request)) in
  if negb (mem role ALLOWED_ROLES) then
    inr (HTTPException HTTP_400_BAD_REQUEST
           (u "Invalid user_role. Must be one of: ADMIN, CARRIER, OPERATOR"))
  else serve role request.

End Endpoint.

End Chat.

(* ====================================================================== *)
(** * An executable instance of [json.loads]

    [PyJson.json_loads] decodes the JSON grammar as Python's decoder does
    (with its [NaN] and [Infinity] literals); numbers are the rationals
    they denote, and an escaped surrogate pair is left as two code
    points. *)
(* ====================================================================== *)

Module PyJson.

Import Text Json.
Local Open Scope N_scope.

Definition is_ws (c : N) : bool := (c =? 32) || (c =? 9) || (c =? 10) || (c =? 13).

Fixpoint skip_ws (s : str) : str :=
  match s with
  | c :: r => if is_ws c then skip_ws r else s
  | [] => []
  end.

Definition is_digit (c : N) : bool := (48 <=? c) && (c <=? 57).

(** A run of digits: its value, its length and the rest. *)
Fixpoint digits (acc : N) (count : nat) (s : str) : N * nat * str :=
  match s with
  | c :: r => if is_digit c then digits (10 * acc + (c - 48)) (S count) r
              else (acc, count, s)
  | [] => (acc, count, s)
  end.

Definition hex_val (c : N) : option N :=
  if is_digit c then Some (c - 48)
  else if (97 <=? c) && (c <=? 102) then Some (c - 87)
  else if (65 <=? c) && (c <=? 70) then Some (c - 55)
  else None.

Definition hex4 (a b c d : N) : option N :=
  match hex_val a, hex_val b, hex_val c, hex_val d with
  | Some x, Some y, Some z, Some w => Some (x * 4096 + y * 256 + z * 16 + w)
  | _, _, _, _ => None
  end.

Definition simple_escape (e : N) : option N :=
  if (e =? 34) || (e =? 92) || (e =? 47) then Some e
  else if e =? 98 then Some 8
  else if e =? 102 then Some 12
  else if e =? 110 then Some 10
  else if e =? 114 then Some 13
  else if e =? 116 then Some 9
  else None.

(** A string, after its opening quote. *)
Fixpoint p_string (acc : str) (s : str) : option (str * str) :=
  match s with
  | [] => None
  | c :: r =>
      if c =? 34 then Some (rev acc, r)
      else if c =? 92 then
        match r with
        | e :: r1 =>
            if e =? 117 then
              match r1 with
              | h1 :: h2 :: h3 :: h4 :: r2 =>
                  match hex4 h1 h2 h3 h4 with
                  | Some x => p_string (x :: acc) r2
                  | None => None
                  end
              | _ => None
              end
            else match simple_escape e with
                 | Some x => p_string (x :: acc) r1
                 | None => None
                 end
        | [] => None
        end
      else if c <? 32 then None
      else p_string (c :: acc) r
  end.

Definition pow10 (n : nat) : positive := Pos.pow 10 (Pos.of_nat n).

(** The value [sign * (int + frac / 10^fd) * 10^(esign * e)]. *)
Definition decimal (negative : bool) (int frac : N) (fd : nat)
           (eneg : bool) (e : nat) : Q :=
  let scale := match fd with O => 1%positive | _ => pow10 fd end in
  let mant := (Z.of_N int * Zpos scale + Z.of_N frac)%Z in
  let mant := if negative then (- mant)%Z else mant in
  let base := Qmake mant scale in
  match e with
  | O => base
  | _ => if eneg then Qmult base (Qmake 1 (pow10 e))
         else Qmult base (Qmake (Zpos (pow10 e)) 1)
  end.

(** A number, after its optional sign. *)
Definition p_number (negative : bool) (s : str) : option (json * str) :=
  match s with
  | [] => None
  | c :: r =>
      if negb (is_digit c) then None
      else
        let '(int, _, r1) := if c =? 48 then (0, 1%nat, r) else digits 0 0 s in
        let '(frac, fd, r2) :=
          match r1 with
          | 46 :: d :: r' => if is_digit d then digits 0 0 (d :: r') else (0, 0%nat, r1)
          | _ => (0, 0%nat, r1)
          end in
        let '(eneg, e, r3) :=
          match r2 with
          | x :: y :: r' =>
              if (x =? 101) || (x =? 69) then
                if is_digit y then let '(v, _, r4) := digits 0 0 (y :: r') in
                                   (false, N.to_nat v, r4)
                else if (y =? 43) || (y =? 45) then
                  match r' with
                  | d :: _ => if is_digit d
                              then let '(v, _, r4) := digits 0 0 r' in
                                   (y =? 45, N.to_nat v, r4)
                              else (false, 0%nat, r2)
                  | [] => (false, 0%nat, r2)
                  end
                else (false, 0%nat, r2)
              else (false, 0%nat, r2)
          | _ => (false, 0%nat, r2)
          end in
        Some (JNum (decimal negative int frac fd eneg e), r3)
  end.

Fixpoint p_value (fuel : nat) (s : str) {struct fuel} : option (json * str) :=
  match fuel with
  | O => None
  | S f =>
      if startswith s (u "null") then Some (JNull, skipn 4 s)
      else if startswith s (u "true") then Some (JBool true, skipn 4 s)
      else if startswith s (u "false") then Some (JBool false, skipn 5 s)
      else if startswith s (u "NaN") then Some (JNaN, skipn 3 s)
      else if startswith s (u "Infinity") then Some (JInf false, skipn 8 s)
      else if startswith s (u "-Infinity") then Some (JInf true, skipn 9 s)
      else
        match s with
        | [] => None
        | c :: r =>
            if c =? 34 then
              match p_string [] r with
              | Some (x, r1) => Some (JStr x, r1)
              | None => None
              end
            else if c =? 123 then
              match skip_ws r with
              | 125 :: r1 => Some (JObj [], r1)
              | r1 => p_members f [] r1
              end
            else if c =? 91 then
              match skip_ws r with
              | 93 :: r1 => Some (JArr [], r1)
              | r1 => p_elems f [] r1
              end
            else if c =? 45 then p_number true r
            else p_number false s
        end
  end
with p_elems (fuel : nat) (acc : list json) (s : str) {struct fuel}
  : option (json * str) :=
  match fuel with
  | O => None
  | S f =>
      match p_value f s with
      | Some (v, r) =>
          match skip_ws r with
          | 44 :: r1 => p_elems f (v :: acc) (skip_ws r1)
          | 93 :: r1 => Some (JArr (rev (v :: acc)), r1)
          | _ => None
          end
      | None => None
      end
  end
with p_members (fuel : nat) (acc : dict) (s : str) {struct fuel}
  : option (json * str) :=
  match fuel with
  | O => None
  | S f =>
      match s with
      | 34 :: r =>
          match p_string [] r with
          | Some (k, r1) =>
              match skip_ws r1 with
              | 58 :: r2 =>
                  match p_value f (skip_ws r2) with
                  | Some (v, r3) =>
                      match skip_ws r3 with
                      | 44 :: r4 => p_members f (set acc k v) (skip_ws r4)
                      | 125 :: r4 => Some (JObj (set acc k v), r4)
                      | _ => None
                      end
                  | None => None
                  end
              | _ => None
              end
          | None => None
          end
      | _ => None
      end
  end.

Definition json_loads (s : str) : loaded :=
  match p_value (2 * List.length s + 2) (skip_ws s) with
  | Some (v, r) => match skip_ws r with
                   | [] => Loaded v
                   | _ => JSONDecodeError
                   end
  | None => JSONDecodeError
  end.

End PyJson.

(* ====================================================================== *)
(** * Python values: truthiness, [len], [dict.get] *)
(* ====================================================================== *)

Module PyValue.

Import Text Json.

(** [bool(v)] *)
Definition truthy (v : json) : bool :=
  match v with
  | JNull => false
  | JBool b => b
  | JNum q => negb (Qeq_bool q 0)
  | JInf _ => true
  | JNaN => true
  | JStr s => negb (falsy s)
  | JArr l => match l with [] => false | _ => true end
  | JObj d => match d with [] => false | _ => true end
  end.

(** [len(v)]; [None] where Python raises [TypeError]. *)
Definition len (v : json) : option nat :=
  match v with
  | JStr s => Some (List.length s)
  | JArr l => Some (List.length l)
  | JObj d => Some (List.length d)
  | _ => None
  end.

(** [d.get(k)]: [None] for a missing key. *)
Definition getv (d : dict) (k : str) : json :=
  match get d k with Some v => v | None => JNull end.

(** [d.get(k, default)] *)
Definition get_default (d : dict) (k : str) (default : json) : json :=
  match get d k with Some v => v | None => default end.

(** [a or b] *)
Definition or_else (a b : json) : json := if truthy a then a else b.

(** [isinstance(v, dict)] *)
Definition is_dict (v : json) : bool :=
  match v with JObj _ => true | _ => false end.

End PyValue.

(* ====================================================================== *)
(** * The message polisher: [app/agno_runtime/message_polisher.py] *)
(* ====================================================================== *)

Module Polisher.

Import Text Json PyValue Gemini.
Local Open Scope string_scope.

Section Polish.

Variable service : nat -> outcome.

(** [polish_message].  The agent's message is whatever the response dict
    holds under ["message"]; building the prompt only formats text. *)
Definition polish_message (agent_response : dict) : M json :=
  try_except
    (let agent_message := get_default agent_response (u "message") (JStr []) in
     if negb (truthy agent_message) then ret agent_message
     else
       match len agent_message with
       | None => raise (Exception (u "TypeError"))
       | Some n =>
           if (n <? 10)%nat then ret agent_message
           else
             polished <- llm_complete service ;;
             let polished := strip polished in
             if falsy polished || (List.length polished <? 5)%nat
             then ret agent_message
             else ret (JStr polished)
       end)
    (fun _ => ret (get_default agent_response (u "message") (JStr []))).

End Polish.

End Polisher.

(* ====================================================================== *)
(** * The prompt's history section: [app/agno_runtime/prompts.py] *)
(* ====================================================================== *)

Module Prompts.

Import Text Json PyValue.
Local Open Scope string_scope.

Section Format.

(** [str(v)], as an f-string renders a value. *)
Variable py_str : json -> str.

(** One line of the history section; [None] for an entry without [get],
    where Python raises [AttributeError]. *)
Definition format_turn (msg : json) : option str :=
  match msg with
  | JObj d =>
      let role := get_default d (u "role") (JStr (u "unknown")) in
      let content := get_default d (u "content") (JStr []) in
      Some (py_str role ++ u ": " ++ py_str content)%list
  | _ => None
  end.

Fixpoint format_turns (recent : list json) : option (list str) :=
  match recent with
  | [] => Some []
  | msg :: rest =>
      match format_turn msg, format_turns rest with
      | Some line, Some lines => Some (line :: lines)
      | _, _ => None
      end
  end.

(** [history[-3:]] *)
Definition last_three (history : list json) : list json :=
  skipn (List.length history - 3) history.

(** [format_history_for_prompt] *)
Definition format_history_for_prompt (history : list json) : option str :=
  match history with
  | [] => Some (u "(No previous messages)")
  | _ =>
      match format_turns (last_three history) with
      | Some formatted => Some (join [10%N] formatted)
      | None => None
      end
  end.

End Format.

End Prompts.

(* ====================================================================== *)
(** * Client initialisation: [_initialize_client] of [llm_provider.py] *)
(* ====================================================================== *)

Module Provider.

Import Text.

(** The module's global [_client_initialized], with the number of
    [genai.configure] calls made so far. *)
Record Client := {
  _client_initialized : bool;
  configure_calls : nat
}.

Definition fresh : Client := {| _client_initialized := false; configure_calls := 0 |}.

Section Initialise.

(** [settings.api_key], and whether the n-th [genai.configure] call
    succeeds. *)
Variable api_key : str.
Variable configure_ok : nat -> bool.

(** [_initialize_client] *)
Definition _initialize_client (c : Client) : Client :=
  if _client_initialized c then c
  else if falsy api_key then c
  else {| _client_initialized := configure_ok (configure_calls c);
          configure_calls := S (configure_calls c) |}.

(** [_initialize_client] called [k] times, as [k] calls of [llm_complete]
    do. *)
Fixpoint after_calls (k : nat) (c : Client) : Client :=
  match k with
  | O => c
  | S k' => after_calls k' (_initialize_client c)
  end.

End Initialise.

End Provider.

(* ====================================================================== *)
(** * The endpoint's helpers: [app/api/chat.py] *)
(* ====================================================================== *)

Module ChatHelpers.

Import Text Json PyValue.
Local Open Scope string_scope.

(** [conversation.get("data", {}).get(k)]; [None] where the value under
    ["data"] has no [get] and Python raises [AttributeError]. *)
Definition data_get (conversation : dict) (k : str) : option json :=
  match get_default conversation (u "data") (JObj []) with
  | JObj d => Some (getv d k)
  | _ => None
  end.

(** [[m for m in msgs if isinstance(m, dict)]] when [msgs] is a list, the
    empty list otherwise. *)
Definition dicts_of (msgs : json) : list json :=
  match msgs with
  | JArr l => filter is_dict l
  | _ => []
  end.

(** [_extract_messages] *)
Definition _extract_messages (conversation_payload : json) : option (list json) :=
  match conversation_payload with
  | JObj p =>
      let a := getv p (u "messages") in
      if truthy a then Some (dicts_of a)
      else
        match data_get p (u "messages") with
        | None => None
        | Some b =>
            if truthy b then Some (dicts_of b)
            else Some (dicts_of (or_else (getv p (u "items")) (JArr [])))
        end
  | _ => None
  end.

Definition RESERVED : list str := [u "role"; u "content"; u "message"; u "text"].

(** [for k, v in msg.items(): if k not in {...}: normalized_msg[k] = v] *)
Definition keep_other_fields (msg normalized_msg : dict) : dict :=
  fold_left (fun acc kv => if mem (fst kv) RESERVED then acc
                           else set acc (fst kv) (snd kv))
            msg normalized_msg.

Section Normalize.

Variable upper : str -> str.
Variable lower : str -> str.
Variable py_str : json -> str.

(** The module's [MESSAGE_ROLE_USER] and [MESSAGE_ROLE_ASSISTANT], read
    from the environment. *)
Variable MESSAGE_ROLE_USER : str.
Variable MESSAGE_ROLE_ASSISTANT : str.

(** The role a message is kept under; [None] for a message that is
    skipped. *)
Definition norm_role (msg : dict) : option str :=
  let role_raw := get_default msg (u "role") (JStr []) in
  let role := match role_raw with JStr s => upper s | _ => [] end in
  if mem role [upper MESSAGE_ROLE_USER; u "USER"] then Some (u "user")
  else if mem role [upper MESSAGE_ROLE_ASSISTANT; u "ASSISTANT"] then Some (u "assistant")
  else
    match role_raw with
    | JStr s => if mem (lower s) [u "user"; u "assistant"] then Some (lower s) else None
    | _ => None
    end.

(** The body of the loop for a message that is kept. *)
Definition normalized_msg (msg : dict) (role : str) : dict :=
  let content :=
    or_else (getv msg (u "content"))
      (or_else (getv msg (u "message"))
         (or_else (getv msg (u "text")) (JStr []))) in
  let content := strip (py_str content) in
  keep_other_fields msg [(u "role", JStr role); (u "content", JStr content)].

(** [_normalize_history]; [None] where an entry has no [get]. *)
Fixpoint _normalize_history (raw_messages : list json) : option (list dict) :=
  match raw_messages with
  | [] => Some []
  | JObj msg :: rest =>
      match _normalize_history rest with
      | None => None
      | Some normalized =>
          match norm_role msg with
          | Some role => Some (normalized_msg msg role :: normalized)
          | None => Some normalized
          end
      end
  | _ :: _ => None
  end.

End Normalize.

(** [raw_history] in [chat]: what [_extract_messages] makes of the fetched
    payload, and the empty list when fetching or extracting raised. *)
Definition raw_history (fetched : option json) : list json :=
  match fetched with
  | Some payload =>
      match _extract_messages payload with
      | Some msgs => msgs
      | None => []
      end
  | None => []
  end.

(** [orchestrator_context.update(request.context)] *)
Definition update (d other : dict) : dict :=
  fold_left (fun acc kv => set acc (fst kv) (snd kv)) other d.

(** [orchestrator_context] in [chat], from the [Authorization] header, the
    [llm] query flag and the request's [context]. *)
Definition orchestrator_context
           (auth_header : json) (llm : bool) (context : option dict) : dict :=
  let orchestrator_context :=
    [(u "auth_header", auth_header); (u "force_deterministic", JBool (negb llm))] in
  match context with
  | Some ((_ :: _) as c) =>
      let orchestrator_context := update orchestrator_context c in
      let orchestrator_context := set orchestrator_context (u "auth_header") auth_header in
      set orchestrator_context (u "force_deterministic") (JBool (negb llm))
  | _ => orchestrator_context
  end.

End ChatHelpers.

(* ====================================================================== *)
(** * The follow-up resolver on histories as the code receives them

    [detect_intent] and [_get_last_intent] of [intent_detector.py] over a
    history of arbitrary decoded values: the recorded intent of a turn may
    be any value, and a [metadata] that is present but no dict makes the
    lookup raise. *)
(* ====================================================================== *)

Module FollowUp.

Import Text Json PyValue.
Local Open Scope Q_scope.

(** The exceptions the resolver can raise. *)
Inductive exn :=
| AttributeError
| TypeError.

(** [x in ("a", "b", ...)] for any value [x]: only a string equals a
    string. *)
Definition in_strs (x : json) (l : list str) : bool :=
  match x with
  | JStr s => mem s l
  | _ => false
  end.

(** [msg.get("intent") or msg.get("metadata", {}).get("intent")] *)
Definition recorded_intent (msg : dict) : json + exn :=
  let intent := getv msg (u "intent") in
  if truthy intent then inl intent
  else
    match get_default msg (u "metadata") (JObj []) with
    | JObj metadata => inl (getv metadata (u "intent"))
    | _ => inr AttributeError
    end.

(** The body of the loop of [_get_last_intent] on one entry: it returns an
    intent ([Some]), goes on to the next entry ([None]), or raises. *)
Definition eligible (msg : json) : option json + exn :=
  match msg with
  | JObj d =>
      match recorded_intent d with
      | inr e => inr e
      | inl intent =>
          if truthy intent && negb (in_strs intent Detector.GENERIC_INTENTS)
          then inl (Some intent)
          else inl None
      end
  | _ => inl None
  end.

Fixpoint first_eligible (msgs : list json) : option json + exn :=
  match msgs with
  | [] => inl None
  | msg :: rest =>
      match eligible msg with
      | inl None => first_eligible rest
      | r => r
      end
  end.

(** [_get_last_intent]: [for msg in reversed(history)]. *)
Definition _get_last_intent (history : list json) : option json + exn :=
  match history with
  | [] => inl None
  | _ => first_eligible (rev history)
  end.

(** [_get_entity_hints]: [hints.get(intent, default)] hashes the intent,
    which a list or a dict does not allow. *)
Definition _get_entity_hints (intent : json) : Detector.hints + exn :=
  match intent with
  | JStr i => inl (Detector._get_entity_hints i)
  | JArr _ | JObj _ => inr TypeError
  | _ => inl [(u "expected", []); (u "optional", [])]
  end.

(** [IntentResult], whose [intent] is whatever the history recorded. *)
Record IntentResult := {
  intent : json;
  confidence : Q;
  reasoning : list str;
  entities_hint : Detector.hints
}.

Section Classifier.

Variable lower : str -> str.
Variable re_search : string -> str -> bool.
Variable py_str : json -> str.

(** [detect_intent], over the rule table it reads. *)
Definition detect_intent_with (t : Detector.table) (message : str)
           (history : list json) : IntentResult + exn :=
  if falsy message || falsy (strip message) then
    inl {| intent := JStr (u "unknown"); confidence := 1.0;
           reasoning := [u "empty_message"]; entities_hint := [] |}
  else
    let message_lower := strip (lower message) in
    let message_words := split message_lower in
    let all_matches :=
      Detector.sort_desc (Detector.scan_groups re_search t message_lower []) in
    match all_matches with
    | (i, conf, reasons) :: _ =>
        inl {| intent := JStr i; confidence := conf; reasoning := reasons;
               entities_hint := Detector._get_entity_hints i |}
    | [] =>
        let unknown :=
          {| intent := JStr (u "unknown"); confidence := 0.5;
             reasoning := [u "no_pattern_matched"]; entities_hint := [] |} in
        match history with
        | [] => inl unknown
        | _ =>
            let is_short := (List.length message_words <=? 4)%nat in
            let has_follow_up_keyword :=
              re_search Detector.FOLLOW_UP_PATTERN message_lower in
            if is_short || has_follow_up_keyword then
              match _get_last_intent history with
              | inr e => inr e
              | inl None => inl unknown
              | inl (Some last_intent) =>
                  if truthy last_intent
                     && negb (in_strs last_intent Detector.LOW_INFORMATION)
                  then
                    match _get_entity_hints last_intent with
                    | inr e => inr e
                    | inl hints =>
                        inl {| intent := last_intent; confidence := 0.70;
                               reasoning := [u "follow_up_pattern";
                                             (u "last_intent:"
                                                ++ py_str last_intent)%list];
                               entities_hint := hints |}
                    end
                  else inl unknown
              end
            else inl unknown
        end
    end.

Definition detect_intent : str -> list json -> IntentResult + exn :=
  detect_intent_with Detector.INTENT_PATTERNS.

End Classifier.

(** A turn of the typed history as the decoded value it stands for. *)
Definition of_turn (t : Detector.Turn) : dict :=
  ([(u "role", JStr (Detector.role t)); (u "content", JStr (Detector.content t))]
   ++ match Detector.turn_intent t with
      | Some i => [(u "intent", JStr i)]
      | None => []
      end
   ++ match Detector.metadata t with
      | Some m => [(u "metadata", JObj (map (fun kv => (fst kv, JStr (snd kv))) m))]
      | None => []
      end)%list.

Definition of_entry (e : Detector.entry) : json :=
  match e with
  | Detector.Dict t => JObj (of_turn t)
  | Detector.NotDict => JNull
  end.

Definition of_result (r : Detector.IntentResult) : IntentResult :=
  {| intent := JStr (Detector.intent r);
     confidence := Detector.confidence r;
     reasoning := Detector.reasoning r;
     entities_hint := Detector.entities_hint r |}.

End FollowUp.

(* ====================================================================== *)
(** * The Gemini adapter with its prompt and its log lines

    [classify_intent] of [intent_classifier.py] with everything its [try]
    encloses: building the prompt from the history, the completion, the
    threshold, and the two log lines that format the confidence. *)
(* ====================================================================== *)

Module IntentClassifier.

Import Text Json PyValue Gemini Prompts.
Local Open Scope Q_scope.

(** The least magnitude of an [int] that has no [float]: conversion rounds
    to nearest, and from here on the nearest is beyond the largest
    float. *)
Definition FLOAT_OVERFLOW : Q := inject_Z (2 ^ 1024 - 2 ^ 970).

(** Whether [f"{x:.2f}"] returns; it raises [OverflowError] on an [int]
    that has no [float].  A [JNum] beyond the bound can only be an [int]:
    a [float] is never that large. *)
Definition formats_2f (x : json) : bool :=
  match x with
  | JNum q => negb (Qle_bool FLOAT_OVERFLOW q || Qle_bool q (- FLOAT_OVERFLOW))
  | JBool _ | JInf _ | JNaN => true
  | _ => false
  end.

Section Calls.

Variable lower : str -> str.
Variable json_loads : str -> loaded.
Variable py_str : json -> str.
Variable service : nat -> outcome.
Variable settings : Settings.

(** The module's constant [INTENT_SYSTEM_PROMPT]. *)
Variable INTENT_SYSTEM_PROMPT : str.

(** [build_intent_prompt]; [None] where [format_history_for_prompt]
    raises. *)
Definition build_intent_prompt (message : str) (history : list json) : option str :=
  match format_history_for_prompt py_str history with
  | None => None
  | Some history_text =>
      let user_prompt :=
        (u "User message: " ++ [34%N] ++ message ++ [34%N] ++ [10%N; 10%N]
         ++ u "Conversation history (last 3 messages):" ++ [10%N]
         ++ history_text ++ [10%N; 10%N]
         ++ u "Classify the intent and extract entities. Return ONLY JSON.")%list in
      Some (INTENT_SYSTEM_PROMPT ++ [10%N; 10%N] ++ user_prompt)%list
  end.

(** [classify_intent] *)
Definition classify_intent (message : str) (history : list json) : M dict :=
  try_except
    (match build_intent_prompt message history with
     | None => raise (Exception (u "AttributeError"))
     | Some prompt =>
         response <- llm_complete service ;;
         let result := _parse_intent_response lower json_loads response in
         let confidence := get_default result (u "confidence") (JNum 0.0) in
         match lt_float confidence (intent_confidence_threshold settings) with
         | None => raise (Exception (u "TypeError"))
         | Some low =>
             if formats_2f confidence then
               if low then ret (result_of (u "unknown") confidence) else ret result
             else raise (Exception (u "OverflowError"))
         end
     end)
    (fun _ => ret (result_of (u "unknown") (JNum 0.0))).

End Calls.

End IntentClassifier.

(* ====================================================================== *)
(** * The access policy *)
(* ====================================================================== *)

Module Policy.

Import Text.

(** The RoleSet and the bypass intents of the specification. *)
Definition ROLE_SET : list str := [u "ADMIN"; u "OPERATOR"; u "CARRIER"].

Definition BYPASS_INTENTS : list str := [u "help"; u "unknown"].

(** What the AUTHORIZE state hands on: the intent to DISPATCH, or the
    terminal [forbidden] response. *)
Inductive decision :=
| Dispatch (intent : str)
| Forbidden.

Section Table.

(** [str.upper], and the rows of the static table: the intents permitted
    to each role of the RoleSet. *)
Variable upper : str -> str.
Variable permitted : str -> list str.

(** Modelled from the spec: the access policy [authorize(intent, role)],
    which the repository implements in [Orchestrator._rbac_check]; the
    orchestrator is not under [src/], only its tests and its caller are.
    The specification: pure lookup in a static role to allowed-intents
    table; [help] and [unknown] are always authorized regardless of role;
    all other roles not present in the table are denied everything except
    the bypass intents; the case of the role string is normalized
    (upper-cased) before lookup. *)
Definition authorize (intent role : str) : bool :=
  if mem intent BYPASS_INTENTS then true
  else
    let role := upper role in
    if mem role ROLE_SET then mem intent (permitted role) else false.

(** Modelled from the spec: the AUTHORIZE state of the orchestrator's
    request lifecycle ([Orchestrator.handle_message], not under [src/]):
    it consults the access policy, and a failure produces a terminal
    [forbidden] response without reaching DISPATCH. *)
Definition authorize_state (intent role : str) : decision :=
  if authorize intent role then Dispatch intent else Forbidden.

End Table.

End Policy.

(* ====================================================================== *)
(** * Notions the properties are stated with *)
(* ====================================================================== *)

Module Notions.

Import Text Detector.
Local Open Scope Q_scope.

Section Hits.

Variable re_search : string -> str -> bool.

(** The hit of one group: its intent with the result of its rule scan, when
    one of its rules matches. *)
Definition group_hit (text : str) (g : str * list rule) : list hit :=
  match matching re_search text (snd g) with
  | [] => []
  | _ => [(fst g, snd (scan_rules re_search (snd g) text [] 0.0),
           fst (scan_rules re_search (snd g) text [] 0.0))]
  end.

(** The groups with a matching rule, in the order of the table. *)
Definition group_hits (t : table) (text : str) : list hit :=
  flat_map (group_hit text) t.

End Hits.

(** The patterns of a table. *)
Definition table_patterns (t : table) : list string :=
  flat_map (fun g => map rule_pattern (snd g)) t.

(** Every confidence of a table is positive. *)
Definition positive_table (t : table) : Prop :=
  forall i rules r, In (i, rules) t -> In r rules -> 0.0 < rule_confidence r.

Definition positive_tableb (t : table) : bool :=
  forallb (fun g => forallb (fun r => Qltb 0.0 (rule_confidence r)) (snd g)) t.

(** The results [detect_intent] builds. *)
Definition unknown_result : IntentResult :=
  {| intent := u "unknown"; confidence := 0.5;
     reasoning := [u "no_pattern_matched"]; entities_hint := [] |}.

Definition follow_up_result (i : str) : IntentResult :=
  {| intent := i; confidence := 0.70;
     reasoning := [u "follow_up_pattern"; (u "last_intent:" ++ i)%list];
     entities_hint := _get_entity_hints i |}.

Definition hit_result (w : hit) : IntentResult :=
  {| intent := hit_intent w; confidence := hit_confidence w;
     reasoning := hit_reasons w; entities_hint := _get_entity_hints (hit_intent w) |}.

(** A message of the Groq/OpenAI adapter's pattern classifier matches some
    keyword family. *)
Definition any_family (message_lower : str) : bool :=
  let has w := contains message_lower (u w) in
  Groq.any_in message_lower ["help"; "assist"; "guide"; "hi"; "hello"; "bonjour"]%string
  || (has "ref"%string || (has "status"%string && has "booking"%string))
  || Groq.any_in message_lower ["book"; "reserve"; "create"; "réserver"]%string
  || Groq.any_in message_lower ["available"; "slot"; "free"; "disponible"]%string
  || (has "passage"%string || has "history"%string || has "historique"%string)
  || (has "blockchain"%string || has "proof"%string || has "verify"%string)
  || (has "carrier"%string && (has "score"%string || has "performance"%string)).

(** Written with apostrophes, read with double quotes. *)
Definition dq (s : str) : str := map (fun c => if N.eqb c 39 then 34%N else c) s.

End Notions.

(* ====================================================================== *)
(** * Concrete inputs *)
(* ====================================================================== *)

Module Runs.

Import Text Detector.
Local Open Scope string_scope.
Local Open Scope list_scope.

Definition book_available : str := u "book an available slot".

Definition and_terminal : str := u "and terminal A?".

Definition turn (r c : string) (i : option string) : entry :=
  Dict {| role := u r; content := u c;
          turn_intent := option_map u i; metadata := None |}.

Definition status_history : history :=
  [ turn "assistant" "status REF123" (Some "booking_status") ].

Definition blank_message : str := [32; 9; 10; 32]%N.

(** A completion service that never answers in time. *)
Definition stalled : nat -> Gemini.outcome := fun _ => Gemini.TimedOut.

(** A completion service whose first call fails and whose later calls
    answer. *)
Definition flaky : nat -> Gemini.outcome :=
  fun n => match n with
           | O => Gemini.Failed (u "503 Service Unavailable")
           | _ => Gemini.Replied
                    (Notions.dq (u "{'intent': 'help', 'entities': {}, 'confidence': 0.9}"))
           end.

(** A completion service that answers in prose. *)
Definition chatty : nat -> Gemini.outcome :=
  fun _ => Gemini.Replied (u "The booking status is pending").

(** A completion service that answers as the prompt asks. *)
Definition obedient : nat -> Gemini.outcome :=
  fun _ => Gemini.Replied
             (Notions.dq (u "{'intent': 'booking_status', 'entities': {'booking_ref': 'BK123'}, 'confidence': 0.9}")).

Definition groq_on : Groq.Config :=
  {| Groq.AGNO_ENABLED := true; Groq.AGNO_PROVIDER := u "groq";
     Groq.GROQ_API_KEY := u "gsk_test"; Groq.OPENAI_API_KEY := [];
     Groq.AGNO_TIMEOUT := 6.0%Q |}.

(** The defaults of the module: [AGNO_ENABLED] is off. *)
Definition groq_off : Groq.Config :=
  {| Groq.AGNO_ENABLED := false; Groq.AGNO_PROVIDER := u "groq";
     Groq.GROQ_API_KEY := []; Groq.OPENAI_API_KEY := [];
     Groq.AGNO_TIMEOUT := 6.0%Q |}.

Definition gibberish : str := u "asdfgjkl qwty".

(** A request for help from a role the endpoint does not know. *)
Definition guest_help : Chat.ChatRequest :=
  {| Chat.message := u "help"; Chat.user_id := 1%Z;
     Chat.user_role := u "guest"; Chat.conversation_id := None |}.

(** A back end that answers every request it receives with the help
    reply, whatever the role. *)
Definition help_desk (role : str) (request : Chat.ChatRequest)
  : Chat.ChatResponse + Chat.http_error :=
  inl {| Chat.response_conversation_id := u "c-1";
         Chat.response_message := u "Here is what I can help you with";
         Chat.response_intent := Some (u "help") |}.

End Runs.

(* ====================================================================== *)
(** * Notions and inputs for the adapters' further properties *)
(* ====================================================================== *)

Module AdapterNotions.

Import Text Json Gemini.
Local Open Scope string_scope.
Local Open Scope list_scope.

(** A well-formed classification: the intent is a string of the closed
    set, and the dict has entities and a confidence. *)
Definition classified (d : dict) : Prop :=
  (exists i, get d (u "intent") = Some (JStr i) /\ In i VALID_INTENTS) /\
  has d (u "entities") = true /\ has d (u "confidence") = true.

(** A reply inside a code fence: the opening fence with its tag, the body
    on lines of its own, the closing fence. *)
Definition fenced (tag body : str) : str :=
  u "```" ++ tag ++ [10%N] ++ body ++ [10%N] ++ u "```".

(** A fenced reply written on one line. *)
Definition one_line_fenced : str :=
  Notions.dq (u "```json {'intent': 'help', 'entities': {}, 'confidence': 0.9} ```").

Definition help_json : str :=
  Notions.dq (u "{'intent': 'help', 'entities': {}, 'confidence': 0.9}").

(** A reply without a confidence, one with an intent outside the closed
    set. *)
Definition bare_intent : str := Notions.dq (u "{'intent': 'passage_history'}").

Definition foreign_intent : str :=
  Notions.dq (u "{'intent': 'carrier_scoring', 'entities': {'carrier': '456'}, 'confidence': 0.99}").

Definition replying (text : str) : nat -> outcome := fun _ => Replied text.

(** A service whose two first calls fail. *)
Definition down : nat -> outcome :=
  fun n => match n with
           | O => Failed (u "503 Service Unavailable")
           | _ => Failed (u "connection reset")
           end.

Definition long_answer : dict :=
  [(u "message", JStr (u "Booking REF123 is confirmed for terminal A"));
   (u "data", JObj [])].

Definition short_answer : dict := [(u "message", JStr (u "OK"))].

(** [str] on the values of these runs: a string renders as itself, [None]
    and the booleans by their names. *)
Definition plain (v : json) : str :=
  match v with
  | JStr s => s
  | JNull => u "None"
  | JBool true => u "True"
  | JBool false => u "False"
  | _ => []
  end.

Definition said (r c : string) : json :=
  JObj [(u "role", JStr (u r)); (u "content", JStr (u c))].

Definition three_turns : list json :=
  [said "user" "status REF123";
   said "assistant" "Booking REF123 is confirmed";
   said "user" "and terminal A?"].

(** A reply that names an intent no classifier knows, with little
    confidence. *)
Definition timid_foreign : str :=
  Notions.dq (u "{'intent': 'weather_report', 'confidence': 0.1}").

(** Messages as a backend may return them: an upper-case role with the
    text under [message] and an id, a system message, an assistant message
    with padded content. *)
Definition backend_messages : list json :=
  [JObj [(u "id", JNum 7); (u "role", JStr (u "USER"));
         (u "message", JStr (u "  status REF123 "))];
   JObj [(u "role", JStr (u "system")); (u "content", JStr (u "be brief"))];
   JObj [(u "role", JStr (u "Assistant"));
         (u "content", JStr (u "Booking REF123 is confirmed "));
         (u "intent", JStr (u "booking_status"))]].

(** A payload whose [messages] hold an entry that is no dict. *)
Definition backend_payload : json :=
  JObj [(u "data", JObj [(u "messages", JArr (JStr (u "stale") :: backend_messages))])].

(** A request context that tries to set the reserved keys. *)
Definition spoofed_context : dict :=
  [(u "auth_header", JStr (u "Bearer forged")); (u "terminal", JStr (u "A"));
   (u "force_deterministic", JBool true)].

(** The fields of a backend message that [_normalize_history] copies. *)
Definition other_field (kv : str * json) : bool :=
  negb (mem (fst kv) ChatHelpers.RESERVED).

(** A [genai.configure] whose first two attempts fail. *)
Definition late_configure (attempt : nat) : bool := (2 <=? attempt)%nat.

End AdapterNotions.

(* ====================================================================== *)
(** * Notions and inputs for the resolver, the classifier and the policy *)
(* ====================================================================== *)

Module RequestNotions.

Import Text Json PyValue.
Local Open Scope string_scope.
Local Open Scope Q_scope.

(** The results the follow-up path of [detect_intent] builds. *)
Definition unknown_result : FollowUp.IntentResult :=
  {| FollowUp.intent := JStr (u "unknown"); FollowUp.confidence := 0.5;
     FollowUp.reasoning := [u "no_pattern_matched"];
     FollowUp.entities_hint := [] |}.

Definition follow_up_result (py_str : json -> str) (i : json)
  : FollowUp.IntentResult + FollowUp.exn :=
  match FollowUp._get_entity_hints i with
  | inr e => inr e
  | inl hints =>
      inl {| FollowUp.intent := i; FollowUp.confidence := 0.70;
             FollowUp.reasoning := [u "follow_up_pattern";
                                    (u "last_intent:" ++ py_str i)%list];
             FollowUp.entities_hint := hints |}
  end.

(** The follow-up rule in the words of the specification: from the most
    recent turn back, the first intent that is not in
    {unknown, help, smalltalk}. *)
Fixpoint spec_first (msgs : list json) : option str :=
  match msgs with
  | [] => None
  | JObj d :: rest =>
      match get d (u "intent") with
      | Some (JStr i) =>
          if mem i Detector.LOW_INFORMATION then spec_first rest else Some i
      | _ => spec_first rest
      end
  | _ :: rest => spec_first rest
  end.

Definition spec_follow_up (history : list json) : option str :=
  spec_first (rev history).

(** Turns as the backend stores them. *)
Definition turn (r c : string) (i : option string) : json :=
  JObj ([(u "role", JStr (u r)); (u "content", JStr (u c))]
        ++ match i with Some i => [(u "intent", JStr (u i))] | None => [] end)%list.

(** A status question that was answered, then a request that was
    refused. *)
Definition refused_turns : list json :=
  [ turn "user" "status REF123" None;
    turn "assistant" "Booking REF123 is confirmed" (Some "booking_status");
    turn "user" "verify it on the blockchain" None;
    turn "assistant" "This feature is not available for your role" (Some "forbidden") ].

Definition status_turns : list json :=
  [ turn "assistant" "status REF123" (Some "booking_status") ].

(** A user turn saved with [intent=None] and no metadata, as [add_message]
    allows: both keys are present and hold [None]. *)
Definition unsaved_turn : json :=
  JObj [(u "role", JStr (u "user")); (u "content", JStr (u "and terminal A?"));
        (u "intent", JNull); (u "metadata", JNull)].

(** A reply whose confidence is an integer with no float. *)
Definition huge_confidence : json := JNum (inject_Z (10 ^ 400)).

(** The opening of the module's [INTENT_SYSTEM_PROMPT]; no run depends on
    the text. *)
Definition system_prompt : str :=
  u "You are an intent classifier for a Port Gate Management AI assistant.".

(** A history whose last entry is no dict. *)
Definition broken_history : list json :=
  [turn "user" "status REF123" None; JStr (u "assistant: Booking REF123 is confirmed")].

(** A reply with an intent outside the closed set and a confidence that
    is an integer with no float, and the text the model sends for it: the
    confidence is written as a one and four hundred zeros. *)
Definition huge_reply : dict :=
  [(u "intent", JStr (u "carrier_scoring")); (u "entities", JObj []);
   (u "confidence", huge_confidence)].

Definition huge_text : str :=
  (Notions.dq (u "{'intent': 'carrier_scoring', 'entities': {}, 'confidence': 1")
   ++ repeat 48%N 400 ++ u "}")%list.

(** The access table the repository's tests describe. *)
Definition tested_table (role : str) : list str :=
  if str_eqb role (u "CARRIER")
  then [u "booking_status"; u "booking_create"; u "slot_availability";
        u "passage_history"; u "help"]
  else [u "booking_status"; u "booking_create"; u "slot_availability";
        u "passage_history"; u "blockchain_audit"; u "help"].

End RequestNotions.

(* ====================================================================== *)
(** * Facts about text *)
(* ====================================================================== *)

Module TextFacts.

Import Text.

Lemma str_eqb_spec (a b : str) : str_eqb a b = true <-> a = b.
Proof.
  revert b; induction a as [|x a IH]; intros [|y b]; simpl; split;
    try congruence; try reflexivity.
  - intros H. apply andb_true_iff in H as [Hx Hr].
    apply N.eqb_eq in Hx. apply IH in Hr. congruence.
  - intros H. injection H as -> ->.
    rewrite N.eqb_refl. simpl. now apply IH.
Qed.

Lemma str_eqb_refl (a : str) : str_eqb a a = true.
Proof. now apply str_eqb_spec. Qed.

Lemma str_eqb_neq (a b : str) : str_eqb a b = false <-> a <> b.
Proof.
  split.
  - intros H E. apply str_eqb_spec in E. congruence.
  - intros H. destruct (str_eqb a b) eqn:E; [|reflexivity].
    apply str_eqb_spec in E. contradiction.
Qed.

Lemma mem_In (x : str) (l : list str) : mem x l = true <-> In x l.
Proof.
  unfold mem. rewrite existsb_exists. split.
  - intros [y [Hy E]]. apply str_eqb_spec in E. now subst.
  - intros H. exists x. split; [assumption | apply str_eqb_refl].
Qed.

Lemma mem_false (x : str) (l : list str) : mem x l = false <-> ~ In x l.
Proof.
  rewrite <- mem_In. destruct (mem x l); split; intros; congruence.
Qed.

(** Stripping a string of whitespace only leaves nothing. *)
Lemma lstrip_blank (s : str) :
  (forall c, In c s -> is_space c = true) -> lstrip s = [].
Proof.
  induction s as [|c s IH]; intros H; simpl; [reflexivity|].
  rewrite (H c (or_introl eq_refl)). apply IH. intros d Hd. apply H. now right.
Qed.

Lemma strip_blank (s : str) :
  (forall c, In c s -> is_space c = true) -> strip s = [].
Proof.
  intros H. unfold strip, rstrip. now rewrite (lstrip_blank s H).
Qed.

Lemma falsy_nil (s : str) : falsy s = true <-> s = [].
Proof. destruct s; simpl; split; congruence. Qed.

Lemma falsy_strip (s : str) : falsy s || falsy (strip s) = falsy (strip s).
Proof. destruct s; reflexivity. Qed.

End TextFacts.

(* ====================================================================== *)
(** * Facts about the pattern classifier *)
(* ====================================================================== *)

Module DetectorFacts.

Import Text TextFacts Detector Notions.
Local Open Scope Q_scope.

Lemma Qltb_true (a b : Q) : Qltb a b = true <-> a < b.
Proof.
  unfold Qltb. rewrite negb_true_iff. split.
  - intros H. apply Qnot_le_lt. intros L. apply Qle_bool_iff in L. congruence.
  - intros H. destruct (Qle_bool b a) eqn:E; [|reflexivity].
    apply Qle_bool_iff in E. exfalso. exact (Qlt_not_le _ _ H E).
Qed.

Lemma Qltb_false (a b : Q) : Qltb a b = false <-> b <= a.
Proof.
  unfold Qltb. rewrite negb_false_iff. apply Qle_bool_iff.
Qed.

Lemma py_max_cases (a b : Q) :
  (py_max a b = a /\ b <= a) \/ (py_max a b = b /\ a < b).
Proof.
  unfold py_max. destruct (Qltb a b) eqn:E.
  - right. split; [reflexivity | now apply Qltb_true].
  - left. split; [reflexivity | now apply Qltb_false].
Qed.

Lemma py_max_l (a b : Q) : a <= py_max a b.
Proof.
  destruct (py_max_cases a b) as [[-> _]|[-> H]];
    [apply Qle_refl | now apply Qlt_le_weak].
Qed.

Lemma py_max_r (a b : Q) : b <= py_max a b.
Proof.
  destruct (py_max_cases a b) as [[-> H]|[-> _]]; [assumption | apply Qle_refl].
Qed.

(** The running maximum of the inner loop. *)
Lemma running_max_init (l : list Q) (c : Q) : c <= fold_left py_max l c.
Proof.
  revert c. induction l as [|x l IH]; intros c; simpl; [apply Qle_refl|].
  eapply Qle_trans; [apply (py_max_l c x) | apply IH].
Qed.

Lemma running_max_ge (l : list Q) (c x : Q) :
  In x l -> x <= fold_left py_max l c.
Proof.
  revert c. induction l as [|y l IH]; intros c Hx; simpl; [contradiction|].
  destruct Hx as [->|Hx].
  - eapply Qle_trans; [apply (py_max_r c x) | apply running_max_init].
  - now apply IH.
Qed.

Lemma running_max_in (l : list Q) (c : Q) :
  fold_left py_max l c = c \/ In (fold_left py_max l c) l.
Proof.
  revert c. induction l as [|y l IH]; intros c; simpl; [now left|].
  destruct (IH (py_max c y)) as [E|H].
  - rewrite E. destruct (py_max_cases c y) as [[-> _]|[-> _]]; auto.
  - auto.
Qed.

Section Scan.

Variable lower : str -> str.
Variable re_search : string -> str -> bool.

Lemma scan_rules_spec (rules : list rule) (text : str) (acc : list str) (c : Q) :
  scan_rules re_search rules text acc c =
  ((acc ++ map rule_name (matching re_search text rules))%list,
   fold_left py_max (map rule_confidence (matching re_search text rules)) c).
Proof.
  revert acc c. induction rules as [|[[pattern name] conf] rules IH]; intros acc c.
  - simpl. now rewrite app_nil_r.
  - unfold matching in *. simpl.
    change (rule_pattern (pattern, name, conf)) with pattern.
    destruct (re_search pattern text); simpl.
    + rewrite IH. now rewrite <- app_assoc.
    + apply IH.
Qed.

Lemma scan_rules_reasons_nil (rules : list rule) (text : str) :
  fst (scan_rules re_search rules text [] 0.0) = [] <->
  matching re_search text rules = [].
Proof.
  rewrite scan_rules_spec. simpl. split.
  - intros H. destruct (matching re_search text rules); [reflexivity | discriminate].
  - intros ->. reflexivity.
Qed.

Lemma scan_groups_spec (t : table) (text : str) (acc : list hit) :
  scan_groups re_search t text acc = (acc ++ group_hits re_search t text)%list.
Proof.
  revert acc. induction t as [|[i rules] t IH]; intros acc; simpl.
  - now rewrite app_nil_r.
  - unfold group_hit at 1. simpl.
    pose proof (scan_rules_reasons_nil rules text) as Hnil.
    destruct (scan_rules re_search rules text [] 0.0) as [reasons conf] eqn:E.
    simpl in *. rewrite IH.
    destruct reasons as [|r0 reasons].
    + now rewrite (proj1 Hnil eq_refl).
    + destruct (matching re_search text rules) eqn:M.
      * destruct Hnil as [_ Hnil]. specialize (Hnil eq_refl). discriminate.
      * now rewrite <- app_assoc.
Qed.

End Scan.

(** The stable descending sort puts first the earliest hit of largest
    confidence. *)
Lemma insert_desc_not_nil (x : hit) (l : list hit) : insert_desc x l <> [].
Proof. destruct l; simpl; [|destruct Qltb]; discriminate. Qed.

Lemma sort_desc_nil (l : list hit) : sort_desc l = [] <-> l = [].
Proof.
  split.
  - destruct l; [reflexivity|]. simpl. intros H.
    now apply insert_desc_not_nil in H.
  - intros ->. reflexivity.
Qed.

Lemma sort_desc_head (l : list hit) :
  l <> [] ->
  exists pre w post rest,
    sort_desc l = w :: rest /\
    l = (pre ++ w :: post)%list /\
    (forall g, In g pre -> hit_confidence g < hit_confidence w) /\
    (forall g, In g post -> hit_confidence g <= hit_confidence w).
Proof.
  induction l as [|x l IH]; intros Hne; [congruence|]. simpl.
  destruct l as [|y l].
  - exists [], x, [], []. simpl. repeat split; intros g Hg; contradiction.
  - destruct IH as (pre & w & post & rest & Hs & Hl & Hpre & Hpost); [discriminate|].
    rewrite Hs. simpl. destruct (Qltb (hit_confidence x) (hit_confidence w)) eqn:E.
    + apply Qltb_true in E.
      exists (x :: pre), w, post, (insert_desc x rest). rewrite Hl.
      repeat split; try assumption.
      intros g [<-|Hg]; [assumption | now apply Hpre].
    + apply Qltb_false in E.
      exists [], x, (y :: l), (w :: rest). repeat split.
      * intros g Hg; contradiction.
      * intros g Hg. rewrite Hl in Hg. apply in_app_or in Hg.
        destruct Hg as [Hg|[<-|Hg]].
        -- eapply Qle_trans; [apply Qlt_le_weak, Hpre, Hg | exact E].
        -- exact E.
        -- eapply Qle_trans; [apply Hpost, Hg | exact E].
Qed.

Section Results.

Variable lower : str -> str.
Variable re_search : string -> str -> bool.

(** The three exits of [detect_intent]. *)
Lemma detect_blank (t : table) (message : str) (h : history) :
  strip message = [] ->
  detect_intent_with lower re_search t message h =
  {| intent := u "unknown"; confidence := 1.0;
     reasoning := [u "empty_message"]; entities_hint := [] |}.
Proof.
  intros E. unfold detect_intent_with. rewrite falsy_strip, E. reflexivity.
Qed.

Lemma detect_matched (t : table) (message : str) (h : history) (w : hit)
      (rest : list hit) :
  strip message <> [] ->
  sort_desc (scan_groups re_search t (strip (lower message)) []) = w :: rest ->
  detect_intent_with lower re_search t message h = hit_result w.
Proof.
  intros Hne Hs. unfold detect_intent_with. rewrite falsy_strip.
  destruct (strip message) eqn:E; [congruence|]. simpl falsy. cbv iota.
  rewrite Hs. destruct w as [[i c] reasons]. reflexivity.
Qed.

Lemma detect_unmatched (t : table) (message : str) (h : history) :
  strip message <> [] ->
  scan_groups re_search t (strip (lower message)) [] = [] ->
  detect_intent_with lower re_search t message h =
  match h with
  | [] => unknown_result
  | _ =>
      if (List.length (split (strip (lower message))) <=? 4)%nat
         || re_search FOLLOW_UP_PATTERN (strip (lower message))
      then match _get_last_intent h with
           | Some i => if truthy (Some i) && negb (mem i LOW_INFORMATION)
                       then follow_up_result i else unknown_result
           | None => unknown_result
           end
      else unknown_result
  end.
Proof.
  intros Hne Hs. unfold detect_intent_with. rewrite falsy_strip.
  destruct (strip message) eqn:E; [congruence|]. simpl falsy. cbv iota.
  rewrite Hs. reflexivity.
Qed.

End Results.

(** The classifier uses the library only at its own patterns and text. *)
Section Extensional.

Variables lower lower' : str -> str.
Variables re_search re_search' : string -> str -> bool.

Lemma scan_rules_ext (rules : list rule) (text : str) (acc : list str) (c : Q) :
  (forall r, In r rules ->
             re_search (rule_pattern r) text = re_search' (rule_pattern r) text) ->
  scan_rules re_search rules text acc c = scan_rules re_search' rules text acc c.
Proof.
  revert acc c. induction rules as [|[[pattern name] conf] rules IH]; intros acc c H.
  - reflexivity.
  - pose proof (H (pattern, name, conf) (or_introl eq_refl)) as E.
    change (rule_pattern (pattern, name, conf)) with pattern in E.
    simpl. rewrite <- E.
    destruct (re_search pattern text); apply IH; intros r Hr; apply H; now right.
Qed.

Lemma scan_groups_ext (t : table) (text : str) (acc : list hit) :
  (forall pattern, In pattern (table_patterns t) ->
                   re_search pattern text = re_search' pattern text) ->
  scan_groups re_search t text acc = scan_groups re_search' t text acc.
Proof.
  revert acc. induction t as [|[i rules] t IH]; intros acc H; [reflexivity|].
  simpl. rewrite (scan_rules_ext rules text [] 0.0).
  - destruct (scan_rules re_search' rules text [] 0.0) as [reasons conf].
    apply IH. intros pattern Hp. apply H. simpl. apply in_or_app. now right.
  - intros r Hr. apply H. simpl. apply in_or_app. left. now apply in_map.
Qed.

Lemma detect_intent_with_ext (t : table) (message : str) (h : history) :
  lower message = lower' message ->
  (forall pattern, In pattern (FOLLOW_UP_PATTERN :: table_patterns t) ->
                   re_search pattern (strip (lower message))
                   = re_search' pattern (strip (lower message))) ->
  detect_intent_with lower re_search t message h
  = detect_intent_with lower' re_search' t message h.
Proof.
  intros Hl Hr. unfold detect_intent_with. rewrite <- Hl.
  rewrite (scan_groups_ext t (strip (lower message)) []).
  - now rewrite (Hr FOLLOW_UP_PATTERN (or_introl eq_refl)).
  - intros pattern Hp. apply Hr. now right.
Qed.

End Extensional.

End DetectorFacts.

(* ====================================================================== *)
(** * The pattern classifier: what the specification states *)
(* ====================================================================== *)

Module DetectorClaims.

Import Text TextFacts Detector Notions DetectorFacts Runs.
Local Open Scope Q_scope.

Lemma positive_tableb_sound (t : table) :
  positive_tableb t = true -> positive_table t.
Proof.
  unfold positive_tableb, positive_table. intros H i rules r Hg Hr.
  rewrite forallb_forall in H. specialize (H _ Hg). simpl in H.
  rewrite forallb_forall in H. specialize (H _ Hr).
  now apply Qltb_true.
Qed.

Lemma INTENT_PATTERNS_positive : positive_table INTENT_PATTERNS.
Proof. apply positive_tableb_sound. vm_compute. reflexivity. Qed.

(** Every pattern of the table, and the follow-up pattern, compiles. *)
Lemma table_patterns_compile :
  forallb (fun pattern => match Py.re_compile pattern with
                          | Some _ => true
                          | None => false
                          end)
          (FOLLOW_UP_PATTERN :: table_patterns INTENT_PATTERNS) = true.
Proof. vm_compute. reflexivity. Qed.

(** Cases of the module's self-test. *)
Example self_test_help :
  intent (detect_intent Py.lower Py.re_search (u "Help me") []) = u "help".
Proof. vm_compute. reflexivity. Qed.

Example self_test_status :
  detect_intent Py.lower Py.re_search (u "What's the status of REF123?") []
  = {| intent := u "booking_status"; confidence := 0.85;
       reasoning := [u "booking_ref_pattern"];
       entities_hint := [(u "expected", [u "booking_ref"]); (u "optional", [u "date"])] |}.
Proof. vm_compute. reflexivity. Qed.

Example self_test_blockchain :
  intent (detect_intent Py.lower Py.re_search
                        (u "Verify booking REF456 on blockchain") [])
  = u "blockchain_audit".
Proof. vm_compute. reflexivity. Qed.

Example self_test_merci :
  intent (detect_intent Py.lower Py.re_search (u "Merci") []) = u "smalltalk".
Proof. vm_compute. reflexivity. Qed.

Example self_test_gibberish :
  detect_intent Py.lower Py.re_search (u "asdfghjkl") [] = unknown_result.
Proof. vm_compute. reflexivity. Qed.

(** Within one group: the reasons are the names of all matching rules, in
    table order, and the confidence is the largest among them. *)
Lemma group_scan (re_search : string -> str -> bool) (t : table) (text : str)
      (i : str) (rules : list rule) :
  positive_table t -> In (i, rules) t ->
  fst (scan_rules re_search rules text [] 0.0)
    = map rule_name (matching re_search text rules) /\
  (forall r, In r (matching re_search text rules) ->
             rule_confidence r <= snd (scan_rules re_search rules text [] 0.0)) /\
  (matching re_search text rules <> [] ->
   exists r, In r (matching re_search text rules) /\
             snd (scan_rules re_search rules text [] 0.0) = rule_confidence r).
Proof.
  intros Hpos Hg. rewrite scan_rules_spec. simpl. split; [reflexivity|]. split.
  - intros r Hr. apply running_max_ge. now apply in_map.
  - intros Hne.
    destruct (running_max_in (map rule_confidence (matching re_search text rules)) 0.0)
      as [E|Hin].
    + destruct (matching re_search text rules) as [|r0 m0] eqn:M; [congruence|].
      assert (Hr0 : In r0 (matching re_search text rules)) by (rewrite M; now left).
      pose proof Hr0 as Hr0'. unfold matching in Hr0'. apply filter_In in Hr0' as [Hr0' _].
      pose proof (Hpos _ _ _ Hg Hr0') as Hp.
      assert (Hle : rule_confidence r0 <= 0.0).
      { rewrite <- E. apply running_max_ge. apply in_map. now left. }
      exfalso. exact (Qlt_not_le _ _ Hp Hle).
    + apply in_map_iff in Hin as [r [Hr Hin]]. exists r. split; [assumption|].
      now symmetry.
Qed.

(** C6: for every text that is not blank, each group of the table keeps the
    names of all its matching rules and the largest of their confidences;
    the hits are the groups with a matching rule in table order; and the
    result is the hit of largest confidence, the earliest declared one among
    equals: every hit declared before the winner has a strictly smaller
    confidence, every later one a confidence not larger. *)
Theorem detect_intent_max_then_priority
        (lower : str -> str) (re_search : string -> str -> bool)
        (message : str) (h : history) :
  strip message <> [] ->
  let text := strip (lower message) in
  let hits := scan_groups re_search INTENT_PATTERNS text [] in
  (forall i rules, In (i, rules) INTENT_PATTERNS ->
     fst (scan_rules re_search rules text [] 0.0)
       = map rule_name (matching re_search text rules) /\
     (forall r, In r (matching re_search text rules) ->
                rule_confidence r <= snd (scan_rules re_search rules text [] 0.0)) /\
     (matching re_search text rules <> [] ->
      exists r, In r (matching re_search text rules) /\
                snd (scan_rules re_search rules text [] 0.0) = rule_confidence r)) /\
  hits = group_hits re_search INTENT_PATTERNS text /\
  (hits <> [] ->
   exists pre w post,
     hits = (pre ++ w :: post)%list /\
     (forall g, In g pre -> hit_confidence g < hit_confidence w) /\
     (forall g, In g post -> hit_confidence g <= hit_confidence w) /\
     detect_intent lower re_search message h = hit_result w).
Proof.
  intros Hne text hits. split; [|split].
  - intros i rules Hg. now apply group_scan with (t := INTENT_PATTERNS) (i := i);
      [apply INTENT_PATTERNS_positive|].
  - unfold hits. now rewrite scan_groups_spec.
  - intros Hhits.
    destruct (sort_desc_head hits Hhits) as (pre & w & post & rest & Hs & Hl & Hpre & Hpost).
    exists pre, w, post. repeat split; try assumption.
    unfold detect_intent. now apply (detect_matched lower re_search INTENT_PATTERNS message h w rest).
Qed.

Lemma detect_intent_max_then_priority_witness :
  strip book_available <> [] /\
  exists w, In w (scan_groups Py.re_search INTENT_PATTERNS
                              (strip (Py.lower book_available)) []) /\
            detect_intent Py.lower Py.re_search book_available [] = hit_result w.
Proof.
  assert (Hne : strip book_available <> []) by (vm_compute; discriminate).
  split; [exact Hne|].
  destruct (detect_intent_max_then_priority Py.lower Py.re_search book_available [] Hne)
    as (_ & _ & Hw).
  destruct Hw as (pre & w & post & Hl & _ & _ & Hr); [vm_compute; discriminate|].
  exists w. split; [|exact Hr]. rewrite Hl. apply in_or_app. right. now left.
Defined.

(** C8: a message that is empty or made of whitespace only is classified
    [unknown] with confidence 1.0, whatever the history; the classifier is a
    total function, so no input makes it raise. *)
Theorem detect_intent_blank
        (lower : str -> str) (re_search : string -> str -> bool)
        (message : str) (h : history) :
  (forall c, In c message -> is_space c = true) ->
  detect_intent lower re_search message h =
  {| intent := u "unknown"; confidence := 1.0;
     reasoning := [u "empty_message"]; entities_hint := [] |}.
Proof.
  intros H. unfold detect_intent. apply detect_blank. now apply strip_blank.
Qed.

Lemma detect_intent_blank_witness :
  (forall c, In c blank_message -> is_space c = true) /\
  detect_intent Py.lower Py.re_search blank_message status_history =
  {| intent := u "unknown"; confidence := 1.0;
     reasoning := [u "empty_message"]; entities_hint := [] |}.
Proof.
  assert (H : forall c, In c blank_message -> is_space c = true).
  { intros c Hc. unfold blank_message in Hc. simpl in Hc.
    destruct Hc as [<-|[<-|[<-|[<-|[]]]]]; reflexivity. }
  split; [exact H|]. exact (detect_intent_blank Py.lower Py.re_search blank_message status_history H).
Defined.

(** C9: classification is a function of the message, the history and the
    rule table.  Two calls with the same input and table return the same
    result whatever the state of the debug log, in particular a second call
    made in the state the first one leaves; a call leaves the rule table as
    it found it; and the libraries enter the result only through
    [str.lower] at the message and the answers of [re.search] for the
    table's patterns and the follow-up pattern at the lowered text. *)
Theorem detect_intent_deterministic
        (lower lower' : str -> str)
        (re_search re_search' : string -> str -> bool)
        (message : str) (h : history) (t : table) (log log' : list hit) :
  lower message = lower' message ->
  (forall pattern, In pattern (FOLLOW_UP_PATTERN :: table_patterns t) ->
                   re_search pattern (strip (lower message))
                   = re_search' pattern (strip (lower message))) ->
  let p := {| rule_table := t; debug_log := log |} in
  let p' := {| rule_table := t; debug_log := log' |} in
  let r1 := fst (call lower re_search message h p) in
  let p1 := snd (call lower re_search message h p) in
  let r2 := fst (call lower re_search message h p1) in
  let p2 := snd (call lower re_search message h p1) in
  (intent r1, confidence r1, reasoning r1) = (intent r2, confidence r2, reasoning r2) /\
  fst (call lower re_search message h p) = fst (call lower' re_search' message h p') /\
  rule_table p1 = t /\ rule_table p2 = t.
Proof.
  intros Hl Hr. simpl. repeat split.
  now apply detect_intent_with_ext.
Qed.

Lemma detect_intent_deterministic_witness :
  Py.lower and_terminal = Py.lower and_terminal /\
  fst (call Py.lower Py.re_search and_terminal status_history
            {| rule_table := INTENT_PATTERNS; debug_log := [] |})
  = fst (call Py.lower Py.re_search and_terminal status_history
              {| rule_table := INTENT_PATTERNS;
                 debug_log := [(u "help", 0.95, [u "greeting"])] |}).
Proof.
  split; [reflexivity|].
  exact (proj1 (proj2 (detect_intent_deterministic
                         Py.lower Py.lower Py.re_search Py.re_search
                         and_terminal status_history INTENT_PATTERNS
                         [] [(u "help", 0.95, [u "greeting"])]
                         eq_refl (fun _ _ => eq_refl)))).
Defined.

(** C3, as the code has it: whatever the history, "book an available slot"
    is classified [slot_availability] with confidence 0.90, by the rules
    [slot_availability_explicit] (0.90) and [book_slot] (0.85) of that one
    group; the rule table has no group for a create intent. *)
Theorem book_available_slot_availability (h : history) :
  detect_intent Py.lower Py.re_search book_available h =
  {| intent := u "slot_availability"; confidence := 0.90;
     reasoning := [u "slot_availability_explicit"; u "book_slot"];
     entities_hint := [(u "expected", [u "terminal"; u "date"]);
                       (u "optional", [u "gate"])] |} /\
  ~ In (u "booking_create") (map fst INTENT_PATTERNS).
Proof.
  split.
  - vm_compute. reflexivity.
  - intros H. apply mem_In in H. vm_compute in H. discriminate.
Qed.

(** C3 as stated fails: the message is not classified as the create
    intent. *)
Lemma book_available_not_create :
  intent (detect_intent Py.lower Py.re_search book_available []) = u "slot_availability" /\
  intent (detect_intent Py.lower Py.re_search book_available []) <> u "booking_create".
Proof.
  split.
  - vm_compute. reflexivity.
  - vm_compute. discriminate.
Qed.

(** ** Follow-up resolution *)

Lemma eligible_spec (t : Turn) (i : str) :
  eligible (Dict t) = Some i <->
  recorded_intent t = Some i /\ i <> [] /\ ~ In i GENERIC_INTENTS.
Proof.
  unfold eligible. destruct (recorded_intent t) as [j|];
    [|split; [intros H0 | intros [H0 _]]; discriminate H0].
  destruct (mem j GENERIC_INTENTS) eqn:M.
  - rewrite andb_false_r. split; [intros H0; discriminate H0|].
    intros (E & _ & Hn). injection E as <-. apply mem_In in M. contradiction.
  - rewrite andb_true_r. apply mem_false in M. destruct j as [|c j].
    + cbn. split; [intros H0; discriminate H0|].
      intros (E & Hne & _). injection E as <-. congruence.
    + cbn. split.
      * intros E. injection E as <-. repeat split; [discriminate | assumption].
      * intros (E & _). exact E.
Qed.

Lemma first_eligible_some (l : list entry) (i : str) :
  first_eligible l = Some i <->
  exists pre e post, l = (pre ++ e :: post)%list /\ eligible e = Some i /\
                     forall e', In e' pre -> eligible e' = None.
Proof.
  induction l as [|x l IH]; simpl.
  - split; [intros H0; discriminate H0|]. intros (pre & e & post & H & _). now destruct pre.
  - destruct (eligible x) as [j|] eqn:E.
    + split.
      * intros H. exists [], x, l. repeat split; [congruence | intros e' []].
      * intros (pre & e & post & Hl & He & Hpre). destruct pre as [|y pre].
        -- simpl in Hl. injection Hl as -> ->. congruence.
        -- simpl in Hl. injection Hl as -> ->.
           rewrite (Hpre y (or_introl eq_refl)) in E. discriminate.
    + rewrite IH. split.
      * intros (pre & e & post & -> & He & Hpre). exists (x :: pre), e, post.
        repeat split; [assumption|]. intros e' [<-|H]; [assumption | now apply Hpre].
      * intros (pre & e & post & Hl & He & Hpre). destruct pre as [|y pre].
        -- simpl in Hl. injection Hl as -> ->. congruence.
        -- simpl in Hl. injection Hl as -> ->. exists pre, e, post.
           repeat split; [assumption|]. intros e' H. apply Hpre. now right.
Qed.

Lemma first_eligible_none (l : list entry) :
  first_eligible l = None <-> forall e, In e l -> eligible e = None.
Proof.
  induction l as [|x l IH]; simpl.
  - split; [intros _ e [] | reflexivity].
  - destruct (eligible x) eqn:E.
    + split; [intros H0; discriminate H0|]. intros H. rewrite (H x (or_introl eq_refl)) in E.
      discriminate.
    + rewrite IH. split.
      * intros H e [<-|He]; [assumption | now apply H].
      * intros H e He. apply H. now right.
Qed.

Lemma _get_last_intent_rev (h : history) :
  _get_last_intent h = first_eligible (rev h).
Proof. destruct h; reflexivity. Qed.

(** What [_get_last_intent] returns passes the second test of
    [detect_intent]. *)
Lemma last_intent_passes (h : history) (i : str) :
  _get_last_intent h = Some i ->
  truthy (Some i) && negb (mem i LOW_INFORMATION) = true.
Proof.
  rewrite _get_last_intent_rev, first_eligible_some.
  intros (pre & e & post & _ & He & _). destruct e as [t|]; [|discriminate].
  apply eligible_spec in He as (_ & Hne & Hn).
  apply andb_true_iff. split.
  - destruct i; [congruence | reflexivity].
  - apply negb_true_iff. apply (proj2 (mem_false i LOW_INFORMATION)).
    intros Hin. apply Hn.
    unfold LOW_INFORMATION, GENERIC_INTENTS in *. simpl in *. tauto.
Qed.

End DetectorClaims.

(* ====================================================================== *)
(** * The adapters: what the specification states *)
(* ====================================================================== *)

Module AdapterClaims.

Import Text TextFacts Json Gemini Notions Runs.
Local Open Scope string_scope.
Local Open Scope Q_scope.

Section Gemini_adapter.

Variable lower : str -> str.
Variable json_loads : str -> loaded.
Variable service : nat -> outcome.
Variable settings : Settings.

(** [llm_complete] by cases on what the service does. *)
Lemma llm_complete_cases (n : nat) :
  llm_complete service n =
  match service n with
  | Replied text => (inl text, S n)
  | TimedOut => (inr (Exception (u "LLM request timed out")), S n)
  | Failed e =>
      match service (S n) with
      | Replied text => (inl text, S (S n))
      | _ => (inr (Exception (u "LLM request failed: " ++ e)%list), S (S n))
      end
  end.
Proof.
  unfold llm_complete, try_except, generate_content, raise.
  destruct (service n); try reflexivity.
  destruct (service (S n)); reflexivity.
Qed.

(** Every exception of [llm_complete] ends in the same default result. *)
Lemma classify_intent_swallows (message : str) (n : nat) (e : exn) :
  fst (llm_complete service n) = inr e ->
  classify_intent lower json_loads service settings message n =
  (inl (result_of (u "unknown") (JNum 0.0)), snd (llm_complete service n)).
Proof.
  unfold classify_intent, try_except, bind, ret.
  destruct (llm_complete service n) as [[text|e'] n']; simpl; [discriminate|].
  reflexivity.
Qed.

(** A call of [classify_intent] issues the calls of its [llm_complete]. *)
Lemma classify_intent_calls (message : str) (n : nat) :
  snd (classify_intent lower json_loads service settings message n) =
  snd (llm_complete service n).
Proof.
  unfold classify_intent, try_except, bind, ret, raise.
  destruct (llm_complete service n) as [[text|e'] n']; simpl; [|reflexivity].
  destruct (lt_float _ _) as [[|]|]; reflexivity.
Qed.

(** A reply that is not JSON. *)
Lemma classify_intent_fallback (message : str) (n : nat) (text : str) :
  service n = Replied text ->
  json_loads (unfenced text) = JSONDecodeError ->
  classify_intent lower json_loads service settings message n =
  (inl (if Detector.Qltb 0.3 (intent_confidence_threshold settings)
        then result_of (u "unknown") (JNum 0.3)
        else _fallback_intent_extraction lower (unfenced text)), S n).
Proof.
  intros Hs Hj. unfold classify_intent, try_except, bind, ret.
  rewrite llm_complete_cases, Hs.
  unfold _parse_intent_response. rewrite Hj.
  unfold _fallback_intent_extraction at 1 2.
  change (get (result_of ?i (JNum 0.3)) (u "confidence")) with (Some (JNum 0.3)).
  cbv beta iota. unfold lt_float, Detector.Qltb.
  destruct (negb (Qle_bool (intent_confidence_threshold settings) 0.3)); reflexivity.
Qed.

End Gemini_adapter.

(** The cases of the adapter's smoke tests: a well-formed reply, and a
    well-formed reply of low confidence. *)
Example json_reply_is_returned :
  fst (classify_intent Py.lower PyJson.json_loads obedient default_settings
                       (u "status of BK123") 0%nat)
  = inl [(u "intent", JStr (u "booking_status"));
         (u "entities", JObj [(u "booking_ref", JStr (u "BK123"))]);
         (u "confidence", JNum 0.9)].
Proof. vm_compute. reflexivity. Qed.

Example low_confidence_is_unknown :
  fst (classify_intent Py.lower PyJson.json_loads
         (fun _ => Replied (dq (u "{'intent': 'booking_status', 'entities': {}, 'confidence': 0.3}")))
         default_settings (u "test") 0%nat)
  = inl (result_of (u "unknown") (JNum 0.3)).
Proof. vm_compute. reflexivity. Qed.

(** C1, as the code has it: when the completion call runs into the
    timeout, [llm_complete] raises the exception "LLM request timed out"
    after that one call, and the Gemini adapter's [classify_intent] catches
    it and returns the default [{intent: unknown, entities: {}, confidence:
    0.0}], the value it returns for every other exception of the call.
    Only the Groq/OpenAI adapter's [classify_intent] passes a timeout on,
    as an HTTP 504 [agno_timeout] error. *)
Theorem timeout_is_swallowed_by_gemini
        (lower : str -> str) (json_loads : str -> loaded)
        (service : nat -> outcome) (settings : Settings)
        (message : str) (n : nat) (cfg : Groq.Config) :
  service n = TimedOut ->
  Groq.is_agno_enabled cfg = true ->
  llm_complete service n = (inr (Exception (u "LLM request timed out")), S n) /\
  classify_intent lower json_loads service settings message n
  = (inl (result_of (u "unknown") (JNum 0.0)), S n) /\
  (forall (other : nat -> outcome) (k : nat) (e : exn),
     fst (llm_complete other k) = inr e ->
     fst (classify_intent lower json_loads other settings message k)
     = inl (result_of (u "unknown") (JNum 0.0))) /\
  Groq.classify_intent lower json_loads cfg message Groq.Expired
  = inr (Groq.HTTPException 504%nat (u "agno_timeout")).
Proof.
  intros Hs Hon.
  assert (Hl : llm_complete service n
               = (inr (Exception (u "LLM request timed out")), S n))
    by (now rewrite llm_complete_cases, Hs).
  split; [exact Hl|]. split; [|split].
  - rewrite (classify_intent_swallows lower json_loads service settings message n
               (Exception (u "LLM request timed out"))); now rewrite Hl.
  - intros other k e He.
    now rewrite (classify_intent_swallows lower json_loads other settings message k e He).
  - unfold Groq.classify_intent. now rewrite Hon.
Qed.

Lemma timeout_is_swallowed_by_gemini_witness :
  stalled 0%nat = TimedOut /\
  Groq.is_agno_enabled groq_on = true /\
  classify_intent Py.lower PyJson.json_loads stalled default_settings
                  (u "status of REF123") 0%nat
  = (inl (result_of (u "unknown") (JNum 0.0)), 1%nat).
Proof.
  split; [reflexivity|]. split; [reflexivity|].
  exact (proj1 (proj2 (timeout_is_swallowed_by_gemini
                         Py.lower PyJson.json_loads stalled default_settings
                         (u "status of REF123") 0%nat groq_on eq_refl eq_refl))).
Defined.

(** C1 as stated fails: on a timeout the Gemini adapter returns a
    classification, the default [unknown] one, and raises nothing. *)
Lemma gemini_timeout_returns_unknown :
  fst (classify_intent Py.lower PyJson.json_loads stalled default_settings
                       (u "status of REF123") 0%nat)
  = inl [(u "intent", JStr (u "unknown")); (u "entities", JObj []);
         (u "confidence", JNum 0.0)].
Proof. vm_compute. reflexivity. Qed.

(** C2, as the code has it: when the reply is not JSON,
    [_parse_intent_response] returns the keyword fallback over the reply
    text, with confidence 0.3 ([booking_status] when the text contains
    "status"); [classify_intent] then applies the confidence threshold to
    it: below the threshold, so under the default 0.45, it returns
    [{intent: unknown, entities: {}, confidence: 0.3}], and it returns the
    keyword-matched intent only when the threshold is at most 0.3. *)
Theorem malformed_reply_below_threshold
        (lower : str -> str) (json_loads : str -> loaded)
        (service : nat -> outcome) (settings : Settings)
        (message : str) (n : nat) (text : str) :
  service n = Replied text ->
  json_loads (unfenced text) = JSONDecodeError ->
  _parse_intent_response lower json_loads text
  = _fallback_intent_extraction lower (unfenced text) /\
  get (_fallback_intent_extraction lower (unfenced text)) (u "confidence")
  = Some (JNum 0.3) /\
  (contains (lower (unfenced text)) (u "status") = true ->
   _fallback_intent_extraction lower (unfenced text)
   = result_of (u "booking_status") (JNum 0.3)) /\
  classify_intent lower json_loads service settings message n
  = (inl (if Detector.Qltb 0.3 (intent_confidence_threshold settings)
          then result_of (u "unknown") (JNum 0.3)
          else _fallback_intent_extraction lower (unfenced text)), S n) /\
  (intent_confidence_threshold settings = 0.45 ->
   classify_intent lower json_loads service settings message n
   = (inl (result_of (u "unknown") (JNum 0.3)), S n)).
Proof.
  intros Hs Hj. split; [|split; [|split; [|split]]].
  - unfold _parse_intent_response. now rewrite Hj.
  - reflexivity.
  - intros Hc. unfold _fallback_intent_extraction. rewrite Hc.
    now rewrite orb_true_r.
  - now apply classify_intent_fallback.
  - intros Ht.
    rewrite (classify_intent_fallback lower json_loads service settings message n text Hs Hj).
    now rewrite Ht.
Qed.

Lemma malformed_reply_below_threshold_witness :
  chatty 0%nat = Replied (u "The booking status is pending") /\
  PyJson.json_loads (unfenced (u "The booking status is pending")) = JSONDecodeError /\
  classify_intent Py.lower PyJson.json_loads chatty default_settings
                  (u "where is my booking") 0%nat
  = (inl (result_of (u "unknown") (JNum 0.3)), 1%nat).
Proof.
  assert (Hj : PyJson.json_loads (unfenced (u "The booking status is pending"))
               = JSONDecodeError) by (vm_compute; reflexivity).
  split; [reflexivity|]. split; [exact Hj|].
  exact (proj2 (proj2 (proj2 (proj2
           (malformed_reply_below_threshold Py.lower PyJson.json_loads chatty
              default_settings (u "where is my booking") 0%nat
              (u "The booking status is pending") eq_refl Hj)))) eq_refl).
Defined.

(** C2 as stated fails: under the default threshold the keyword fallback
    finds [booking_status] in the reply, and [classify_intent] returns
    [unknown]. *)
Lemma fallback_intent_is_downgraded :
  _parse_intent_response Py.lower PyJson.json_loads (u "The booking status is pending")
  = result_of (u "booking_status") (JNum 0.3) /\
  fst (classify_intent Py.lower PyJson.json_loads chatty default_settings
                       (u "where is my booking") 0%nat)
  = inl (result_of (u "unknown") (JNum 0.3)).
Proof. split; vm_compute; reflexivity. Qed.

(** C10: the pattern classifier of the Groq/OpenAI adapter never answers
    [unknown]; a message in no keyword family gets [{intent: help,
    confidence: 0.60}]; and with the feature disabled [classify_intent]
    returns that classifier's answer, hence never [unknown]. *)
Theorem patterns_never_unknown
        (lower : str -> str) (json_loads : str -> loaded)
        (cfg : Groq.Config) (message : str) (e : Groq.event) :
  get (Groq._classify_with_patterns lower message) (u "intent")
  <> Some (JStr (u "unknown")) /\
  (any_family (lower message) = false ->
   Groq._classify_with_patterns lower message = Groq.reply "help" 0.60) /\
  (Groq.is_agno_enabled cfg = false ->
   Groq.classify_intent lower json_loads cfg message e
   = inl (Groq._classify_with_patterns lower message) /\
   forall d, Groq.classify_intent lower json_loads cfg message e = inl d ->
             get d (u "intent") <> Some (JStr (u "unknown"))).
Proof.
  assert (H1 : get (Groq._classify_with_patterns lower message) (u "intent")
               <> Some (JStr (u "unknown"))).
  { unfold Groq._classify_with_patterns.
    repeat match goal with
           | |- context [if ?b then _ else _] => destruct b
           end; vm_compute; discriminate. }
  split; [exact H1|]. split.
  - unfold any_family, Groq._classify_with_patterns. intros H.
    apply orb_false_iff in H as [H H7]. apply orb_false_iff in H as [H H6].
    apply orb_false_iff in H as [H H5]. apply orb_false_iff in H as [H H4].
    apply orb_false_iff in H as [H H3]. apply orb_false_iff in H as [H H2].
    now rewrite H, H2, H3, H4, H5, H6, H7.
  - intros Hoff. unfold Groq.classify_intent. rewrite Hoff. simpl.
    split; [reflexivity|]. intros d Hd. injection Hd as <-. exact H1.
Qed.

Lemma patterns_never_unknown_witness :
  any_family (Py.lower gibberish) = false /\
  Groq.is_agno_enabled groq_off = false /\
  Groq.classify_intent Py.lower PyJson.json_loads groq_off gibberish Groq.CallFailed
  = inl (Groq.reply "help" 0.60).
Proof.
  assert (Hf : any_family (Py.lower gibberish) = false) by (vm_compute; reflexivity).
  split; [exact Hf|]. split; [reflexivity|].
  destruct (patterns_never_unknown Py.lower PyJson.json_loads groq_off gibberish
              Groq.CallFailed) as (_ & Hhelp & Hoff).
  rewrite (proj1 (Hoff eq_refl)). now rewrite (Hhelp Hf).
Defined.

End AdapterClaims.

(* ====================================================================== *)
(** * The endpoint's role gate *)
(* ====================================================================== *)

Module ChatClaims.

Import Text TextFacts Chat Runs.

(** The HTTP endpoint in front of the orchestrator validates the role
    before anything else: a request for help from a role outside the three
    is answered with HTTP 400 there, whatever the back end behind the gate
    would reply.  The bypass of the access policy concerns the requests
    that are handed to the orchestrator. *)
Lemma guest_help_is_rejected :
  help_desk (u "GUEST") guest_help
  = inl {| response_conversation_id := u "c-1";
           response_message := u "Here is what I can help you with";
           response_intent := Some (u "help") |} /\
  chat Py.upper help_desk guest_help
  = inr (HTTPException 400
           (u "Invalid user_role. Must be one of: ADMIN, CARRIER, OPERATOR")).
Proof. split; vm_compute; reflexivity. Qed.

End ChatClaims.

(* ====================================================================== *)
(** * More about the pattern classifier *)
(* ====================================================================== *)

Module DetectorExtras.

Import Text TextFacts Detector Notions DetectorFacts DetectorClaims Runs.
Local Open Scope Q_scope.

Section Provenance.

Variable lower : str -> str.
Variable re_search : string -> str -> bool.

(** A hit comes from a group of the table, with a rule of that group that
    matches and gives the hit its confidence. *)
Lemma group_hits_origin (t : table) (text : str) (w : hit) :
  positive_table t ->
  In w (group_hits re_search t text) ->
  exists rules r,
    In (hit_intent w, rules) t /\ In r rules /\
    hit_confidence w = rule_confidence r /\ hit_reasons w <> [].
Proof.
  intros Hpos Hw. unfold group_hits in Hw. apply in_flat_map in Hw as [[i rules] [Hg Hw]].
  unfold group_hit in Hw. simpl in Hw.
  destruct (matching re_search text rules) as [|r0 m0] eqn:M; [contradiction|].
  destruct Hw as [<-|[]]. simpl.
  destruct (group_scan re_search t text i rules Hpos Hg) as (Hr & _ & Hmax).
  destruct Hmax as [r [Hin Hc]]; [rewrite M; discriminate|].
  exists rules, r. repeat split; try assumption.
  - unfold matching in Hin. now apply filter_In in Hin as [Hin _].
  - unfold hit_reasons. simpl. rewrite Hr, M. discriminate.
Qed.

(** The head of the sorted hits is one of the hits. *)
Lemma sort_desc_head_in (l : list hit) (w : hit) (rest : list hit) :
  sort_desc l = w :: rest -> In w l.
Proof.
  intros Hs. destruct l as [|x l]; [discriminate|].
  destruct (sort_desc_head (x :: l)) as (pre & w' & post & rest' & Hs' & Hl & _);
    [discriminate|].
  rewrite Hs in Hs'. injection Hs' as <- _. rewrite Hl.
  apply in_or_app. right. now left.
Qed.

(** The cases of a classification. *)
Lemma detect_intent_cases (message : str) (h : history) :
  let r := detect_intent lower re_search message h in
  (strip message = [] /\
   r = {| intent := u "unknown"; confidence := 1.0;
          reasoning := [u "empty_message"]; entities_hint := [] |}) \/
  (exists w, In w (group_hits re_search INTENT_PATTERNS (strip (lower message))) /\
             r = hit_result w) \/
  r = unknown_result \/
  (exists i, _get_last_intent h = Some i /\ r = follow_up_result i).
Proof.
  unfold detect_intent. simpl.
  destruct (strip message) as [|c0 m0] eqn:E.
  - left. split; [reflexivity|]. now apply detect_blank.
  - right. assert (Hne : strip message <> []) by (rewrite E; discriminate).
    destruct (sort_desc (scan_groups re_search INTENT_PATTERNS (strip (lower message)) []))
      as [|w rest] eqn:Hs.
    + right. apply (proj1 (sort_desc_nil _)) in Hs.
      rewrite (detect_unmatched lower re_search INTENT_PATTERNS message h Hne Hs).
      destruct h as [|e0 h0]; [now left|].
      destruct (_ || _); [|now left].
      destruct (_get_last_intent (e0 :: h0)) as [i|] eqn:L; [|now left].
      rewrite (last_intent_passes (e0 :: h0) i L). right. now exists i.
    + left. exists w. split.
      * apply sort_desc_head_in in Hs. now rewrite scan_groups_spec in Hs.
      * now apply (detect_matched lower re_search INTENT_PATTERNS message h w rest).
Qed.

Lemma last_intent_origin (h : history) (i : str) :
  _get_last_intent h = Some i ->
  i <> [] /\ ~ In i GENERIC_INTENTS /\
  exists t, In (Dict t) h /\ recorded_intent t = Some i.
Proof.
  rewrite _get_last_intent_rev, first_eligible_some.
  intros (pre & e & post & Hl & He & _). destruct e as [t|]; [|discriminate].
  apply eligible_spec in He as (Hr & Hne & Hn). repeat split; try assumption.
  exists t. split; [|assumption]. apply in_rev. rewrite Hl.
  apply in_or_app. right. now left.
Qed.

(** X1: whatever the message and the history, the intent returned is
    [unknown], the name of a group of the rule table, or an intent recorded
    in a turn of the history that is none of [unknown], [help],
    [smalltalk], [forbidden], [not_implemented]. *)
Theorem detect_intent_vocabulary (message : str) (h : history) :
  let i := intent (detect_intent lower re_search message h) in
  i = u "unknown" \/
  In i (map fst INTENT_PATTERNS) \/
  (exists t, In (Dict t) h /\ recorded_intent t = Some i /\ ~ In i GENERIC_INTENTS).
Proof.
  cbv zeta. destruct (detect_intent_cases message h)
    as [[_ ->]|[(w & Hw & ->)|[->|(i & Hi & ->)]]].
  - now left.
  - right. left. change (intent (hit_result w)) with (hit_intent w).
    destruct (group_hits_origin INTENT_PATTERNS _ w INTENT_PATTERNS_positive Hw)
      as (rules & r & Hg & _).
    apply in_map_iff. now exists (hit_intent w, rules).
  - now left.
  - right. right. change (intent (follow_up_result i)) with i.
    destruct (last_intent_origin h i Hi) as (_ & Hn & t & Ht & Hr).
    now exists t.
Qed.

End Provenance.

Lemma INTENT_PATTERNS_bounds (i : str) (rules : list rule) (r : rule) :
  In (i, rules) INTENT_PATTERNS -> In r rules ->
  0.5 <= rule_confidence r /\ rule_confidence r <= 1.0.
Proof.
  intros Hg Hr.
  assert (H : forallb (fun g => forallb (fun r => Qle_bool 0.5 (rule_confidence r)
                                              && Qle_bool (rule_confidence r) 1.0)
                                        (snd g)) INTENT_PATTERNS = true)
    by (vm_compute; reflexivity).
  rewrite forallb_forall in H. specialize (H _ Hg). simpl in H.
  rewrite forallb_forall in H. specialize (H _ Hr).
  apply andb_true_iff in H as [H1 H2]. split; now apply Qle_bool_iff.
Qed.

(** X2: the confidence of every classification lies between 0.5 and 1.0,
    and its reasoning is never empty. *)
Theorem detect_intent_confidence_range
        (lower : str -> str) (re_search : string -> str -> bool)
        (message : str) (h : history) :
  let r := detect_intent lower re_search message h in
  0.5 <= confidence r /\ confidence r <= 1.0 /\ reasoning r <> [].
Proof.
  simpl. destruct (detect_intent_cases lower re_search message h)
    as [[_ ->]|[(w & Hw & ->)|[->|(i & Hi & ->)]]]; simpl.
  - repeat split; try (apply Qle_bool_iff; reflexivity). discriminate.
  - destruct (group_hits_origin re_search INTENT_PATTERNS _ w
                INTENT_PATTERNS_positive Hw) as (rules & r & Hg & Hr & Hc & Hne).
    rewrite Hc. destruct (INTENT_PATTERNS_bounds _ _ _ Hg Hr). now repeat split.
  - repeat split; try (apply Qle_bool_iff; reflexivity). discriminate.
  - repeat split; try (apply Qle_bool_iff; reflexivity). discriminate.
Qed.

Lemma entity_hint_keys (i : str) :
  map fst (_get_entity_hints i) = [u "expected"; u "optional"].
Proof.
  unfold _get_entity_hints, HINTS. simpl dict_get.
  repeat match goal with
         | |- context [if ?b then _ else _] => destruct b
         end; reflexivity.
Qed.

(** X3: the entity hints of a classification are the empty dict exactly
    when its intent is [unknown]; for every other intent they are a dict
    with the two keys [expected] and [optional], in that order. *)
Theorem entities_hint_empty_iff_unknown
        (lower : str -> str) (re_search : string -> str -> bool)
        (message : str) (h : history) :
  let r := detect_intent lower re_search message h in
  (entities_hint r = [] <-> intent r = u "unknown") /\
  (intent r <> u "unknown" ->
   map fst (entities_hint r) = [u "expected"; u "optional"]).
Proof.
  simpl. destruct (detect_intent_cases lower re_search message h)
    as [[_ ->]|[(w & Hw & ->)|[->|(i & Hi & ->)]]]; simpl.
  - split; [split; reflexivity | congruence].
  - destruct (group_hits_origin re_search INTENT_PATTERNS _ w
                INTENT_PATTERNS_positive Hw) as (rules & r & Hg & _).
    assert (Hk : hit_intent w <> u "unknown").
    { intros E. rewrite E in Hg. apply (in_map fst) in Hg. cbn [fst] in Hg.
      apply (proj2 (mem_In _ _)) in Hg. vm_compute in Hg. discriminate. }
    pose proof (entity_hint_keys (hit_intent w)) as K.
    split; [split|]; intros H; try contradiction; try exact K.
    rewrite H in K. discriminate.
  - split; [split; reflexivity | congruence].
  - destruct (last_intent_origin h i Hi) as (_ & Hn & _).
    assert (Hk : i <> u "unknown").
    { intros E. apply Hn. rewrite E. now left. }
    pose proof (entity_hint_keys i) as K.
    split; [split|]; intros H; try contradiction; try exact K.
    rewrite H in K. discriminate.
Qed.

Lemma entities_hint_empty_iff_unknown_witness :
  intent (detect_intent Py.lower Py.re_search Runs.book_available []) <> u "unknown" /\
  map fst (entities_hint (detect_intent Py.lower Py.re_search Runs.book_available []))
  = [u "expected"; u "optional"].
Proof.
  assert (H : intent (detect_intent Py.lower Py.re_search Runs.book_available [])
              <> u "unknown") by (vm_compute; discriminate).
  split; [exact H|].
  exact (proj2 (entities_hint_empty_iff_unknown Py.lower Py.re_search
                  Runs.book_available []) H).
Defined.

End DetectorExtras.

(* ====================================================================== *)
(** * Facts about dicts and lines *)
(* ====================================================================== *)

Module JsonFacts.

Import Text TextFacts Json.

Lemma get_set_same (d : dict) (k : str) (v : json) : get (set d k v) k = Some v.
Proof.
  induction d as [|[k0 v0] d IH]; simpl.
  - now rewrite str_eqb_refl.
  - destruct (str_eqb k k0) eqn:E; simpl; rewrite E; [reflexivity | exact IH].
Qed.

Lemma get_set_other (d : dict) (k k' : str) (v : json) :
  k' <> k -> get (set d k v) k' = get d k'.
Proof.
  intros Hne. induction d as [|[k0 v0] d IH]; simpl.
  - now rewrite (proj2 (str_eqb_neq k' k) Hne).
  - destruct (str_eqb k k0) eqn:E; simpl.
    + apply str_eqb_spec in E. subst k0.
      now rewrite (proj2 (str_eqb_neq k' k) Hne).
    + destruct (str_eqb k' k0); [reflexivity | exact IH].
Qed.

Lemma has_set_same (d : dict) (k : str) (v : json) : has (set d k v) k = true.
Proof. unfold has. now rewrite get_set_same. Qed.

Lemma has_set_mono (d : dict) (k k' : str) (v : json) :
  has d k' = true -> has (set d k v) k' = true.
Proof.
  unfold has. intros H. destruct (str_eqb k' k) eqn:E.
  - apply str_eqb_spec in E. subst. now rewrite get_set_same.
  - apply str_eqb_neq in E. now rewrite get_set_other.
Qed.

(** Lines: splitting at a separator and joining again. *)
Lemma split_char_not_nil (sep : N) (cur s : str) : split_char sep cur s <> [].
Proof. revert cur. induction s as [|c s IH]; intros cur; simpl; [|destruct (N.eqb c sep)]; try discriminate. apply IH. Qed.

Lemma join_cons (sep x : str) (l : list str) :
  l <> [] -> join sep (x :: l) = (x ++ sep ++ join sep l)%list.
Proof. destruct l; [congruence | reflexivity]. Qed.

Lemma join_split_char (sep : N) (cur s : str) :
  join [sep] (split_char sep cur s) = (rev cur ++ s)%list.
Proof.
  revert cur. induction s as [|c s IH]; intros cur; simpl.
  - now rewrite app_nil_r.
  - destruct (N.eqb c sep) eqn:E.
    + apply N.eqb_eq in E. subst c.
      rewrite join_cons by apply split_char_not_nil. rewrite IH. reflexivity.
    + rewrite IH. simpl. now rewrite <- app_assoc.
Qed.

Lemma split_char_app (sep : N) (cur a b : str) :
  split_char sep cur (a ++ sep :: b)
  = (split_char sep cur a ++ split_char sep [] b)%list.
Proof.
  revert cur. induction a as [|c a IH]; intros cur; simpl.
  - now rewrite N.eqb_refl.
  - destruct (N.eqb c sep); simpl; now rewrite IH.
Qed.

Lemma split_char_none (sep : N) (cur a : str) :
  ~ In sep a -> split_char sep cur a = [(rev cur ++ a)%list].
Proof.
  revert cur. induction a as [|c a IH]; intros cur Hn; simpl.
  - now rewrite app_nil_r.
  - destruct (N.eqb c sep) eqn:E.
    + apply N.eqb_eq in E. exfalso. apply Hn. now left.
    + rewrite IH by (intros H; apply Hn; now right). simpl. now rewrite <- app_assoc.
Qed.

(** Stripping leaves alone a text that begins and ends with characters
    that are not whitespace. *)
Lemma lstrip_head (c : N) (t : str) :
  is_space c = false -> lstrip (c :: t) = c :: t.
Proof. intros H. simpl. now rewrite H. Qed.

Lemma strip_fixed (c d : N) (s : str) :
  is_space c = false -> is_space d = false ->
  strip (c :: s ++ [d]) = (c :: s ++ [d])%list.
Proof.
  intros Hc Hd. unfold strip, rstrip. rewrite (lstrip_head c _ Hc).
  assert (E : rev (c :: s ++ [d]) = d :: rev (c :: s)).
  { change (c :: s ++ [d])%list with ((c :: s) ++ [d])%list. apply rev_unit. }
  rewrite E, (lstrip_head d _ Hd), <- E. apply rev_involutive.
Qed.

End JsonFacts.

(* ====================================================================== *)
(** * More about the Gemini adapter *)
(* ====================================================================== *)

Module GeminiExtras.

Import Text TextFacts Json JsonFacts Gemini AdapterNotions AdapterClaims.
Local Open Scope string_scope.
Local Open Scope Q_scope.

Lemma valid_intent (i : str) : mem i VALID_INTENTS = true -> In i VALID_INTENTS.
Proof. apply mem_In. Qed.

Lemma result_of_classified (i : str) (c : json) :
  In i VALID_INTENTS -> classified (result_of i c).
Proof.
  intros Hi. split; [|split; reflexivity]. exists i. split; [reflexivity | exact Hi].
Qed.

Lemma unknown_is_valid : In (u "unknown") VALID_INTENTS.
Proof. apply mem_In. vm_compute. reflexivity. Qed.

Section Shape.

Variable lower : str -> str.
Variable json_loads : str -> loaded.

Lemma fallback_classified (response : str) :
  classified (_fallback_intent_extraction lower response).
Proof.
  unfold _fallback_intent_extraction.
  repeat match goal with
         | |- context [if ?b then _ else _] => destruct b
         end; apply result_of_classified; apply mem_In; vm_compute; reflexivity.
Qed.

Lemma parse_classified (response : str) :
  classified (_parse_intent_response lower json_loads response).
Proof.
  unfold _parse_intent_response.
  destruct (json_loads (unfenced response)) as [v| |].
  - destruct v; try (apply result_of_classified, unknown_is_valid).
    destruct (has d (u "intent")) eqn:Hi; simpl negb; cbv iota;
      [|apply result_of_classified, unknown_is_valid].
    set (d1 := if has d (u "entities") then d else set d (u "entities") (JObj [])).
    set (d2 := if has d1 (u "confidence") then d1 else set d1 (u "confidence") (JNum 0.5)).
    assert (He : has d1 (u "entities") = true).
    { unfold d1. destruct (has d (u "entities")) eqn:E; [exact E | apply has_set_same]. }
    assert (He2 : has d2 (u "entities") = true).
    { unfold d2. destruct (has d1 (u "confidence")); [exact He | now apply has_set_mono]. }
    assert (Hc2 : has d2 (u "confidence") = true).
    { unfold d2. destruct (has d1 (u "confidence")) eqn:E; [exact E | apply has_set_same]. }
    assert (Hunk : classified (set d2 (u "intent") (JStr (u "unknown")))).
    { split; [|split; now apply has_set_mono].
      exists (u "unknown"). split; [apply get_set_same | apply unknown_is_valid]. }
    destruct (get d2 (u "intent")) as [[| | | | |i| |]|] eqn:G;
      try exact Hunk; try (apply result_of_classified, unknown_is_valid).
    destruct (mem i VALID_INTENTS) eqn:M; [|exact Hunk].
    split; [|split; assumption]. exists i. split; [exact G | now apply mem_In].
  - apply fallback_classified.
  - apply result_of_classified, unknown_is_valid.
Qed.

Variable service : nat -> outcome.
Variable settings : Settings.

(** X5: whatever the service does and whatever it answers, the Gemini
    adapter's [classify_intent] raises nothing and returns a dict whose
    intent is a string of the closed set (booking_status, booking_create,
    slot_availability, passage_history, blockchain_audit, help, unknown)
    and which has the keys [entities] and [confidence]. *)
Theorem classify_intent_always_classifies (message : str) (n : nat) :
  exists d,
    fst (classify_intent lower json_loads service settings message n) = inl d /\
    classified d.
Proof.
  unfold classify_intent, try_except, bind, ret, raise.
  destruct (llm_complete service n) as [[text|e] n1]; simpl.
  - destruct (lt_float _ _) as [[|]|]; simpl.
    + eexists. split; [reflexivity | apply result_of_classified, unknown_is_valid].
    + eexists. split; [reflexivity | apply parse_classified].
    + eexists. split; [reflexivity | apply result_of_classified, unknown_is_valid].
  - eexists. split; [reflexivity | apply result_of_classified, unknown_is_valid].
Qed.

(** X6: an intent other than [unknown] is returned only with a confidence
    that is not below the configured threshold. *)
Theorem returned_intent_clears_threshold (message : str) (n : nat) (d : dict) :
  fst (classify_intent lower json_loads service settings message n) = inl d ->
  get d (u "intent") <> Some (JStr (u "unknown")) ->
  exists c, get d (u "confidence") = Some c /\
            lt_float c (intent_confidence_threshold settings) = Some false.
Proof.
  unfold classify_intent, try_except, bind, ret, raise.
  destruct (llm_complete service n) as [[text|e] n1]; simpl.
  - destruct (parse_classified text) as (_ & _ & Hc).
    unfold has in Hc.
    destruct (get (_parse_intent_response lower json_loads text) (u "confidence"))
      as [c|] eqn:G; [|discriminate].
    destruct (lt_float c (intent_confidence_threshold settings)) as [[|]|] eqn:L; simpl.
    + intros E Hn. injection E as <-. now contradiction Hn.
    + intros E _. injection E as <-. exists c. now split.
    + intros E Hn. injection E as <-. now contradiction Hn.
  - intros E Hn. injection E as <-. now contradiction Hn.
Qed.

End Shape.

Lemma returned_intent_clears_threshold_witness :
  fst (classify_intent Py.lower PyJson.json_loads Runs.obedient default_settings
                       (u "status of BK123") 0%nat)
  = inl [(u "intent", JStr (u "booking_status"));
         (u "entities", JObj [(u "booking_ref", JStr (u "BK123"))]);
         (u "confidence", JNum 0.9)] /\
  exists c, Some (JNum 0.9) = Some c /\ lt_float c 0.45 = Some false.
Proof.
  assert (E : fst (classify_intent Py.lower PyJson.json_loads Runs.obedient
                     default_settings (u "status of BK123") 0%nat)
              = inl [(u "intent", JStr (u "booking_status"));
                     (u "entities", JObj [(u "booking_ref", JStr (u "BK123"))]);
                     (u "confidence", JNum 0.9)])
    by (vm_compute; reflexivity).
  split; [exact E|].
  apply (returned_intent_clears_threshold Py.lower PyJson.json_loads Runs.obedient
           default_settings (u "status of BK123") 0%nat _ E).
  vm_compute. discriminate.
Defined.

(** X7: [llm_complete] returns a text exactly when its first call answers,
    or fails other than by timeout and the retry answers; the text is then
    that of the answering call.  The exception it raises after a failed
    retry carries the error of the first call, whatever the retry ran
    into, a timeout included. *)
Theorem llm_complete_outcome (service : nat -> outcome) (n : nat) :
  (forall text,
     fst (llm_complete service n) = inl text <->
     service n = Replied text \/
     (exists e, service n = Failed e /\ service (S n) = Replied text)) /\
  (forall x,
     fst (llm_complete service n) = inr x <->
     (service n = TimedOut /\ x = Exception (u "LLM request timed out")) \/
     (exists e, service n = Failed e /\
                (forall text, service (S n) <> Replied text) /\
                x = Exception (u "LLM request failed: " ++ e)%list)).
Proof.
  rewrite llm_complete_cases. split.
  - intros text. destruct (service n) as [t| |e] eqn:E0; simpl.
    + split.
      * intros H. injection H as ->. now left.
      * intros [H|(e & H & _)]; [now injection H as -> | discriminate].
    + split; [discriminate|]. intros [H|(e & H & _)]; discriminate.
    + destruct (service (S n)) as [t1| |e1] eqn:E1; simpl.
      * split.
        -- intros H. injection H as ->. right. now exists e.
        -- intros [H|(e' & _ & H)]; [discriminate | now injection H as ->].
      * split; [discriminate|]. intros [H|(e' & _ & H)]; discriminate.
      * split; [discriminate|]. intros [H|(e' & _ & H)]; discriminate.
  - intros x. destruct (service n) as [t| |e] eqn:E0; simpl.
    + split; [discriminate|]. intros [[H _]|(e & H & _)]; discriminate.
    + split.
      * intros H. injection H as <-. now left.
      * intros [[_ ->]|(e & H & _)]; [reflexivity | discriminate].
    + destruct (service (S n)) as [t1| |e1] eqn:E1; simpl.
      * split; [discriminate|].
        intros [[H _]|(e' & _ & Hn & _)]; [discriminate | now contradiction (Hn t1)].
      * split.
        -- intros H. injection H as <-. right. exists e. repeat split. discriminate.
        -- intros [[H _]|(e' & H & _ & ->)]; [discriminate | now injection H as ->].
      * split.
        -- intros H. injection H as <-. right. exists e. repeat split. discriminate.
        -- intros [[H _]|(e' & H & _ & ->)]; [discriminate | now injection H as ->].
Qed.

(** Fences. *)
Lemma unfenced_fenced (tag body : str) :
  ~ In 10%N tag -> unfenced (fenced tag body) = body.
Proof.
  intros Htag. unfold unfenced, fenced.
  change (u "```") with [96%N; 96%N; 96%N].
  set (s := ([96; 96] ++ tag ++ [10] ++ body ++ [10] ++ [96; 96])%N%list).
  assert (E : ([96; 96; 96] ++ tag ++ [10] ++ body ++ [10] ++ [96; 96; 96])%N%list
              = (96%N :: s ++ [96%N])%list).
  { unfold s. simpl. repeat (rewrite <- app_assoc; simpl). reflexivity. }
  rewrite E, (strip_fixed 96 96 s eq_refl eq_refl), <- E.
  assert (F : startswith ([96; 96; 96] ++ tag ++ [10] ++ body ++ [10] ++ [96; 96; 96])%N%list
                         [96; 96; 96]%N = true).
  { simpl. match goal with |- startswith ?x [] = true => destruct x; reflexivity end. }
  rewrite F.
  assert (L : split_char 10 []
                ([96; 96; 96] ++ tag ++ [10] ++ body ++ [10] ++ [96; 96; 96])%N%list
              = (((([96; 96; 96])%N ++ tag)%list :: split_char 10 [] body)
                 ++ [[96; 96; 96]%N])%list).
  { replace ([96; 96; 96] ++ tag ++ [10] ++ body ++ [10] ++ [96; 96; 96])%N%list
      with (((([96; 96; 96])%N ++ tag) ++ 10%N :: body) ++ 10%N :: [96; 96; 96]%N)%list
      by (repeat (rewrite <- app_assoc; simpl); reflexivity).
    rewrite split_char_app, split_char_app.
    rewrite (split_char_none 10 [] (([96; 96; 96])%N ++ tag)%list).
    - reflexivity.
    - intros H. apply in_app_or in H as [H|H]; [|contradiction].
      simpl in H. destruct H as [H|[H|[H|[]]]]; discriminate. }
  rewrite L. unfold inner. cbn [tl app]. rewrite removelast_last.
  rewrite join_split_char. reflexivity.
Qed.

(** X8: a code fence around a reply is transparent: of a reply made of an
    opening fence line (with any tag), a body and a closing fence line,
    only the body is decoded, so the fenced reply is parsed as the bare
    body is. *)
Theorem fence_is_transparent
        (lower : str -> str) (json_loads : str -> loaded) (tag body : str) :
  ~ In 10%N tag ->
  strip body = body ->
  startswith body (u "```") = false ->
  unfenced (fenced tag body) = body /\
  _parse_intent_response lower json_loads (fenced tag body)
  = _parse_intent_response lower json_loads body.
Proof.
  intros Htag Hs Hf. split; [now apply unfenced_fenced|].
  unfold _parse_intent_response. rewrite (unfenced_fenced tag body Htag).
  unfold unfenced. now rewrite Hs, Hf.
Qed.

Lemma fence_is_transparent_witness :
  ~ In 10%N (u "json") /\
  strip help_json = help_json /\
  startswith help_json (u "```") = false /\
  _parse_intent_response Py.lower PyJson.json_loads (fenced (u "json") help_json)
  = [(u "intent", JStr (u "help")); (u "entities", JObj []);
     (u "confidence", JNum 0.9)].
Proof.
  assert (Ht : ~ In 10%N (u "json")).
  { intros H. vm_compute in H. destruct H as [H|[H|[H|[H|[]]]]]; discriminate. }
  assert (Hs : strip help_json = help_json) by (vm_compute; reflexivity).
  assert (Hf : startswith help_json (u "```") = false) by (vm_compute; reflexivity).
  split; [exact Ht|]. split; [exact Hs|]. split; [exact Hf|].
  rewrite (proj2 (fence_is_transparent Py.lower PyJson.json_loads
                    (u "json") help_json Ht Hs Hf)).
  vm_compute. reflexivity.
Defined.

Lemma fallback_of_nothing (lower : str -> str) :
  lower [] = [] ->
  _fallback_intent_extraction lower [] = result_of (u "unknown") (JNum 0.3).
Proof.
  intros H. unfold _fallback_intent_extraction. rewrite H. reflexivity.
Qed.

(** X9: a fenced reply written on a single line is lost: the first and the
    last line are dropped as the fences, nothing is left to decode, and the
    adapter returns [{intent: unknown, entities: {}, confidence: 0.3}]
    whatever the line holds and whatever the threshold. *)
Theorem one_line_fence_is_lost
        (lower : str -> str) (json_loads : str -> loaded)
        (service : nat -> outcome) (settings : Settings)
        (message : str) (n : nat) (text : str) :
  lower [] = [] ->
  json_loads [] = JSONDecodeError ->
  service n = Replied text ->
  startswith (strip text) (u "```") = true ->
  ~ In 10%N (strip text) ->
  unfenced text = [] /\
  classify_intent lower json_loads service settings message n
  = (inl (result_of (u "unknown") (JNum 0.3)), S n).
Proof.
  intros Hl Hj Hs Hf Hn.
  assert (Hu : unfenced text = []).
  { unfold unfenced. rewrite Hf, (split_char_none 10 [] (strip text) Hn). reflexivity. }
  split; [exact Hu|].
  rewrite (classify_intent_fallback lower json_loads service settings message n text Hs);
    [|now rewrite Hu].
  rewrite Hu, (fallback_of_nothing lower Hl). now destruct (Detector.Qltb _ _).
Qed.

Lemma one_line_fence_is_lost_witness :
  Py.lower [] = [] /\
  PyJson.json_loads [] = JSONDecodeError /\
  startswith (strip one_line_fenced) (u "```") = true /\
  ~ In 10%N (strip one_line_fenced) /\
  classify_intent Py.lower PyJson.json_loads (replying one_line_fenced)
                  default_settings (u "help me") 0%nat
  = (inl (result_of (u "unknown") (JNum 0.3)), 1%nat).
Proof.
  assert (Hf : startswith (strip one_line_fenced) (u "```") = true)
    by (vm_compute; reflexivity).
  assert (Hn : ~ In 10%N (strip one_line_fenced)).
  { intros H.
    assert (E : existsb (N.eqb 10) (strip one_line_fenced) = false)
      by (vm_compute; reflexivity).
    assert (T : existsb (N.eqb 10) (strip one_line_fenced) = true).
    { apply existsb_exists. exists 10%N. split; [exact H | reflexivity]. }
    congruence. }
  split; [reflexivity|]. split; [reflexivity|]. split; [exact Hf|]. split; [exact Hn|].
  exact (proj2 (one_line_fence_is_lost Py.lower PyJson.json_loads
                  (replying one_line_fenced) default_settings (u "help me") 0%nat
                  one_line_fenced eq_refl eq_refl eq_refl Hf Hn)).
Defined.

Section Decoded.

Variable lower : str -> str.
Variable json_loads : str -> loaded.
Variable service : nat -> outcome.
Variable settings : Settings.

(** The adapter on a reply that decodes to an object with an intent. *)
Lemma classify_intent_decoded (message : str) (n : nat) (text : str) (d : dict) :
  service n = Replied text ->
  json_loads (unfenced text) = Loaded (JObj d) ->
  has d (u "intent") = true ->
  classify_intent lower json_loads service settings message n
  = (let result := _parse_intent_response lower json_loads text in
     match get result (u "confidence") with
     | Some c =>
         match lt_float c (intent_confidence_threshold settings) with
         | Some false => inl result
         | Some true => inl (result_of (u "unknown") c)
         | None => inl (result_of (u "unknown") (JNum 0.0))
         end
     | None => inl result
     end, S n).
Proof.
  intros Hs Hj Hi. unfold classify_intent, try_except, bind, ret, raise.
  rewrite llm_complete_cases, Hs. cbv zeta.
  destruct (parse_classified lower json_loads text) as (_ & _ & Hc).
  unfold has in Hc.
  destruct (get (_parse_intent_response lower json_loads text) (u "confidence"))
    as [c|]; [|discriminate].
  now destruct (lt_float c (intent_confidence_threshold settings)) as [[|]|].
Qed.

(** X10: a decoded object that names an intent of the closed set but has
    no confidence gets the confidence 0.5 (and an empty entities dict when
    it has none), and is returned as such whenever the threshold is at most
    0.5, as the default 0.45 is. *)
Theorem missing_confidence_defaults_to_half
        (message : str) (n : nat) (text : str) (d : dict) (i : str) :
  service n = Replied text ->
  json_loads (unfenced text) = Loaded (JObj d) ->
  get d (u "intent") = Some (JStr i) ->
  In i VALID_INTENTS ->
  has d (u "confidence") = false ->
  intent_confidence_threshold settings <= 0.5 ->
  exists r,
    classify_intent lower json_loads service settings message n = (inl r, S n) /\
    r = set (if has d (u "entities") then d else set d (u "entities") (JObj []))
            (u "confidence") (JNum 0.5) /\
    get r (u "intent") = Some (JStr i) /\
    get r (u "confidence") = Some (JNum 0.5).
Proof.
  intros Hs Hj Hi Hv Hc Ht.
  assert (Hhas : has d (u "intent") = true) by (unfold has; now rewrite Hi).
  assert (Hm : mem i VALID_INTENTS = true) by now apply mem_In.
  assert (Hne : forall (v : json) (k : str),
            str_eqb k (u "entities") = false ->
            get (set d (u "entities") v) k = get d k).
  { intros v k Hk. apply get_set_other. intros ->.
    now rewrite str_eqb_refl in Hk. }
  rewrite (classify_intent_decoded message n text d Hs Hj Hhas).
  unfold _parse_intent_response. rewrite Hj, Hhas. cbn [negb]. cbv iota zeta.
  destruct (has d (u "entities")) eqn:He;
    match goal with
    | |- context [has ?x (u "confidence")] =>
        assert (Hi1 : get x (u "intent") = Some (JStr i))
          by (first [exact Hi | now rewrite (Hne (JObj []) (u "intent") eq_refl)]);
        assert (Hc1 : has x (u "confidence") = false)
          by (first [exact Hc
                    | unfold has in *;
                      now rewrite (Hne (JObj []) (u "confidence") eq_refl)]);
        assert (Hi2 : get (set x (u "confidence") (JNum 0.5)) (u "intent")
                      = Some (JStr i))
          by (rewrite get_set_other; [exact Hi1 | vm_compute; discriminate]);
        rewrite Hc1, Hi2, Hm, get_set_same; unfold lt_float;
        rewrite (proj2 (Qle_bool_iff _ _) Ht); cbn [negb];
        exists (set x (u "confidence") (JNum 0.5));
        repeat split; [exact Hi2 | apply get_set_same]
    end.
Qed.

End Decoded.

Lemma missing_confidence_defaults_to_half_witness :
  PyJson.json_loads (unfenced bare_intent)
  = Loaded (JObj [(u "intent", JStr (u "passage_history"))]) /\
  In (u "passage_history") VALID_INTENTS /\
  0.45 <= 0.5 /\
  fst (classify_intent Py.lower PyJson.json_loads (replying bare_intent)
                       default_settings (u "history") 0%nat)
  = inl [(u "intent", JStr (u "passage_history")); (u "entities", JObj []);
         (u "confidence", JNum 0.5)].
Proof.
  assert (Hj : PyJson.json_loads (unfenced bare_intent)
               = Loaded (JObj [(u "intent", JStr (u "passage_history"))]))
    by (vm_compute; reflexivity).
  assert (Hv : In (u "passage_history") VALID_INTENTS)
    by (apply mem_In; vm_compute; reflexivity).
  assert (Ht : 0.45 <= 0.5) by (apply Qle_bool_iff; reflexivity).
  split; [exact Hj|]. split; [exact Hv|]. split; [exact Ht|].
  destruct (missing_confidence_defaults_to_half Py.lower PyJson.json_loads
              (replying bare_intent) default_settings (u "history") 0%nat
              bare_intent _ (u "passage_history") eq_refl Hj eq_refl Hv eq_refl Ht)
    as (r & Hr & -> & _).
  rewrite Hr. vm_compute. reflexivity.
Defined.

End GeminiExtras.

(* ====================================================================== *)
(** * Further properties of the message polisher *)
(* ====================================================================== *)

Module PolisherExtras.

Import Text TextFacts Json PyValue Gemini Polisher AdapterNotions AdapterClaims.
Local Open Scope string_scope.

Section Polished.

Variable service : nat -> outcome.

(** X12: a message that is falsy, shorter than ten characters (or items),
    or of a type without a length is returned as it is, and no completion
    call is issued for it. *)
Theorem short_message_is_not_polished (agent_response : dict) (n : nat) :
  truthy (get_default agent_response (u "message") (JStr [])) = false \/
  len (get_default agent_response (u "message") (JStr [])) = None \/
  (exists k, len (get_default agent_response (u "message") (JStr [])) = Some k /\
             (k < 10)%nat) ->
  polish_message service agent_response n
  = (inl (get_default agent_response (u "message") (JStr [])), n).
Proof.
  unfold polish_message, try_except, ret, raise.
  intros [H|[H|(k & H & Hk)]].
  - now rewrite H.
  - rewrite H. now destruct (truthy _).
  - rewrite H. apply Nat.ltb_lt in Hk. rewrite Hk. now destruct (truthy _).
Qed.

(** X13: [polish_message] raises nothing, issues at most two completion
    calls, and returns either the agent's message as it found it or the
    stripped text of the completion, the latter only when that text has at
    least five characters. *)
Theorem polish_message_returns (agent_response : dict) (n : nat) :
  exists v n',
    polish_message service agent_response n = (inl v, n') /\
    (n <= n' <= n + 2)%nat /\
    (v = get_default agent_response (u "message") (JStr []) \/
     exists text, fst (llm_complete service n) = inl text /\
                  v = JStr (strip text) /\
                  (5 <= List.length (strip text))%nat).
Proof.
  unfold polish_message, try_except, bind, ret, raise.
  set (m := get_default agent_response (u "message") (JStr [])).
  destruct (truthy m); cbn [negb].
  2: { exists m, n. split; [reflexivity|]. split; [lia | now left]. }
  destruct (len m) as [k|].
  2: { exists m, n. split; [reflexivity|]. split; [lia | now left]. }
  destruct (k <? 10)%nat.
  { exists m, n. split; [reflexivity|]. split; [lia | now left]. }
  assert (Hb : (n <= snd (llm_complete service n) <= n + 2)%nat).
  { rewrite llm_complete_cases. destruct (service n); [simpl; lia | simpl; lia |].
    destruct (service (S n)); simpl; lia. }
  destruct (llm_complete service n) as [[text|e] n1] eqn:E; cbn [snd] in Hb.
  - destruct (falsy (strip text) || (List.length (strip text) <? 5)%nat) eqn:F.
    + exists m, n1. split; [reflexivity|]. split; [exact Hb | now left].
    + exists (JStr (strip text)), n1. split; [reflexivity|]. split; [exact Hb|].
      right. exists text. split; [reflexivity|]. split; [reflexivity|].
      apply orb_false_iff in F as [_ F]. apply Nat.ltb_ge in F. exact F.
  - exists m, n1. split; [reflexivity|]. split; [exact Hb | now left].
Qed.

End Polished.

Lemma short_message_is_not_polished_witness :
  polish_message down short_answer 0%nat = (inl (JStr (u "OK")), 0%nat).
Proof.
  apply (short_message_is_not_polished down short_answer 0%nat).
  right. right. exists 2%nat. split; [reflexivity | lia].
Defined.

End PolisherExtras.

(* ====================================================================== *)
(** * Further properties of the prompt's history section *)
(* ====================================================================== *)

Module PromptsExtras.

Import Text TextFacts Json PyValue Prompts AdapterNotions.
Local Open Scope string_scope.

Section Formatted.

Variable py_str : json -> str.

Lemma last_three_app (older recent : list json) :
  List.length recent = 3%nat -> last_three (older ++ recent) = recent.
Proof.
  intros H. unfold last_three. rewrite length_app, H.
  replace (List.length older + 3 - 3)%nat with (List.length older + 0)%nat by lia.
  rewrite skipn_app, Nat.add_0_r, skipn_all.
  replace (List.length older - List.length older)%nat with 0%nat by lia.
  reflexivity.
Qed.

Lemma last_three_short (history : list json) :
  (List.length history <= 3)%nat -> last_three history = history.
Proof.
  intros H. unfold last_three.
  replace (List.length history - 3)%nat with 0%nat by lia. reflexivity.
Qed.

(** X14: only the last three entries of the history are read: whatever
    precedes them, entries that are no dicts included, leaves the history
    section as it is. *)
Theorem only_last_three_are_read (older recent : list json) :
  List.length recent = 3%nat ->
  format_history_for_prompt py_str (older ++ recent)
  = format_history_for_prompt py_str recent.
Proof.
  intros H. unfold format_history_for_prompt.
  rewrite (last_three_app older recent H), (last_three_short recent) by lia.
  destruct recent as [|r0 recent]; [discriminate|].
  now destruct older.
Qed.

Lemma format_turns_none (recent : list json) :
  format_turns py_str recent = None <->
  exists msg, In msg recent /\ is_dict msg = false.
Proof.
  induction recent as [|msg rest IH]; simpl.
  - split; [discriminate | intros (m & [] & _)].
  - destruct msg; simpl;
      try (split; [intros _; eexists; split; [left; reflexivity | reflexivity]
                  | reflexivity]).
    destruct (format_turns py_str rest) as [lines|].
    + split; [discriminate|]. intros (m & [<-|Hm] & Hd); [discriminate|].
      assert (E : Some lines = None) by (apply (proj2 IH); now exists m).
      discriminate E.
    + split; [|reflexivity]. intros _.
      destruct (proj1 IH eq_refl) as (m & Hm & Hd). exists m. split; [now right | exact Hd].
Qed.

(** X15: the history section cannot be built (an entry has no [get])
    exactly when one of the last three entries is not a dict. *)
Theorem history_section_fails_on_non_dict (history : list json) :
  format_history_for_prompt py_str history = None <->
  exists msg, In msg (last_three history) /\ is_dict msg = false.
Proof.
  unfold format_history_for_prompt. destruct history as [|h0 history].
  - split; [discriminate | intros (m & [] & _)].
  - rewrite <- format_turns_none.
    destruct (format_turns py_str (last_three (h0 :: history)));
      split; (discriminate || reflexivity).
Qed.

End Formatted.

Lemma only_last_three_are_read_witness :
  format_history_for_prompt plain (JStr (u "stale") :: three_turns)
  = Some (u "user: status REF123" ++ [10%N]
          ++ u "assistant: Booking REF123 is confirmed" ++ [10%N]
          ++ u "user: and terminal A?")%list.
Proof.
  change (JStr (u "stale") :: three_turns) with ([JStr (u "stale")] ++ three_turns)%list.
  rewrite (only_last_three_are_read plain [JStr (u "stale")] three_turns eq_refl).
  vm_compute. reflexivity.
Defined.

End PromptsExtras.

(* ====================================================================== *)
(** * Client initialisation across calls *)
(* ====================================================================== *)

Module ProviderExtras.

Import Text Provider AdapterNotions.

Section Configured.

Variable api_key : str.
Variable configure_ok : nat -> bool.

(** What holds of the client between calls. *)
Lemma initialize_invariant (k : nat) (c : Client) :
  falsy api_key = false ->
  (_client_initialized c = true ->
   exists j, configure_calls c = S j /\ configure_ok j = true) ->
  (forall j, (S j < configure_calls c)%nat -> configure_ok j = false) ->
  (_client_initialized c = false ->
   forall j, (j < configure_calls c)%nat -> configure_ok j = false) ->
  let c' := after_calls api_key configure_ok k c in
  (_client_initialized c' = true ->
   exists j, configure_calls c' = S j /\ configure_ok j = true) /\
  (forall j, (S j < configure_calls c')%nat -> configure_ok j = false) /\
  (_client_initialized c' = false ->
   configure_calls c' = (configure_calls c + k)%nat /\
   forall j, (j < configure_calls c')%nat -> configure_ok j = false) /\
  (_client_initialized c = true -> c' = c).
Proof.
  intros Hkey. revert c. induction k as [|k IH]; intros c H1 H2 H3; cbv zeta;
    cbn [after_calls].
  - repeat split; auto; lia.
  - destruct (_client_initialized c) eqn:Hinit.
    + assert (E : _initialize_client api_key configure_ok c = c)
        by (unfold _initialize_client; now rewrite Hinit).
      rewrite E. specialize (IH c). rewrite Hinit in IH.
      destruct (IH H1 H2 H3) as (I1 & I2 & I3 & I4).
      rewrite (I4 eq_refl), Hinit. repeat split; auto; discriminate.
    + assert (E : _initialize_client api_key configure_ok c
                  = {| _client_initialized := configure_ok (configure_calls c);
                       configure_calls := S (configure_calls c) |})
        by (unfold _initialize_client; now rewrite Hinit, Hkey).
      rewrite E.
      set (c1 := {| _client_initialized := configure_ok (configure_calls c);
                    configure_calls := S (configure_calls c) |}).
      assert (G1 : _client_initialized c1 = true ->
                   exists j, configure_calls c1 = S j /\ configure_ok j = true).
      { intros E1. exists (configure_calls c). now split. }
      assert (G2 : forall j, (S j < configure_calls c1)%nat -> configure_ok j = false).
      { intros j Hj. apply (H3 eq_refl). simpl in Hj. lia. }
      assert (G3 : _client_initialized c1 = false ->
                   forall j, (j < configure_calls c1)%nat -> configure_ok j = false).
      { intros E1 j Hj. simpl in Hj, E1.
        destruct (Nat.eq_dec j (configure_calls c)) as [->|Hne]; [exact E1|].
        apply (H3 eq_refl). lia. }
      destruct (IH c1 G1 G2 G3) as (I1 & I2 & I3 & _).
      split; [exact I1|]. split; [exact I2|]. split; [|discriminate].
      intros F. destruct (I3 F) as [E1 Hall]. split; [|exact Hall].
      rewrite E1. simpl. lia.
Qed.

(** X16: across any number of calls, [genai.configure] is attempted
    until it first succeeds and never again: every attempt but the last
    failed; the client is initialised exactly when the last attempt
    succeeded; while it is not, every call has made one attempt. *)
Theorem configure_until_first_success (k : nat) :
  falsy api_key = false ->
  let c := after_calls api_key configure_ok k fresh in
  (configure_calls c <= k)%nat /\
  (forall j, (S j < configure_calls c)%nat -> configure_ok j = false) /\
  (_client_initialized c = true <->
   exists j, configure_calls c = S j /\ configure_ok j = true) /\
  (_client_initialized c = false -> configure_calls c = k).
Proof.
  intros Hkey.
  destruct (initialize_invariant k fresh Hkey) as (I1 & I2 & I3 & _).
  - discriminate.
  - intros j Hj. simpl in Hj. lia.
  - intros _ j Hj. simpl in Hj. lia.
  - cbv zeta.
    set (c := after_calls api_key configure_ok k fresh) in *.
    assert (Hle : forall m, (configure_calls (after_calls api_key configure_ok m fresh)
                             <= m)%nat).
    { clear. intros m.
      assert (G : forall c0, (configure_calls (after_calls api_key configure_ok m c0)
                              <= configure_calls c0 + m)%nat).
      { induction m as [|m IH]; intros c0; cbn [after_calls]; [lia|].
        specialize (IH (_initialize_client api_key configure_ok c0)).
        unfold _initialize_client in *.
        destruct (_client_initialized c0); [lia|].
        destruct (falsy api_key); [lia|]. simpl in IH. lia. }
      apply (G fresh). }
    split; [apply Hle|]. split; [exact I2|]. split.
    + split; [exact I1|]. intros (j & Hj & Hok).
      destruct (_client_initialized c) eqn:E; [reflexivity|].
      destruct (I3 eq_refl) as [_ Hall]. rewrite (Hall j) in Hok; [discriminate | lia].
    + intros E. now destruct (I3 E).
Qed.

(** X17: without an API key no call ever attempts [genai.configure], and
    the client stays uninitialised. *)
Theorem no_key_no_configure (k : nat) (c : Client) :
  falsy api_key = true ->
  after_calls api_key configure_ok k c = c.
Proof.
  intros Hkey. induction k as [|k IH]; [reflexivity|].
  cbn [after_calls]. unfold _initialize_client at 1. rewrite Hkey.
  destruct (_client_initialized c); exact IH.
Qed.

End Configured.

Lemma configure_until_first_success_witness :
  falsy (u "test-key") = false /\
  after_calls (u "test-key") late_configure 5 fresh
  = {| _client_initialized := true; configure_calls := 3 |} /\
  (forall j, (S j < 3)%nat -> late_configure j = false).
Proof.
  assert (E : after_calls (u "test-key") late_configure 5 fresh
              = {| _client_initialized := true; configure_calls := 3 |})
    by (vm_compute; reflexivity).
  split; [reflexivity|]. split; [exact E|].
  pose proof (configure_until_first_success (u "test-key") late_configure 5 eq_refl)
    as H.
  cbv zeta in H. rewrite E in H. exact (proj1 (proj2 H)).
Defined.

Lemma no_key_no_configure_witness :
  falsy [] = true /\ after_calls [] late_configure 5 fresh = fresh.
Proof.
  split; [reflexivity|].
  exact (no_key_no_configure [] late_configure 5 fresh eq_refl).
Defined.

End ProviderExtras.

(* ====================================================================== *)
(** * Further properties of the Groq/OpenAI adapter *)
(* ====================================================================== *)

Module GroqExtras.

Import Text TextFacts Json JsonFacts Groq AdapterNotions Runs.
Local Open Scope string_scope.
Local Open Scope Q_scope.

Lemma startswith_app (s p q : str) :
  startswith s (p ++ q)%list = true -> startswith s p = true.
Proof.
  revert s. induction p as [|x p IH]; intros s H.
  - now destruct s.
  - destruct s as [|y s]; [discriminate|]. simpl in *.
    apply andb_true_iff in H as [H1 H2]. rewrite H1. now apply IH.
Qed.

(** A string that contains a word contains every prefix of the word. *)
Lemma contains_prefix (s p q : str) :
  contains s (p ++ q)%list = true -> contains s p = true.
Proof.
  induction s as [|c s IH]; cbn [contains]; intros H.
  - apply orb_true_iff in H as [H|H]; [|discriminate].
    apply startswith_app in H. now rewrite H.
  - apply orb_true_iff in H as [H|H].
    + apply startswith_app in H. now rewrite H.
    + rewrite (IH H). apply orb_true_r.
Qed.

Lemma contains_hi (s : str) :
  contains s (u "history") = true \/ contains s (u "historique") = true ->
  contains s (u "hi") = true.
Proof.
  intros [H|H].
  - apply (contains_prefix s (u "hi") (u "story")). exact H.
  - apply (contains_prefix s (u "hi") (u "storique")). exact H.
Qed.

(** [s.split(sep)] up to the first separator, when the text before it has
    no backtick. *)
Lemma split_str_first (t rest cur : str) (fuel : nat) :
  ~ In 96%N t -> (List.length t < fuel)%nat ->
  exists more,
    split_str fuel (u "```") cur (t ++ u "```" ++ rest)%list
    = ((rev cur ++ t)%list :: more).
Proof.
  revert cur fuel. induction t as [|c t IH]; intros cur fuel Hn Hf.
  - destruct fuel as [|f]; [inversion Hf|]. cbn [app].
    change (u "```") with [96%N; 96%N; 96%N]. cbn [app split_str startswith].
    replace (startswith rest []) with true by now destruct rest.
    rewrite app_nil_r. eexists. reflexivity.
  - destruct fuel as [|f]; [inversion Hf|]. cbn [app split_str].
    assert (Hc : c <> 96%N) by (intros ->; apply Hn; now left).
    assert (E : startswith (c :: t ++ u "```" ++ rest)%list (u "```") = false).
    { change (u "```") with [96%N; 96%N; 96%N]. cbn [startswith].
      replace (96 =? c)%N with false; [reflexivity|].
      symmetry. apply N.eqb_neq. congruence. }
    rewrite E.
    destruct (IH (c :: cur) f) as [more Hm].
    + intros H. apply Hn. now right.
    + simpl in Hf. lia.
    + exists more. rewrite Hm. cbn [rev]. now rewrite <- app_assoc.
Qed.

Lemma split_str_sep (f : nat) (x : str) :
  split_str (S f) (u "```") [] (u "```" ++ x)%list
  = [] :: split_str f (u "```") [] x.
Proof.
  change (u "```") with [96%N; 96%N; 96%N]. cbn [app split_str].
  replace (startswith (96%N :: 96%N :: 96%N :: x) [96%N; 96%N; 96%N]) with true
    by (now destruct x).
  reflexivity.
Qed.

(** X21: the Groq adapter removes a code fence also from a reply written
    on one line: between the opening fence with its [json] tag and the
    closing fence, the text is handed to [json.loads] as it is. *)
Theorem groq_fence_is_removed (body : str) :
  ~ In 96%N body ->
  groq_unfenced (u "```json" ++ body ++ u "```")%list = body.
Proof.
  intros Hn. unfold groq_unfenced.
  set (content := (u "```json" ++ body ++ u "```")%list).
  assert (Hs : strip content = content).
  { unfold content. change (u "```json") with (96%N :: u "``json").
    change (u "```") with ([96%N; 96%N] ++ [96%N])%list.
    rewrite <- app_comm_cons, !app_assoc.
    apply (strip_fixed 96 96); reflexivity. }
  rewrite Hs.
  assert (Hf : startswith content (u "```") = true).
  { unfold content. change (u "```json") with (u "```" ++ u "json")%list.
    change (u "```") with [96%N; 96%N; 96%N]. reflexivity. }
  rewrite Hf.
  assert (Hsplit : exists more,
            split_str (List.length content) (u "```") [] content
            = [] :: (u "json" ++ body)%list :: more).
  { assert (E : content = (u "```" ++ (u "json" ++ body) ++ u "```" ++ [])%list).
    { unfold content. change (u "```json") with (u "```" ++ u "json")%list.
      now rewrite app_nil_r, <- !app_assoc. }
    assert (L : List.length content
                = S (5 + List.length (u "json" ++ body)%list)).
    { rewrite E, !length_app. simpl. lia. }
    rewrite L, E, split_str_sep.
    destruct (split_str_first (u "json" ++ body)%list [] []
                (5 + List.length (u "json" ++ body)%list)%nat) as [more Hm].
    - intros H. apply in_app_or in H as [H|H]; [|now apply Hn].
      vm_compute in H. destruct H as [H|[H|[H|[H|[]]]]]; discriminate.
    - lia.
    - exists more. rewrite Hm. reflexivity. }
  destruct Hsplit as [more ->]. cbn [nth].
  change (u "json" ++ body)%list with (106%N :: 115%N :: 111%N :: 110%N :: body).
  change (u "json") with [106%N; 115%N; 111%N; 110%N].
  replace (startswith (106%N :: 115%N :: 111%N :: 110%N :: body)
             [106%N; 115%N; 111%N; 110%N]) with true by (now destruct body).
  reflexivity.
Qed.

Lemma groq_fence_is_removed_witness :
  ~ In 96%N help_json /\
  groq_unfenced (u "```json" ++ help_json ++ u "```")%list = help_json.
Proof.
  assert (Hn : ~ In 96%N help_json).
  { intros H.
    assert (E : existsb (N.eqb 96) help_json = false) by (vm_compute; reflexivity).
    assert (T : existsb (N.eqb 96) help_json = true).
    { apply existsb_exists. exists 96%N. split; [exact H | reflexivity]. }
    congruence. }
  split; [exact Hn|]. exact (groq_fence_is_removed help_json Hn).
Defined.

Section Patterns.

Variable lower : str -> str.
Variable json_loads : str -> loaded.

(** X18: the word [hi] of the help branch shadows [history] and
    [historique]: a message that contains one of them is classified as
    [help] with confidence 0.95, never as [passage_history]. *)
Theorem hi_shadows_history (message : str) :
  contains (lower message) (u "history") = true \/
  contains (lower message) (u "historique") = true ->
  _classify_with_patterns lower message = reply "help" 0.95.
Proof.
  intros H. apply contains_hi in H.
  unfold _classify_with_patterns. cbv zeta.
  assert (E : any_in (lower message)
                ["help"; "assist"; "guide"; "hi"; "hello"; "bonjour"] = true).
  { unfold any_in. apply existsb_exists. exists "hi". split; [|exact H].
    right. right. right. now left. }
  now rewrite E.
Qed.

(** X19: the pattern classifier answers [passage_history] only for a
    message that contains the word [passage]. *)
Theorem passage_history_needs_passage (message : str) :
  get (_classify_with_patterns lower message) (u "intent")
  = Some (JStr (u "passage_history")) ->
  contains (lower message) (u "passage") = true.
Proof.
  unfold _classify_with_patterns. cbv zeta.
  destruct (any_in (lower message)
              ["help"; "assist"; "guide"; "hi"; "hello"; "bonjour"]) eqn:Hhelp;
    [intros H; vm_compute in H; discriminate|].
  assert (Hhi : contains (lower message) (u "hi") = false).
  { unfold any_in in Hhelp. cbn [existsb] in Hhelp.
    apply orb_false_iff in Hhelp as [_ Hhelp].
    apply orb_false_iff in Hhelp as [_ Hhelp].
    apply orb_false_iff in Hhelp as [_ Hhelp].
    now apply orb_false_iff in Hhelp as [Hhelp _]. }
  destruct (contains (lower message) (u "passage")) eqn:Hp; [reflexivity|].
  destruct (contains (lower message) (u "history")) eqn:H1.
  { rewrite (contains_hi (lower message) (or_introl H1)) in Hhi. discriminate. }
  destruct (contains (lower message) (u "historique")) eqn:H2.
  { rewrite (contains_hi (lower message) (or_intror H2)) in Hhi. discriminate. }
  cbn [orb].
  repeat match goal with
         | |- context [if ?b then _ else _] => destruct b
         end; intros H; vm_compute in H; discriminate.
Qed.

(** X20: what [classify_intent] can do: it raises only the 504 error, and
    only for an enabled adapter whose awaited call expired; what it
    returns is the pattern classifier's result or, for an enabled adapter
    with provider [groq], the decoded reply itself, which then is a dict
    with the keys [intent] and [confidence]. *)
Theorem classify_intent_results (cfg : Config) (message : str) (e : event) :
  (forall err,
     classify_intent lower json_loads cfg message e = inr err <->
     is_agno_enabled cfg = true /\ e = Expired /\
     err = HTTPException HTTP_504_GATEWAY_TIMEOUT (u "agno_timeout")) /\
  (forall d,
     classify_intent lower json_loads cfg message e = inl d ->
     d = _classify_with_patterns lower message \/
     (is_agno_enabled cfg = true /\ AGNO_PROVIDER cfg = u "groq" /\
      exists c, e = Content c /\
                json_loads (groq_unfenced c) = Loaded (JObj d) /\
                has d (u "intent") = true /\ has d (u "confidence") = true)).
Proof.
  unfold classify_intent. split.
  - intros err. destruct (is_agno_enabled cfg); cbn [negb].
    + destruct e;
        try (destruct (str_eqb (AGNO_PROVIDER cfg) (u "groq"));
             (split; [discriminate | intros (_ & H & _); discriminate])).
      split.
      * intros H. injection H as <-. now repeat split.
      * intros (_ & _ & ->). reflexivity.
    + split; [discriminate | intros (H & _); discriminate].
  - intros d. destruct (is_agno_enabled cfg); cbn [negb].
    + destruct e; try discriminate;
        destruct (str_eqb (AGNO_PROVIDER cfg) (u "groq")) eqn:Hp;
        try (intros H; injection H as <-; now left).
      apply str_eqb_spec in Hp. cbn [_classify_with_groq].
      destruct (json_loads (groq_unfenced c)) as [[| | | | | | |r]| |] eqn:Hj;
        try (intros H; injection H as <-; now left).
      destruct (has r (u "intent") && has r (u "confidence")) eqn:Hk;
        intros H; injection H as <-; [|now left].
      apply andb_true_iff in Hk as [Hi Hc].
      right. split; [reflexivity|]. split; [exact Hp|].
      exists c. now repeat split.
    + intros H. injection H as <-. now left.
Qed.

(** X22: with provider [groq], a reply that decodes to a dict with the
    keys [intent] and [confidence] is returned as decoded: the intent is
    not checked against any vocabulary and the confidence against no
    threshold. *)
Theorem groq_reply_is_returned_as_decoded
        (cfg : Config) (message c : str) (result : dict) :
  is_agno_enabled cfg = true ->
  AGNO_PROVIDER cfg = u "groq" ->
  json_loads (groq_unfenced c) = Loaded (JObj result) ->
  has result (u "intent") = true ->
  has result (u "confidence") = true ->
  classify_intent lower json_loads cfg message (Content c) = inl result.
Proof.
  intros He Hp Hj Hi Hc. unfold classify_intent. rewrite He, Hp. cbn [negb].
  rewrite str_eqb_refl. cbn [_classify_with_groq]. now rewrite Hj, Hi, Hc.
Qed.

End Patterns.

Lemma classify_intent_results_witness :
  classify_intent Py.lower PyJson.json_loads groq_on (u "hello") Expired
  = inr (HTTPException HTTP_504_GATEWAY_TIMEOUT (u "agno_timeout")) /\
  is_agno_enabled groq_on = true.
Proof.
  assert (E : classify_intent Py.lower PyJson.json_loads groq_on (u "hello") Expired
              = inr (HTTPException HTTP_504_GATEWAY_TIMEOUT (u "agno_timeout")))
    by (vm_compute; reflexivity).
  split; [exact E|].
  exact (proj1 (proj1 (proj1 (classify_intent_results Py.lower PyJson.json_loads
                                groq_on (u "hello") Expired) _) E)).
Defined.

Lemma hi_shadows_history_witness :
  contains (Py.lower (u "Passage HISTORY of truck 12")) (u "history") = true /\
  _classify_with_patterns Py.lower (u "Passage HISTORY of truck 12")
  = reply "help" 0.95.
Proof.
  assert (H : contains (Py.lower (u "Passage HISTORY of truck 12")) (u "history")
              = true) by (vm_compute; reflexivity).
  split; [exact H|].
  exact (hi_shadows_history Py.lower (u "Passage HISTORY of truck 12") (or_introl H)).
Defined.

Lemma passage_history_needs_passage_witness :
  get (_classify_with_patterns Py.lower (u "passages of truck 12")) (u "intent")
  = Some (JStr (u "passage_history")) /\
  contains (Py.lower (u "passages of truck 12")) (u "passage") = true.
Proof.
  assert (H : get (_classify_with_patterns Py.lower (u "passages of truck 12"))
                  (u "intent") = Some (JStr (u "passage_history")))
    by (vm_compute; reflexivity).
  split; [exact H|].
  exact (passage_history_needs_passage Py.lower (u "passages of truck 12") H).
Defined.

Lemma groq_reply_is_returned_as_decoded_witness :
  classify_intent Py.lower PyJson.json_loads groq_on (u "hello") (Content timid_foreign)
  = inl [(u "intent", JStr (u "weather_report")); (u "confidence", JNum 0.1)].
Proof.
  apply (groq_reply_is_returned_as_decoded Py.lower PyJson.json_loads groq_on
           (u "hello") timid_foreign);
    vm_compute; reflexivity.
Defined.

End GroqExtras.

(* ====================================================================== *)
(** * Properties of the endpoint's helpers *)
(* ====================================================================== *)

Module ChatExtras.

Import Text TextFacts Json JsonFacts PyValue ChatHelpers AdapterNotions.
Local Open Scope string_scope.
Local Open Scope list_scope.

(** Stripping twice is stripping once. *)
Lemma lstrip_shape (s : str) :
  lstrip s = [] \/ exists c t, lstrip s = c :: t /\ is_space c = false.
Proof.
  induction s as [|c s IH]; [now left|]. simpl.
  destruct (is_space c) eqn:E; [exact IH|]. right. now exists c, s.
Qed.

Lemma lstrip_idem (s : str) : lstrip (lstrip s) = lstrip s.
Proof.
  destruct (lstrip_shape s) as [->|(c & t & -> & Hc)]; [reflexivity|].
  simpl. now rewrite Hc.
Qed.

Lemma lstrip_app_last (l : str) (c : N) :
  is_space c = false -> exists p, lstrip (l ++ [c]) = (p ++ [c])%list.
Proof.
  intros Hc. induction l as [|x l IH]; simpl.
  - rewrite Hc. now exists [].
  - destruct (is_space x); [exact IH|]. now exists (x :: l).
Qed.

Lemma strip_idem (s : str) : strip (strip s) = strip s.
Proof.
  unfold strip.
  assert (H : lstrip (rstrip (lstrip s)) = rstrip (lstrip s)).
  { destruct (lstrip_shape s) as [->|(c & t & -> & Hc)]; [reflexivity|].
    unfold rstrip. cbn [rev].
    destruct (lstrip_app_last (rev t) c Hc) as [p ->].
    rewrite rev_app_distr. simpl. now rewrite Hc. }
  rewrite H. unfold rstrip. now rewrite rev_involutive, lstrip_idem.
Qed.

(** Dicts: what [set] adds, and keys that are absent. *)
Lemma has_set_inv (d : dict) (k k' : str) (v : json) :
  has (set d k v) k' = true -> k' = k \/ has d k' = true.
Proof.
  intros H. destruct (str_eqb k' k) eqn:E.
  - left. now apply str_eqb_spec.
  - right. apply str_eqb_neq in E. unfold has in *. now rewrite get_set_other in H.
Qed.

Lemma get_absent (d : dict) (k : str) : ~ In k (map fst d) -> get d k = None.
Proof.
  induction d as [|[k0 v0] d IH]; [reflexivity|]. simpl. intros H.
  destruct (str_eqb k k0) eqn:E.
  - apply str_eqb_spec in E. subst. contradiction H. now left.
  - apply IH. intros Hin. apply H. now right.
Qed.

(** The fields copied from a backend message. *)
Lemma keep_reserved (msg acc : dict) (k : str) :
  mem k RESERVED = true -> get (keep_other_fields msg acc) k = get acc k.
Proof.
  intros Hk. revert acc. unfold keep_other_fields.
  induction msg as [|[k0 v0] msg IH]; intros acc; [reflexivity|].
  cbn [fold_left fst snd]. rewrite IH.
  destruct (mem k0 RESERVED) eqn:E; [reflexivity|].
  apply get_set_other. intros ->. congruence.
Qed.

Lemma keep_other (msg acc : dict) (k : str) :
  NoDup (map fst msg) -> mem k RESERVED = false ->
  get (keep_other_fields msg acc) k
  = match get msg k with Some v => Some v | None => get acc k end.
Proof.
  intros Hnd Hk. revert acc. unfold keep_other_fields.
  induction msg as [|[k0 v0] msg IH]; intros acc; [reflexivity|].
  cbn [fold_left fst snd get]. inversion Hnd as [|? ? Hnot Hnd']; subst.
  rewrite (IH Hnd'). destruct (str_eqb k k0) eqn:E.
  - apply str_eqb_spec in E. subst k0. rewrite Hk, (get_absent msg k Hnot).
    apply get_set_same.
  - apply str_eqb_neq in E. destruct (get msg k); [reflexivity|].
    destruct (mem k0 RESERVED); [reflexivity|]. now apply get_set_other.
Qed.

(** A dict built by [keep_other_fields] from fresh keys is the start
    followed by the fields that are kept. *)
Lemma keep_as_filter (msg acc : dict) :
  keep_other_fields msg acc = update acc (filter other_field msg).
Proof.
  unfold keep_other_fields, update. revert acc.
  induction msg as [|[k0 v0] msg IH]; intros acc; [reflexivity|].
  cbn [fold_left filter fst snd]. unfold other_field at 1. cbn [fst].
  destruct (mem k0 RESERVED); cbn [negb fold_left fst snd]; apply IH.
Qed.

Lemma set_fresh (d : dict) (k : str) (v : json) :
  get d k = None -> set d k v = d ++ [(k, v)].
Proof.
  induction d as [|[k0 v0] d IH]; [reflexivity|]. cbn [get set app].
  destruct (str_eqb k k0); [discriminate|]. intros H. now rewrite IH.
Qed.

Lemma get_app (d1 d2 : dict) (k : str) :
  get (d1 ++ d2) k = match get d1 k with Some v => Some v | None => get d2 k end.
Proof.
  induction d1 as [|[k0 v0] d1 IH]; [reflexivity|]. cbn [get app].
  now destruct (str_eqb k k0).
Qed.

Lemma update_fresh (l acc : dict) :
  NoDup (map fst l) ->
  (forall k, In k (map fst l) -> get acc k = None) ->
  update acc l = acc ++ l.
Proof.
  unfold update. revert acc. induction l as [|[k v] l IH]; intros acc Hnd Hf.
  - now rewrite app_nil_r.
  - cbn [fold_left fst snd]. cbn [map fst] in Hnd, Hf.
    inversion Hnd as [|? ? Hnot Hnd']; subst.
    rewrite (set_fresh acc k v) by (apply Hf; now left).
    rewrite IH; [now rewrite <- app_assoc | exact Hnd' |].
    intros k' Hk'. rewrite get_app, (Hf k') by now right.
    cbn [get]. destruct (str_eqb k' k) eqn:E; [|reflexivity].
    apply str_eqb_spec in E. subst. contradiction.
Qed.

Lemma filter_keys (f : str * json -> bool) (l : dict) (k : str) :
  In k (map fst (filter f l)) -> In k (map fst l).
Proof.
  intros H. apply in_map_iff in H as (kv & <- & Hkv).
  apply filter_In in Hkv as [Hkv _]. now apply in_map.
Qed.

Lemma NoDup_filter_keys (f : str * json -> bool) (l : dict) :
  NoDup (map fst l) -> NoDup (map fst (filter f l)).
Proof.
  induction l as [|kv l IH]; intros H; [constructor|].
  cbn [map] in H. inversion H as [|? ? Hnot Hnd]; subst. cbn [filter].
  destruct (f kv); [|now apply IH]. cbn [map]. constructor; [|now apply IH].
  intros Hin. apply Hnot. now apply (filter_keys f).
Qed.

Lemma filter_twice (f : str * json -> bool) (l : dict) :
  filter f (filter f l) = filter f l.
Proof.
  induction l as [|kv l IH]; [reflexivity|]. cbn [filter].
  destruct (f kv) eqn:E; [|exact IH]. cbn [filter]. now rewrite E, IH.
Qed.

Lemma other_field_fresh (msg : dict) (a b : json) (k : str) :
  In k (map fst (filter other_field msg)) ->
  get [(u "role", a); (u "content", b)] k = None.
Proof.
  intros H. apply in_map_iff in H as ([k0 v0] & <- & Hkv).
  apply filter_In in Hkv as [_ Hkv]. unfold other_field in Hkv. cbn [fst] in *.
  apply negb_true_iff in Hkv. unfold RESERVED, mem in Hkv. cbn [existsb] in Hkv.
  apply orb_false_iff in Hkv as [H1 Hkv]. apply orb_false_iff in Hkv as [H2 _].
  cbn [get]. now rewrite H1, H2.
Qed.

Lemma keep_fresh (msg : dict) (a b : json) :
  NoDup (map fst msg) ->
  keep_other_fields msg [(u "role", a); (u "content", b)]
  = [(u "role", a); (u "content", b)] ++ filter other_field msg.
Proof.
  intros Hnd. rewrite keep_as_filter. apply update_fresh.
  - now apply NoDup_filter_keys.
  - intros k. apply other_field_fresh.
Qed.

Section Normalized.

Variable upper : str -> str.
Variable lower : str -> str.
Variable py_str : json -> str.
Variable MESSAGE_ROLE_USER : str.
Variable MESSAGE_ROLE_ASSISTANT : str.

Lemma norm_role_range (msg : dict) (r : str) :
  norm_role upper lower MESSAGE_ROLE_USER MESSAGE_ROLE_ASSISTANT msg = Some r ->
  r = u "user" \/ r = u "assistant".
Proof.
  unfold norm_role. cbv zeta.
  destruct (mem _ [upper MESSAGE_ROLE_USER; u "USER"]);
    [intros H; injection H as <-; now left|].
  destruct (mem _ [upper MESSAGE_ROLE_ASSISTANT; u "ASSISTANT"]);
    [intros H; injection H as <-; now right|].
  destruct (get_default msg (u "role") (JStr [])); try discriminate.
  destruct (mem (lower s) [u "user"; u "assistant"]) eqn:E; [|discriminate].
  intros H. injection H as <-. apply mem_In in E.
  destruct E as [E|[E|[]]]; [now left | now right].
Qed.

(** Every normalised message comes from a backend message that was kept. *)
Lemma normalize_origin (raw : list json) (h : list dict) (m : dict) :
  _normalize_history upper lower py_str MESSAGE_ROLE_USER MESSAGE_ROLE_ASSISTANT raw
  = Some h ->
  In m h ->
  exists msg r,
    In (JObj msg) raw /\
    norm_role upper lower MESSAGE_ROLE_USER MESSAGE_ROLE_ASSISTANT msg = Some r /\
    m = normalized_msg py_str msg r.
Proof.
  revert h. induction raw as [|x raw IH]; intros h H Hin.
  - injection H as <-. contradiction.
  - cbn [_normalize_history] in H. destruct x; try discriminate.
    destruct (_normalize_history upper lower py_str MESSAGE_ROLE_USER
                MESSAGE_ROLE_ASSISTANT raw) as [l|]; [|discriminate].
    assert (K : In m l -> exists msg r, In (JObj msg) (JObj d :: raw) /\
                norm_role upper lower MESSAGE_ROLE_USER MESSAGE_ROLE_ASSISTANT msg
                = Some r /\ m = normalized_msg py_str msg r).
    { intros Hl. destruct (IH l eq_refl Hl) as (msg & r & H1 & H2 & H3).
      exists msg, r. split; [now right | now split]. }
    destruct (norm_role upper lower MESSAGE_ROLE_USER MESSAGE_ROLE_ASSISTANT d)
      as [r|] eqn:R; injection H as <-; [|now apply K].
    destruct Hin as [<-|Hin]; [|now apply K].
    exists d, r. split; [now left | now split].
Qed.

(** X23: every message of a normalised history has the role [user] or
    [assistant] and a content that is a stripped string, and has neither a
    [message] nor a [text] key. *)
Theorem normalized_history_shape (raw : list json) (h : list dict) (m : dict) :
  _normalize_history upper lower py_str MESSAGE_ROLE_USER MESSAGE_ROLE_ASSISTANT raw
  = Some h ->
  In m h ->
  (get m (u "role") = Some (JStr (u "user")) \/
   get m (u "role") = Some (JStr (u "assistant"))) /\
  (exists c, get m (u "content") = Some (JStr c) /\ strip c = c) /\
  has m (u "message") = false /\ has m (u "text") = false.
Proof.
  intros H Hin. destruct (normalize_origin raw h m H Hin) as (msg & r & _ & R & ->).
  apply norm_role_range in R. unfold normalized_msg, has. cbv zeta.
  rewrite !keep_reserved by (vm_compute; reflexivity).
  split; [|split; [|split; reflexivity]].
  - destruct R as [->| ->]; [left | right]; reflexivity.
  - eexists. split; [reflexivity | apply strip_idem].
Qed.

(** X24: every other field of a backend message that is kept reaches the
    orchestrator as the backend sent it. *)
Theorem other_fields_are_kept (raw : list json) (h : list dict) (m : dict) :
  _normalize_history upper lower py_str MESSAGE_ROLE_USER MESSAGE_ROLE_ASSISTANT raw
  = Some h ->
  In m h ->
  exists msg,
    In (JObj msg) raw /\
    (NoDup (map fst msg) ->
     forall k, ~ In k RESERVED -> get m k = get msg k).
Proof.
  intros H Hin. destruct (normalize_origin raw h m H Hin) as (msg & r & Hraw & _ & ->).
  exists msg. split; [exact Hraw|]. intros Hnd k Hk.
  apply mem_false in Hk. unfold normalized_msg. cbv zeta.
  rewrite (keep_other msg _ k Hnd Hk).
  destruct (get msg k); [reflexivity|].
  cbn [get]. unfold RESERVED, mem in Hk. cbn [existsb] in Hk.
  apply orb_false_iff in Hk as [H1 Hk]. apply orb_false_iff in Hk as [H2 _].
  now rewrite H1, H2.
Qed.

Lemma normalize_dicts (l : list json) :
  (forall x, In x l -> is_dict x = true) ->
  exists h,
    _normalize_history upper lower py_str MESSAGE_ROLE_USER MESSAGE_ROLE_ASSISTANT l
    = Some h /\
    (List.length h <= List.length l)%nat.
Proof.
  induction l as [|x l IH]; intros Hd.
  - exists []. now split.
  - destruct IH as (h & Hh & Hl); [intros y Hy; apply Hd; now right|].
    assert (Hx : is_dict x = true) by (apply Hd; now left).
    destruct x; try discriminate. cbn [_normalize_history]. rewrite Hh.
    destruct (norm_role _ _ _ _ d).
    + eexists. split; [reflexivity|]. simpl. lia.
    + exists h. split; [reflexivity|]. simpl. lia.
Qed.

Lemma raw_history_dicts (fetched : option json) (x : json) :
  In x (raw_history fetched) -> is_dict x = true.
Proof.
  assert (D : forall v, In x (dicts_of v) -> is_dict x = true).
  { intros v. destruct v; try contradiction. cbn [dicts_of].
    intros H. now apply filter_In in H. }
  unfold raw_history, _extract_messages.
  destruct fetched as [[| | | | | | |p]|]; try contradiction.
  destruct (truthy (getv p (u "messages"))); [apply D|].
  destruct (data_get p (u "messages")) as [b|]; [|contradiction].
  destruct (truthy b); apply D.
Qed.

(** X25: whatever the backend returns as the history payload, and also
    when fetching it fails, normalising the extracted messages raises
    nothing and yields at most as many messages as were extracted. *)
Theorem extracted_history_is_normalized (fetched : option json) :
  exists h,
    _normalize_history upper lower py_str MESSAGE_ROLE_USER MESSAGE_ROLE_ASSISTANT
      (raw_history fetched) = Some h /\
    (List.length h <= List.length (raw_history fetched))%nat.
Proof.
  apply normalize_dicts. intros x. apply raw_history_dicts.
Qed.

(** A normalised message is normalised to itself. *)
Lemma renormalize (msg : dict) (r : str) :
  upper (u "user") = u "USER" ->
  upper (u "assistant") = u "ASSISTANT" ->
  upper MESSAGE_ROLE_USER <> u "ASSISTANT" ->
  (forall s, py_str (JStr s) = s) ->
  NoDup (map fst msg) ->
  r = u "user" \/ r = u "assistant" ->
  norm_role upper lower MESSAGE_ROLE_USER MESSAGE_ROLE_ASSISTANT
    (normalized_msg py_str msg r) = Some r /\
  normalized_msg py_str (normalized_msg py_str msg r) r = normalized_msg py_str msg r.
Proof.
  intros Hu Ha Hcfg Hstr Hnd Hr.
  set (m := normalized_msg py_str msg r).
  assert (Grole : get m (u "role") = Some (JStr r)).
  { unfold m, normalized_msg. cbv zeta.
    now rewrite keep_reserved by (vm_compute; reflexivity). }
  assert (Gmsg : get m (u "message") = None).
  { unfold m, normalized_msg. cbv zeta.
    now rewrite keep_reserved by (vm_compute; reflexivity). }
  assert (Gtext : get m (u "text") = None).
  { unfold m, normalized_msg. cbv zeta.
    now rewrite keep_reserved by (vm_compute; reflexivity). }
  assert (Gc : exists c, get m (u "content") = Some (JStr c) /\ strip c = c /\
                         m = [(u "role", JStr r); (u "content", JStr c)]
                             ++ filter other_field msg).
  { unfold m, normalized_msg. cbv zeta. eexists. split; [|split].
    - rewrite keep_reserved by (vm_compute; reflexivity). reflexivity.
    - apply strip_idem.
    - now apply keep_fresh. }
  destruct Gc as (c & Gc & Hc & Hm). split.
  - unfold norm_role, get_default. rewrite Grole. cbv zeta.
    destruct Hr as [->| ->].
    + rewrite Hu. unfold mem. cbn [existsb]. rewrite str_eqb_refl.
      now rewrite orb_true_r.
    + rewrite Ha.
      assert (E1 : mem (u "ASSISTANT") [upper MESSAGE_ROLE_USER; u "USER"] = false).
      { apply mem_false. intros [E|[E|[]]]; [now apply Hcfg | discriminate E]. }
      rewrite E1. unfold mem. cbn [existsb]. rewrite str_eqb_refl.
      now rewrite orb_true_r.
  - unfold normalized_msg at 1. cbv zeta. unfold getv. rewrite Gc, Gmsg, Gtext.
    assert (E : strip (py_str (or_else (JStr c)
                          (or_else JNull (or_else JNull (JStr [])))))
                = c).
    { unfold or_else. cbn [truthy]. destruct c as [|x c]; cbn [falsy negb].
      - now rewrite Hstr.
      - now rewrite Hstr. }
    rewrite E, keep_as_filter, Hm.
    assert (F : filter other_field
                  ([(u "role", JStr r); (u "content", JStr c)]
                   ++ filter other_field msg)
                = filter other_field msg).
    { rewrite filter_app, filter_twice. reflexivity. }
    rewrite F. apply update_fresh.
    + now apply NoDup_filter_keys.
    + intros k. apply other_field_fresh.
Qed.

(** X27: normalising is idempotent: a normalised history is normalised to
    itself, provided [MESSAGE_ROLE_USER] is not configured as the word
    [assistant] (in any case). *)
Theorem normalize_is_idempotent (raw : list json) (h : list dict) :
  upper (u "user") = u "USER" ->
  upper (u "assistant") = u "ASSISTANT" ->
  upper MESSAGE_ROLE_USER <> u "ASSISTANT" ->
  (forall s, py_str (JStr s) = s) ->
  (forall msg, In (JObj msg) raw -> NoDup (map fst msg)) ->
  _normalize_history upper lower py_str MESSAGE_ROLE_USER MESSAGE_ROLE_ASSISTANT raw
  = Some h ->
  _normalize_history upper lower py_str MESSAGE_ROLE_USER MESSAGE_ROLE_ASSISTANT
    (map JObj h) = Some h.
Proof.
  intros Hu Ha Hcfg Hstr. revert h. induction raw as [|x raw IH]; intros h Hnd H.
  - injection H as <-. reflexivity.
  - cbn [_normalize_history] in H. destruct x; try discriminate.
    destruct (_normalize_history upper lower py_str MESSAGE_ROLE_USER
                MESSAGE_ROLE_ASSISTANT raw) as [l|] eqn:El; [|discriminate].
    assert (Il : _normalize_history upper lower py_str MESSAGE_ROLE_USER
                   MESSAGE_ROLE_ASSISTANT (map JObj l) = Some l).
    { apply IH; [|reflexivity]. intros msg Hin. apply Hnd. now right. }
    destruct (norm_role upper lower MESSAGE_ROLE_USER MESSAGE_ROLE_ASSISTANT d)
      as [r|] eqn:R; injection H as <-; [|exact Il].
    destruct (renormalize d r Hu Ha Hcfg Hstr (Hnd d (or_introl eq_refl))
                (norm_role_range d r R)) as [R' N'].
    cbn [map _normalize_history]. now rewrite Il, R', N'.
Qed.

End Normalized.

Lemma update_has (c d : dict) (k : str) :
  has (update d c) k = true -> has d k = true \/ has c k = true.
Proof.
  unfold update. revert d. induction c as [|[k0 v0] c IH]; intros d H.
  - now left.
  - cbn [fold_left fst snd] in H. destruct (IH _ H) as [H1|H1].
    + apply has_set_inv in H1 as [->|H1]; [|now left].
      right. unfold has. cbn [get]. now rewrite str_eqb_refl.
    + right. unfold has in *. cbn [get]. now destruct (str_eqb k k0).
Qed.

(** X26: the context handed to the orchestrator always carries the
    request's own [Authorization] header and the [llm] flag of the query:
    a [context] sent in the request body cannot replace them, and every
    other key of the context comes from it. *)
Theorem orchestrator_context_is_pinned
        (auth_header : json) (llm : bool) (context : option dict) :
  get (orchestrator_context auth_header llm context) (u "auth_header")
  = Some auth_header /\
  get (orchestrator_context auth_header llm context) (u "force_deterministic")
  = Some (JBool (negb llm)) /\
  forall k, has (orchestrator_context auth_header llm context) k = true ->
            k = u "auth_header" \/ k = u "force_deterministic" \/
            exists c, context = Some c /\ has c k = true.
Proof.
  unfold orchestrator_context. cbv zeta.
  assert (B : forall k,
            has [(u "auth_header", auth_header);
                 (u "force_deterministic", JBool (negb llm))] k = true ->
            k = u "auth_header" \/ k = u "force_deterministic").
  { intros k. unfold has. cbn [get].
    destruct (str_eqb k (u "auth_header")) eqn:E1;
      [intros _; left; now apply str_eqb_spec|].
    destruct (str_eqb k (u "force_deterministic")) eqn:E2;
      [intros _; right; now apply str_eqb_spec | discriminate]. }
  destruct context as [[|kv c]|].
  - split; [reflexivity|]. split; [reflexivity|].
    intros k H. destruct (B k H) as [->| ->]; auto.
  - split; [|split].
    + rewrite get_set_other by (vm_compute; discriminate). apply get_set_same.
    + apply get_set_same.
    + intros k H.
      apply has_set_inv in H as [->|H]; [auto|].
      apply has_set_inv in H as [->|H]; [auto|].
      apply (update_has (kv :: c)
               [(u "auth_header", auth_header);
                (u "force_deterministic", JBool (negb llm))] k) in H as [H|H].
      * destruct (B k H) as [->| ->]; auto.
      * right. right. now exists (kv :: c).
  - split; [reflexivity|]. split; [reflexivity|].
    intros k H. destruct (B k H) as [->| ->]; auto.
Qed.

Lemma normalized_history_shape_witness :
  _normalize_history Py.upper Py.lower plain (u "USER") (u "ASSISTANT") backend_messages
  = Some [[(u "role", JStr (u "user")); (u "content", JStr (u "status REF123"));
           (u "id", JNum 7)];
          [(u "role", JStr (u "assistant"));
           (u "content", JStr (u "Booking REF123 is confirmed"));
           (u "intent", JStr (u "booking_status"))]] /\
  strip (u "status REF123") = u "status REF123".
Proof.
  assert (E : _normalize_history Py.upper Py.lower plain (u "USER") (u "ASSISTANT")
                backend_messages
              = Some [[(u "role", JStr (u "user"));
                       (u "content", JStr (u "status REF123")); (u "id", JNum 7)];
                      [(u "role", JStr (u "assistant"));
                       (u "content", JStr (u "Booking REF123 is confirmed"));
                       (u "intent", JStr (u "booking_status"))]])
    by (vm_compute; reflexivity).
  split; [exact E|].
  destruct (normalized_history_shape Py.upper Py.lower plain (u "USER") (u "ASSISTANT")
              backend_messages _
              [(u "role", JStr (u "user")); (u "content", JStr (u "status REF123"));
               (u "id", JNum 7)] E (or_introl eq_refl))
    as (_ & (c & Hc & Hs) & _).
  injection Hc as <-. exact Hs.
Defined.

Lemma other_fields_are_kept_witness :
  exists msg,
    In (JObj msg) backend_messages /\
    (NoDup (map fst msg) ->
     forall k, ~ In k RESERVED ->
               get [(u "role", JStr (u "user")); (u "content", JStr (u "status REF123"));
                    (u "id", JNum 7)] k = get msg k).
Proof.
  apply (other_fields_are_kept Py.upper Py.lower plain (u "USER") (u "ASSISTANT")
           backend_messages
           [[(u "role", JStr (u "user")); (u "content", JStr (u "status REF123"));
             (u "id", JNum 7)];
            [(u "role", JStr (u "assistant"));
             (u "content", JStr (u "Booking REF123 is confirmed"));
             (u "intent", JStr (u "booking_status"))]]).
  - vm_compute. reflexivity.
  - left. reflexivity.
Defined.

Lemma orchestrator_context_is_pinned_witness :
  has (orchestrator_context (JStr (u "Bearer real")) true (Some spoofed_context))
      (u "terminal") = true /\
  (u "terminal" = u "auth_header" \/ u "terminal" = u "force_deterministic" \/
   exists c, Some spoofed_context = Some c /\ has c (u "terminal") = true).
Proof.
  assert (H : has (orchestrator_context (JStr (u "Bearer real")) true
                     (Some spoofed_context)) (u "terminal") = true)
    by (vm_compute; reflexivity).
  split; [exact H|].
  exact (proj2 (proj2 (orchestrator_context_is_pinned (JStr (u "Bearer real")) true
                         (Some spoofed_context))) (u "terminal") H).
Defined.

Lemma normalize_is_idempotent_witness :
  _normalize_history Py.upper Py.lower plain (u "USER") (u "ASSISTANT")
    (map JObj [[(u "role", JStr (u "user")); (u "content", JStr (u "status REF123"));
                (u "id", JNum 7)];
               [(u "role", JStr (u "assistant"));
                (u "content", JStr (u "Booking REF123 is confirmed"));
                (u "intent", JStr (u "booking_status"))]])
  = Some [[(u "role", JStr (u "user")); (u "content", JStr (u "status REF123"));
           (u "id", JNum 7)];
          [(u "role", JStr (u "assistant"));
           (u "content", JStr (u "Booking REF123 is confirmed"));
           (u "intent", JStr (u "booking_status"))]].
Proof.
  apply (normalize_is_idempotent Py.upper Py.lower plain (u "USER") (u "ASSISTANT")
           backend_messages).
  - reflexivity.
  - reflexivity.
  - vm_compute. discriminate.
  - reflexivity.
  - intros msg [E|[E|[E|[]]]]; injection E as <-;
      repeat (constructor; [vm_compute; intuition discriminate|]); constructor.
  - vm_compute. reflexivity.
Defined.

(** The extraction drops what is no dict; a context of the request body
    that names the reserved keys is overridden. *)
Example stale_entry_is_dropped : raw_history (Some backend_payload) = backend_messages.
Proof. vm_compute. reflexivity. Qed.

Example spoofed_context_is_overridden :
  orchestrator_context (JStr (u "Bearer real")) true (Some spoofed_context)
  = [(u "auth_header", JStr (u "Bearer real"));
     (u "force_deterministic", JBool false);
     (u "terminal", JStr (u "A"))].
Proof. vm_compute. reflexivity. Qed.

End ChatExtras.

(* ====================================================================== *)
(** * The follow-up resolver on arbitrary histories *)
(* ====================================================================== *)

Module FollowUpClaims.

Import Text TextFacts Json PyValue FollowUp RequestNotions.
Local Open Scope string_scope.
Local Open Scope list_scope.

(** The scan of the reversed history. *)
Lemma first_eligible_app (a b : list json) :
  first_eligible (a ++ b)
  = match first_eligible a with
    | inl None => first_eligible b
    | r => r
    end.
Proof.
  induction a as [|x a IH]; [reflexivity|]. cbn [app first_eligible].
  destruct (eligible x) as [[i|]|e]; [reflexivity | exact IH | reflexivity].
Qed.

Lemma first_eligible_skips (msgs : list json) :
  first_eligible msgs = inl None <-> forall x, In x msgs -> eligible x = inl None.
Proof.
  induction msgs as [|x msgs IH]; cbn [first_eligible].
  - split; [intros _ x [] | reflexivity].
  - destruct (eligible x) as [[i|]|e] eqn:E.
    + split; [discriminate|]. intros H. rewrite (H x) in E; [discriminate E | now left].
    + rewrite IH. split.
      * intros H y [<-|Hy]; [exact E | now apply H].
      * intros H y Hy. apply H. now right.
    + split; [discriminate|]. intros H. rewrite (H x) in E; [discriminate E | now left].
Qed.

Lemma first_eligible_stops (msgs : list json) (r : option json + exn) :
  r <> inl None ->
  (first_eligible msgs = r <->
   exists pre x post,
     msgs = pre ++ x :: post /\ eligible x = r /\
     forall y, In y pre -> eligible y = inl None).
Proof.
  intros Hr. induction msgs as [|x msgs IH]; cbn [first_eligible].
  - split; [congruence|]. intros (pre & y & post & H & _). now destruct pre.
  - destruct (eligible x) as [[i|]|e] eqn:E.
    + split.
      * intros <-. exists [], x, msgs. repeat split; [exact E | intros y []].
      * intros (pre & y & post & H & Hy & Hpre). destruct pre as [|p pre].
        -- injection H as <- <-. congruence.
        -- injection H as <- _. rewrite (Hpre x) in E; [discriminate E | now left].
    + rewrite IH. split.
      * intros (pre & y & post & -> & Hy & Hpre). exists (x :: pre), y, post.
        repeat split; [exact Hy|]. intros z [<-|Hz]; [exact E | now apply Hpre].
      * intros (pre & y & post & H & Hy & Hpre). destruct pre as [|p pre].
        -- injection H as <- <-. congruence.
        -- injection H as <- ->. exists pre, y, post. repeat split; [exact Hy|].
           intros z Hz. apply Hpre. now right.
    + split.
      * intros <-. exists [], x, msgs. repeat split; [exact E | intros y []].
      * intros (pre & y & post & H & Hy & Hpre). destruct pre as [|p pre].
        -- injection H as <- <-. congruence.
        -- injection H as <- _. rewrite (Hpre x) in E; [discriminate E | now left].
Qed.

Lemma last_intent_is_scan (history : list json) :
  _get_last_intent history = first_eligible (rev history).
Proof. now destruct history. Qed.

(** The scan in the order of the history: the entry that stops it, with
    only entries passed over after it. *)
Lemma last_intent_stops (history : list json) (r : option json + exn) :
  r <> inl None ->
  (_get_last_intent history = r <->
   exists older x newer,
     history = older ++ x :: newer /\ eligible x = r /\
     forall y, In y newer -> eligible y = inl None).
Proof.
  intros Hr. rewrite last_intent_is_scan, (first_eligible_stops _ r Hr). split.
  - intros (pre & x & post & H & Hx & Hpre).
    exists (rev post), x, (rev pre). repeat split; [|exact Hx|].
    + rewrite <- (rev_involutive history), H, rev_app_distr. cbn [rev].
      now rewrite <- app_assoc.
    + intros y Hy. apply Hpre. now apply in_rev in Hy.
  - intros (older & x & newer & -> & Hx & Hnew).
    exists (rev newer), x, (rev older). repeat split; [|exact Hx|].
    + rewrite rev_app_distr. cbn [rev]. now rewrite <- app_assoc.
    + intros y Hy. apply Hnew. now apply in_rev.
Qed.

(** One entry. *)
Lemma eligible_returns (x i : json) :
  eligible x = inl (Some i) <->
  exists d, x = JObj d /\ recorded_intent d = inl i /\
            truthy i = true /\ in_strs i Detector.GENERIC_INTENTS = false.
Proof.
  split.
  - destruct x; try discriminate. cbn [eligible].
    destruct (recorded_intent d) as [j|e] eqn:R; [|discriminate].
    destruct (truthy j) eqn:T; [|discriminate].
    destruct (in_strs j Detector.GENERIC_INTENTS) eqn:G; [discriminate|].
    intros H. injection H as <-. exists d. now repeat split.
  - intros (d & -> & Hr & T & G). cbn [eligible]. now rewrite Hr, T, G.
Qed.

Lemma eligible_raises (x : json) (e : exn) :
  eligible x = inr e <-> exists d, x = JObj d /\ recorded_intent d = inr e.
Proof.
  split.
  - destruct x; try discriminate. cbn [eligible].
    destruct (recorded_intent d) as [j|e'] eqn:R.
    + now destruct (truthy j && negb (in_strs j Detector.GENERIC_INTENTS)).
    + intros H. injection H as <-. now exists d.
  - intros (d & -> & Hr). cbn [eligible]. now rewrite Hr.
Qed.

Lemma eligible_passes (x : json) :
  eligible x = inl None <->
  is_dict x = false \/
  exists d i, x = JObj d /\ recorded_intent d = inl i /\
              (truthy i = false \/ in_strs i Detector.GENERIC_INTENTS = true).
Proof.
  split.
  - destruct x; try (intros _; now left). cbn [eligible]. intros H. right.
    destruct (recorded_intent d) as [j|e] eqn:R; [|discriminate].
    destruct (truthy j) eqn:T.
    + destruct (in_strs j Detector.GENERIC_INTENTS) eqn:G; [|discriminate].
      exists d, j. repeat split; [exact R | now right].
    + exists d, j. repeat split; [exact R | now left].
  - intros [H|(d & i & -> & Hr & [T|G])].
    + now destruct x.
    + cbn [eligible]. now rewrite Hr, T.
    + cbn [eligible]. rewrite Hr, G. now destruct (truthy i).
Qed.

(** The lookup raises exactly on a falsy intent beside a metadata that is
    present and no dict. *)
Lemma recorded_intent_raises (d : dict) (e : exn) :
  recorded_intent d = inr e <->
  e = AttributeError /\ truthy (getv d (u "intent")) = false /\
  exists v, get d (u "metadata") = Some v /\ is_dict v = false.
Proof.
  unfold recorded_intent, get_default. cbv zeta.
  destruct (truthy (getv d (u "intent"))).
  - split; [discriminate | intros (_ & H & _); discriminate].
  - destruct (get d (u "metadata")) as [v|].
    + destruct v;
        try (split; [intros H; injection H as <-; repeat split; eexists; now split
                    | intros (-> & _); reflexivity]).
      split; [discriminate|]. intros (_ & _ & v & H & Hv). injection H as <-.
      discriminate.
    + split; [discriminate|]. intros (_ & _ & v & H & _). discriminate.
Qed.

Lemma generic_is_low (i : json) :
  in_strs i Detector.GENERIC_INTENTS = false ->
  in_strs i Detector.LOW_INFORMATION = false.
Proof.
  destruct i; try reflexivity. cbn [in_strs]. intros H.
  apply mem_false. apply mem_false in H. intros Hin. apply H.
  unfold Detector.LOW_INFORMATION, Detector.GENERIC_INTENTS in *.
  cbn [In] in *. tauto.
Qed.

Section Resolver.

Variable lower : str -> str.
Variable re_search : string -> str -> bool.
Variable py_str : json -> str.

Lemma strip_not_nil (message : str) :
  strip message <> [] -> falsy message || falsy (strip message) = false.
Proof.
  intros H. rewrite falsy_strip. destruct (strip message); [congruence | reflexivity].
Qed.

(** [detect_intent] when the message is blank or a rule matches: the
    history is not read. *)
Lemma detect_without_history (message : str) (history : list json) :
  strip message = [] \/
  Detector.scan_groups re_search Detector.INTENT_PATTERNS (strip (lower message)) []
  <> [] ->
  detect_intent lower re_search py_str message history
  = detect_intent lower re_search py_str message [] /\
  exists r, detect_intent lower re_search py_str message [] = inl r.
Proof.
  intros H. unfold detect_intent, detect_intent_with.
  destruct (falsy message || falsy (strip message)) eqn:B;
    [split; [reflexivity | eexists; reflexivity]|].
  cbv zeta.
  destruct (Detector.sort_desc
              (Detector.scan_groups re_search Detector.INTENT_PATTERNS
                 (strip (lower message)) [])) as [|[[i c] rs] rest] eqn:S.
  - exfalso. destruct H as [H|H].
    + rewrite falsy_strip, H in B. discriminate.
    + apply H. now apply DetectorFacts.sort_desc_nil.
  - split; [reflexivity | eexists; reflexivity].
Qed.

(** [detect_intent] when the message is not blank and no rule matches. *)
Lemma detect_with_history (message : str) (history : list json) :
  strip message <> [] ->
  Detector.scan_groups re_search Detector.INTENT_PATTERNS (strip (lower message)) []
  = [] ->
  detect_intent lower re_search py_str message history
  = match (if (List.length (split (strip (lower message))) <=? 4)%nat
              || re_search Detector.FOLLOW_UP_PATTERN (strip (lower message))
           then _get_last_intent history else inl None) with
    | inl (Some i) => follow_up_result py_str i
    | inl None => inl unknown_result
    | inr e => inr e
    end.
Proof.
  intros Hne Hs. unfold detect_intent, detect_intent_with.
  rewrite (strip_not_nil message Hne). cbv zeta. rewrite Hs. cbn [Detector.sort_desc].
  destruct history as [|x history].
  - cbn [_get_last_intent]. now destruct (_ || _).
  - destruct ((List.length (split (strip (lower message))) <=? 4)%nat
              || re_search Detector.FOLLOW_UP_PATTERN (strip (lower message)));
      [|reflexivity].
    destruct (_get_last_intent (x :: history)) as [[i|]|e] eqn:L; try reflexivity.
    apply (last_intent_stops (x :: history) (inl (Some i))) in L; [|discriminate].
    destruct L as (older & y & newer & _ & Hy & _).
    apply eligible_returns in Hy as (d & _ & _ & T & G).
    rewrite T, (generic_is_low i G). cbn [negb andb].
    unfold follow_up_result. now destruct (_get_entity_hints i).
Qed.

(** C5, as the code has it.  The history is consulted only when the
    message is not blank and no rule matches, and then only when the
    message has at most 4 tokens or carries a follow-up marker.  The scan
    goes from the most recent entry back; it passes over what is no dict
    and over a turn whose recorded intent (its [intent] field or, when that
    is falsy, the [intent] of its metadata) is falsy or one of [unknown],
    [help], [smalltalk], [forbidden], [not_implemented], and returns the
    first other recorded intent, which is then the result with confidence
    0.70.  When every entry is passed over the result is [unknown] with
    confidence 0.5.  The scan raises [AttributeError] at a turn with a falsy
    intent field and a metadata that is present and no dict, and an intent
    found that is a list or a dict raises [TypeError] in the hint lookup. *)
Theorem follow_up_resolution (message : str) (history : list json) :
  let text := strip (lower message) in
  let hits := Detector.scan_groups re_search Detector.INTENT_PATTERNS text [] in
  let marked := (List.length (split text) <=? 4)%nat
                || re_search Detector.FOLLOW_UP_PATTERN text in
  (strip message = [] \/ hits <> [] ->
   detect_intent lower re_search py_str message history
   = detect_intent lower re_search py_str message [] /\
   exists r, detect_intent lower re_search py_str message [] = inl r) /\
  (strip message <> [] -> hits = [] ->
   detect_intent lower re_search py_str message history
   = match (if marked then _get_last_intent history else inl None) with
     | inl (Some i) => follow_up_result py_str i
     | inl None => inl unknown_result
     | inr e => inr e
     end) /\
  (forall i, _get_last_intent history = inl (Some i) <->
     exists older d newer,
       history = older ++ JObj d :: newer /\
       recorded_intent d = inl i /\
       truthy i = true /\ in_strs i Detector.GENERIC_INTENTS = false /\
       forall e, In e newer -> eligible e = inl None) /\
  (_get_last_intent history = inl None <->
   forall e, In e history -> eligible e = inl None) /\
  (forall x, _get_last_intent history = inr x <->
     exists older d newer,
       history = older ++ JObj d :: newer /\
       recorded_intent d = inr x /\
       forall e, In e newer -> eligible e = inl None) /\
  (forall e, eligible e = inl None <->
     is_dict e = false \/
     exists d i, e = JObj d /\ recorded_intent d = inl i /\
                 (truthy i = false \/ in_strs i Detector.GENERIC_INTENTS = true)) /\
  (forall d x, recorded_intent d = inr x <->
     x = AttributeError /\ truthy (getv d (u "intent")) = false /\
     exists v, get d (u "metadata") = Some v /\ is_dict v = false) /\
  (forall i, (exists x, follow_up_result py_str i = inr x) <->
             (exists l, i = JArr l) \/ (exists d, i = JObj d)).
Proof.
  intros text hits marked.
  split; [apply detect_without_history|].
  split; [apply detect_with_history|].
  split; [|split; [|split; [|split; [|split]]]].
  - intros i. rewrite (last_intent_stops history (inl (Some i))) by discriminate.
    split.
    + intros (older & x & newer & H & Hx & Hnew).
      apply eligible_returns in Hx as (d & -> & Hr & T & G).
      now exists older, d, newer.
    + intros (older & d & newer & H & Hr & T & G & Hnew).
      exists older, (JObj d), newer. repeat split; [exact H | | exact Hnew].
      apply eligible_returns. now exists d.
  - rewrite last_intent_is_scan, first_eligible_skips. split.
    + intros H e He. apply H. now apply -> in_rev.
    + intros H e He. apply H. now apply in_rev.
  - intros x. rewrite (last_intent_stops history (inr x)) by discriminate. split.
    + intros (older & y & newer & H & Hy & Hnew).
      apply eligible_raises in Hy as (d & -> & Hr). now exists older, d, newer.
    + intros (older & d & newer & H & Hr & Hnew).
      exists older, (JObj d), newer. repeat split; [exact H | | exact Hnew].
      apply eligible_raises. now exists d.
  - apply eligible_passes.
  - apply recorded_intent_raises.
  - intros i. unfold follow_up_result. destruct i; cbn [_get_entity_hints]; split;
      try (intros [x H]; discriminate H);
      try (intros [[l H]|[d H]]; discriminate H).
    + intros _. left. now eexists.
    + intros _. now eexists.
    + intros _. right. now eexists.
    + intros _. now eexists.
Qed.

(** X4: entries appended to a history that the scan passes over (what is
    no dict, and turns whose recorded intent is falsy or one of [unknown],
    [help], [smalltalk], [forbidden], [not_implemented], their lookup
    raising nothing) are invisible: they change no classification, nor
    whether the call raises. *)
Theorem generic_tail_is_invisible (message : str) (history tail : list json) :
  (forall e, In e tail -> eligible e = inl None) ->
  detect_intent lower re_search py_str message (history ++ tail)
  = detect_intent lower re_search py_str message history.
Proof.
  intros Htail.
  assert (L : _get_last_intent (history ++ tail) = _get_last_intent history).
  { rewrite !last_intent_is_scan, rev_app_distr, first_eligible_app.
    replace (first_eligible (rev tail)) with (@inl (option json) exn None);
      [reflexivity|].
    symmetry. apply first_eligible_skips. intros x Hx. apply Htail.
    now apply in_rev. }
  destruct (list_eq_dec N.eq_dec (strip message) []) as [Hb|Hne].
  - rewrite (proj1 (detect_without_history message (history ++ tail) (or_introl Hb))).
    now rewrite (proj1 (detect_without_history message history (or_introl Hb))).
  - destruct (Detector.scan_groups re_search Detector.INTENT_PATTERNS
                (strip (lower message)) []) as [|w ws] eqn:S.
    + now rewrite !(detect_with_history message _ Hne S), L.
    + assert (Hh : Detector.scan_groups re_search Detector.INTENT_PATTERNS
                     (strip (lower message)) [] <> []) by (rewrite S; discriminate).
      rewrite (proj1 (detect_without_history message (history ++ tail) (or_intror Hh))).
      now rewrite (proj1 (detect_without_history message history (or_intror Hh))).
Qed.

(** On a history typed as the specification's Turn (the intent a string or
    absent, the metadata a map of strings or absent) nothing raises, and
    the result is that of the classifier over typed histories. *)
Lemma get_map_str (m : list (str * str)) (k : str) :
  get (map (fun kv => (fst kv, JStr (snd kv))) m) k
  = option_map JStr (Detector.dict_get m k).
Proof.
  induction m as [|[k0 v0] m IH]; [reflexivity|]. cbn [map get Detector.dict_get fst snd].
  now destruct (str_eqb k k0).
Qed.

Lemma of_turn_intent (t : Detector.Turn) :
  get (of_turn t) (u "intent") = option_map JStr (Detector.turn_intent t).
Proof.
  unfold of_turn. destruct (Detector.turn_intent t), (Detector.metadata t); reflexivity.
Qed.

Lemma of_turn_metadata (t : Detector.Turn) :
  get (of_turn t) (u "metadata")
  = option_map (fun m => JObj (map (fun kv => (fst kv, JStr (snd kv))) m))
               (Detector.metadata t).
Proof.
  unfold of_turn. destruct (Detector.turn_intent t), (Detector.metadata t); reflexivity.
Qed.

Lemma typed_recorded_intent (t : Detector.Turn) :
  recorded_intent (of_turn t)
  = inl (match Detector.recorded_intent t with
         | Some i => JStr i
         | None => JNull
         end).
Proof.
  unfold recorded_intent, getv, get_default, Detector.recorded_intent, Detector.py_or.
  cbv zeta. rewrite of_turn_intent, of_turn_metadata.
  destruct (Detector.turn_intent t) as [[|c i]|];
    destruct (Detector.metadata t) as [m|];
    cbn [option_map truthy falsy negb Detector.truthy];
    try rewrite get_map_str; try reflexivity;
    now destruct (Detector.dict_get m (u "intent")).
Qed.

Lemma typed_eligible (e : Detector.entry) :
  eligible (of_entry e) = inl (option_map JStr (Detector.eligible e)).
Proof.
  destruct e as [t|]; [|reflexivity]. cbn [of_entry eligible Detector.eligible].
  rewrite typed_recorded_intent.
  destruct (Detector.recorded_intent t) as [[|c i]|]; try reflexivity.
  cbn [truthy in_strs Detector.truthy falsy negb andb].
  now destruct (mem (c :: i) Detector.GENERIC_INTENTS).
Qed.

Lemma typed_first_eligible (h : list Detector.entry) :
  first_eligible (map of_entry h)
  = inl (option_map JStr (Detector.first_eligible h)).
Proof.
  induction h as [|e h IH]; [reflexivity|].
  cbn [map first_eligible Detector.first_eligible]. rewrite typed_eligible.
  now destruct (Detector.eligible e).
Qed.

Lemma typed_history_agrees (message : str) (h : Detector.history) :
  (forall s, py_str (JStr s) = s) ->
  detect_intent lower re_search py_str message (map of_entry h)
  = inl (of_result (Detector.detect_intent lower re_search message h)).
Proof.
  intros Hstr. unfold detect_intent, detect_intent_with, Detector.detect_intent,
    Detector.detect_intent_with.
  destruct (falsy message || falsy (strip message)); [reflexivity|]. cbv zeta.
  destruct (Detector.sort_desc _) as [|[[i c] rs] rest]; [|reflexivity].
  destruct h as [|e h]; [reflexivity|].
  change (map of_entry (e :: h)) with (of_entry e :: map of_entry h).
  destruct (_ || _); [|reflexivity].
  change (of_entry e :: map of_entry h) with (map of_entry (e :: h)).
  rewrite last_intent_is_scan, <- map_rev, typed_first_eligible.
  rewrite DetectorClaims._get_last_intent_rev.
  destruct (Detector.first_eligible (rev (e :: h))) as [i|]; [|reflexivity].
  cbn [option_map truthy in_strs Detector.truthy].
  destruct i as [|c i]; [reflexivity|]. cbn [falsy negb andb].
  destruct (mem (c :: i) Detector.LOW_INFORMATION); [reflexivity|].
  cbn [negb _get_entity_hints]. now rewrite Hstr.
Qed.

End Resolver.

Lemma follow_up_resolution_witness :
  strip Runs.and_terminal <> [] /\
  Detector.scan_groups Py.re_search Detector.INTENT_PATTERNS
    (strip (Py.lower Runs.and_terminal)) [] = [] /\
  detect_intent Py.lower Py.re_search AdapterNotions.plain Runs.and_terminal status_turns
  = follow_up_result AdapterNotions.plain (JStr (u "booking_status")) /\
  detect_intent Py.lower Py.re_search AdapterNotions.plain Runs.and_terminal
    (status_turns ++ [unsaved_turn])
  = inr AttributeError.
Proof.
  assert (Hne : strip Runs.and_terminal <> []) by (vm_compute; discriminate).
  assert (Hhits : Detector.scan_groups Py.re_search Detector.INTENT_PATTERNS
                    (strip (Py.lower Runs.and_terminal)) [] = [])
    by (vm_compute; reflexivity).
  split; [exact Hne|]. split; [exact Hhits|]. split.
  - rewrite (proj1 (proj2 (follow_up_resolution Py.lower Py.re_search AdapterNotions.plain
                             Runs.and_terminal status_turns)) Hne Hhits).
    vm_compute. reflexivity.
  - rewrite (proj1 (proj2 (follow_up_resolution Py.lower Py.re_search AdapterNotions.plain
                             Runs.and_terminal (status_turns ++ [unsaved_turn])))
               Hne Hhits).
    vm_compute. reflexivity.
Defined.

(** C5 as stated fails: the most recent intent outside
    {unknown, help, smalltalk} is [forbidden], and the classifier reuses
    [booking_status]. *)
Lemma follow_up_skips_forbidden :
  spec_follow_up refused_turns = Some (u "forbidden") /\
  detect_intent Py.lower Py.re_search AdapterNotions.plain Runs.and_terminal refused_turns
  = follow_up_result AdapterNotions.plain (JStr (u "booking_status")).
Proof. split; vm_compute; reflexivity. Qed.

Lemma generic_tail_is_invisible_witness :
  (forall e, In e [turn "assistant" "This feature is not available for your role"
                        (Some "forbidden")] ->
             eligible e = inl None) /\
  detect_intent Py.lower Py.re_search AdapterNotions.plain Runs.and_terminal
    (status_turns ++ [turn "assistant" "This feature is not available for your role"
                           (Some "forbidden")])
  = follow_up_result AdapterNotions.plain (JStr (u "booking_status")).
Proof.
  assert (H : forall e, In e [turn "assistant"
                                   "This feature is not available for your role"
                                   (Some "forbidden")] ->
                        eligible e = inl None).
  { intros e [<-|[]]. vm_compute. reflexivity. }
  split; [exact H|].
  rewrite (generic_tail_is_invisible Py.lower Py.re_search AdapterNotions.plain
             Runs.and_terminal status_turns _ H).
  vm_compute. reflexivity.
Defined.

End FollowUpClaims.

(* ====================================================================== *)
(** * The Gemini adapter with its prompt and its log lines *)
(* ====================================================================== *)

Module ClassifierClaims.

Import Text TextFacts Json JsonFacts PyValue Gemini Prompts IntentClassifier
       AdapterNotions RequestNotions.
Local Open Scope string_scope.
Local Open Scope Q_scope.

Section Requests.

Variable lower : str -> str.
Variable json_loads : str -> loaded.
Variable py_str : json -> str.
Variable service : nat -> outcome.
Variable settings : Settings.
Variable INTENT_SYSTEM_PROMPT : str.

(** The prompt cannot be built exactly when one of the last three entries
    of the history is no dict. *)
Lemma prompt_fails (message : str) (history : list json) :
  build_intent_prompt py_str INTENT_SYSTEM_PROMPT message history = None <->
  exists msg, In msg (last_three history) /\ is_dict msg = false.
Proof.
  unfold build_intent_prompt, format_history_for_prompt.
  destruct history as [|h0 history].
  - split; [discriminate | intros (m & [] & _)].
  - rewrite <- (PromptsExtras.format_turns_none py_str).
    destruct (format_turns py_str (last_three (h0 :: history)));
      split; (discriminate || reflexivity).
Qed.

Lemma prompt_builds (message : str) (history : list json) :
  (forall msg, In msg (last_three history) -> is_dict msg = true) ->
  exists prompt,
    build_intent_prompt py_str INTENT_SYSTEM_PROMPT message history = Some prompt.
Proof.
  intros H.
  destruct (build_intent_prompt py_str INTENT_SYSTEM_PROMPT message history)
    as [p|] eqn:E; [now exists p|].
  apply (proj1 (prompt_fails message history)) in E. destruct E as (m & Hm & Hd).
  rewrite (H m Hm) in Hd. discriminate.
Qed.

(** Without a prompt there is no call, and the default is returned. *)
Lemma no_prompt_no_call (message : str) (history : list json) (n : nat) :
  build_intent_prompt py_str INTENT_SYSTEM_PROMPT message history = None ->
  classify_intent lower json_loads py_str service settings INTENT_SYSTEM_PROMPT
    message history n
  = (inl (result_of (u "unknown") (JNum 0.0)), n).
Proof.
  intros H. unfold classify_intent, try_except, raise, ret. now rewrite H.
Qed.

(** With a prompt, the request goes on as the adapter does after it. *)
Lemma with_prompt (message : str) (history : list json) (n : nat) (prompt : str) :
  build_intent_prompt py_str INTENT_SYSTEM_PROMPT message history = Some prompt ->
  classify_intent lower json_loads py_str service settings INTENT_SYSTEM_PROMPT
    message history n
  = match llm_complete service n with
    | (inl response, n') =>
        let result := _parse_intent_response lower json_loads response in
        let confidence := get_default result (u "confidence") (JNum 0.0) in
        (inl match lt_float confidence (intent_confidence_threshold settings) with
             | Some low =>
                 if formats_2f confidence
                 then if low then result_of (u "unknown") confidence else result
                 else result_of (u "unknown") (JNum 0.0)
             | None => result_of (u "unknown") (JNum 0.0)
             end, n')
    | (inr _, n') => (inl (result_of (u "unknown") (JNum 0.0)), n')
    end.
Proof.
  intros H. unfold classify_intent, try_except, bind, raise, ret. rewrite H.
  destruct (llm_complete service n) as [[response|e] n']; [|reflexivity].
  cbv zeta.
  destruct (lt_float _ _) as [low|]; [|reflexivity].
  destruct (formats_2f _); [|reflexivity]. now destruct low.
Qed.

Lemma llm_complete_counts (n : nat) :
  snd (llm_complete service n)
  = match service n with
    | Failed _ => S (S n)
    | _ => S n
    end.
Proof.
  rewrite AdapterClaims.llm_complete_cases. destruct (service n); try reflexivity.
  destruct (service (S n)); reflexivity.
Qed.

(** C4, as the code has it: a classification request issues at most two
    completion calls.  It issues none when the prompt cannot be built,
    which is when one of the last three entries of the history is no dict;
    otherwise it issues those of [llm_complete]: one when the first call
    answers or times out, and two when it fails otherwise, for a failed
    call is retried once and never more.  Whenever no call answers, the
    result is the default [unknown] with confidence 0.0. *)
Theorem completion_calls_at_most_two
        (message : str) (history : list json) (n : nat) :
  (n <= snd (classify_intent lower json_loads py_str service settings
               INTENT_SYSTEM_PROMPT message history n) <= n + 2)%nat /\
  (snd (classify_intent lower json_loads py_str service settings
          INTENT_SYSTEM_PROMPT message history n) = n <->
   exists msg, In msg (last_three history) /\ is_dict msg = false) /\
  ((forall msg, In msg (last_three history) -> is_dict msg = true) ->
   snd (classify_intent lower json_loads py_str service settings
          INTENT_SYSTEM_PROMPT message history n)
   = match service n with
     | Failed _ => S (S n)
     | _ => S n
     end) /\
  ((exists msg, In msg (last_three history) /\ is_dict msg = false) \/
   (exists x, fst (llm_complete service n) = inr x) ->
   fst (classify_intent lower json_loads py_str service settings
          INTENT_SYSTEM_PROMPT message history n)
   = inl (result_of (u "unknown") (JNum 0.0))).
Proof.
  assert (C : forall prompt,
            build_intent_prompt py_str INTENT_SYSTEM_PROMPT message history
            = Some prompt ->
            snd (classify_intent lower json_loads py_str service settings
                   INTENT_SYSTEM_PROMPT message history n)
            = match service n with Failed _ => S (S n) | _ => S n end).
  { intros prompt Hp. rewrite (with_prompt message history n prompt Hp).
    rewrite <- llm_complete_counts.
    now destruct (llm_complete service n) as [[response|e] n']. }
  destruct (build_intent_prompt py_str INTENT_SYSTEM_PROMPT message history)
    as [prompt|] eqn:B.
  - assert (Hd : ~ exists msg, In msg (last_three history) /\ is_dict msg = false).
    { intros H. apply (proj2 (prompt_fails message history)) in H. congruence. }
    rewrite (C prompt eq_refl). split; [destruct (service n); lia|].
    split; [|split].
    + split; [destruct (service n); lia | intros H; now contradiction Hd].
    + reflexivity.
    + intros [H|[x Hx]]; [now contradiction Hd|].
      rewrite (with_prompt message history n prompt B).
      destruct (llm_complete service n) as [[response|e] n']; [discriminate Hx|].
      reflexivity.
  - rewrite (no_prompt_no_call message history n B). cbn [fst snd].
    apply (proj1 (prompt_fails message history)) in B. split; [lia|]. split; [|split].
    + split; [intros _; exact B | reflexivity].
    + intros H. destruct B as (m & Hm & Hd). rewrite (H m Hm) in Hd. discriminate.
    + reflexivity.
Qed.

(** Once the prompt is built and the confidence formats, the request is
    what the adapter does after the prompt. *)
Lemma classify_intent_refines (message : str) (history : list json) (n : nat) :
  (forall msg, In msg (last_three history) -> is_dict msg = true) ->
  (forall response,
     fst (llm_complete service n) = inl response ->
     formats_2f (get_default (_parse_intent_response lower json_loads response)
                             (u "confidence") (JNum 0.0)) = true) ->
  classify_intent lower json_loads py_str service settings INTENT_SYSTEM_PROMPT
    message history n
  = Gemini.classify_intent lower json_loads service settings message n.
Proof.
  intros Hd Hf. destruct (prompt_builds message history Hd) as [prompt Hp].
  rewrite (with_prompt message history n prompt Hp).
  unfold Gemini.classify_intent, try_except, bind, raise, ret.
  destruct (llm_complete service n) as [[response|e] n']; [|reflexivity].
  cbv zeta. specialize (Hf response eq_refl). unfold get_default in *.
  destruct (get (_parse_intent_response lower json_loads response) (u "confidence"))
    as [c|]; rewrite Hf; now destruct (lt_float _ _) as [[|]|].
Qed.

(** [_parse_intent_response] on a decoded object with an intent outside
    the closed set. *)
Lemma parse_foreign (text : str) (d : dict) (i : str) (c : json) :
  json_loads (unfenced text) = Loaded (JObj d) ->
  get d (u "intent") = Some (JStr i) ->
  ~ In i VALID_INTENTS ->
  has d (u "entities") = true ->
  get d (u "confidence") = Some c ->
  _parse_intent_response lower json_loads text
  = set d (u "intent") (JStr (u "unknown")).
Proof.
  intros Hj Hi Hv He Hc.
  assert (Hhas : has d (u "intent") = true) by (unfold has; now rewrite Hi).
  assert (Hhc : has d (u "confidence") = true) by (unfold has; now rewrite Hc).
  unfold _parse_intent_response. rewrite Hj, Hhas. cbn [negb]. cbv iota.
  rewrite He, Hhc, Hi. now rewrite (proj2 (mem_false i VALID_INTENTS) Hv).
Qed.

(** X11: a decoded object whose intent is a string outside the closed set
    is returned with its intent replaced by [unknown] and everything else
    as the model reported it, its confidence included, provided the prompt
    was built, the confidence is not below the threshold, and the log line
    can format it.  When the log line cannot (the confidence is an integer
    with no float), the result is the default [unknown] with confidence
    0.0. *)
Theorem foreign_intent_becomes_unknown
        (message : str) (history : list json) (n : nat)
        (text : str) (d : dict) (i : str) (c : json) :
  (forall msg, In msg (last_three history) -> is_dict msg = true) ->
  service n = Replied text ->
  json_loads (unfenced text) = Loaded (JObj d) ->
  get d (u "intent") = Some (JStr i) ->
  ~ In i VALID_INTENTS ->
  has d (u "entities") = true ->
  get d (u "confidence") = Some c ->
  lt_float c (intent_confidence_threshold settings) = Some false ->
  classify_intent lower json_loads py_str service settings INTENT_SYSTEM_PROMPT
    message history n
  = (inl (if formats_2f c then set d (u "intent") (JStr (u "unknown"))
          else result_of (u "unknown") (JNum 0.0)), S n) /\
  get (set d (u "intent") (JStr (u "unknown"))) (u "confidence") = Some c /\
  forall k, k <> u "intent" ->
            get (set d (u "intent") (JStr (u "unknown"))) k = get d k.
Proof.
  intros Hd Hs Hj Hi Hv He Hc Ht.
  assert (Hk : forall k, k <> u "intent" ->
                         get (set d (u "intent") (JStr (u "unknown"))) k = get d k)
    by (intros k Hne; now apply get_set_other).
  assert (Hc' : get (set d (u "intent") (JStr (u "unknown"))) (u "confidence") = Some c).
  { rewrite Hk; [exact Hc|]. vm_compute. discriminate. }
  split; [|split; assumption].
  destruct (prompt_builds message history Hd) as [prompt Hp].
  rewrite (with_prompt message history n prompt Hp).
  rewrite AdapterClaims.llm_complete_cases, Hs. cbv zeta.
  rewrite (parse_foreign text d i c Hj Hi Hv He Hc).
  unfold get_default. rewrite Hc', Ht. reflexivity.
Qed.

End Requests.

(** C4 as stated fails: one classification request, two completion
    calls. *)
Lemma failed_call_is_retried :
  snd (classify_intent Py.lower PyJson.json_loads plain Runs.flaky default_settings
         system_prompt (u "help me") [] 0%nat) = 2%nat.
Proof. vm_compute. reflexivity. Qed.

Lemma completion_calls_at_most_two_witness :
  In (JStr (u "assistant: Booking REF123 is confirmed")) (last_three broken_history) /\
  classify_intent Py.lower PyJson.json_loads plain Runs.flaky default_settings
    system_prompt (u "help me") broken_history 0%nat
  = (inl (result_of (u "unknown") (JNum 0.0)), 0%nat) /\
  snd (classify_intent Py.lower PyJson.json_loads plain Runs.stalled default_settings
         system_prompt (u "help me") three_turns 0%nat) = 1%nat.
Proof.
  assert (Hin : In (JStr (u "assistant: Booking REF123 is confirmed"))
                   (last_three broken_history)) by (right; left; reflexivity).
  pose proof (completion_calls_at_most_two Py.lower PyJson.json_loads plain
                Runs.flaky default_settings system_prompt (u "help me")
                broken_history 0%nat) as (_ & Hz & _ & Hr).
  assert (Hex : exists msg, In msg (last_three broken_history) /\ is_dict msg = false)
    by (eexists; split; [exact Hin | reflexivity]).
  split; [exact Hin|]. split.
  - apply injective_projections.
    + exact (Hr (or_introl Hex)).
    + exact (proj2 Hz Hex).
  - rewrite (proj1 (proj2 (proj2 (completion_calls_at_most_two Py.lower
               PyJson.json_loads plain Runs.stalled default_settings system_prompt
               (u "help me") three_turns 0%nat)))); [reflexivity|].
    intros msg [<-|[<-|[<-|[]]]]; reflexivity.
Defined.

Lemma foreign_intent_becomes_unknown_witness :
  ~ In (u "carrier_scoring") VALID_INTENTS /\
  lt_float (JNum 0.99) 0.45 = Some false /\
  lt_float huge_confidence 0.45 = Some false /\
  fst (classify_intent Py.lower PyJson.json_loads plain (replying huge_text)
         default_settings system_prompt (u "score of carrier 456") three_turns 0%nat)
  = inl (result_of (u "unknown") (JNum 0.0)) /\
  fst (classify_intent Py.lower PyJson.json_loads plain (replying foreign_intent)
         default_settings system_prompt (u "score of carrier 456") three_turns 0%nat)
  = inl [(u "intent", JStr (u "unknown"));
         (u "entities", JObj [(u "carrier", JStr (u "456"))]);
         (u "confidence", JNum 0.99)].
Proof.
  assert (Hv : ~ In (u "carrier_scoring") VALID_INTENTS)
    by (apply mem_false; vm_compute; reflexivity).
  assert (Ht : lt_float (JNum 0.99) 0.45 = Some false) by (vm_compute; reflexivity).
  assert (Hh : lt_float huge_confidence 0.45 = Some false) by (vm_compute; reflexivity).
  assert (Hd : forall msg, In msg (last_three three_turns) -> is_dict msg = true)
    by (intros msg [<-|[<-|[<-|[]]]]; reflexivity).
  split; [exact Hv|]. split; [exact Ht|]. split; [exact Hh|]. split.
  { rewrite (proj1 (foreign_intent_becomes_unknown Py.lower PyJson.json_loads plain
                      (replying huge_text) default_settings system_prompt
                      (u "score of carrier 456") three_turns 0%nat huge_text
                      huge_reply (u "carrier_scoring") huge_confidence
                      Hd eq_refl ltac:(vm_compute; reflexivity) eq_refl Hv eq_refl
                      eq_refl Hh)).
    vm_compute. reflexivity. }
  rewrite (proj1 (foreign_intent_becomes_unknown Py.lower PyJson.json_loads plain
                    (replying foreign_intent) default_settings system_prompt
                    (u "score of carrier 456") three_turns 0%nat foreign_intent
                    [(u "intent", JStr (u "carrier_scoring"));
                     (u "entities", JObj [(u "carrier", JStr (u "456"))]);
                     (u "confidence", JNum 0.99)]
                    (u "carrier_scoring") (JNum 0.99)
                    Hd eq_refl ltac:(vm_compute; reflexivity) eq_refl Hv eq_refl
                    eq_refl Ht)).
  vm_compute. reflexivity.
Defined.

(** A confidence that is an integer with no float: the comparison accepts
    it, the log line does not. *)
Example huge_confidence_is_lost :
  lt_float huge_confidence 0.45 = Some false /\
  formats_2f huge_confidence = false /\
  formats_2f (JNum (inject_Z (2 ^ 1024 - 2 ^ 970 - 1))) = true.
Proof. repeat split; vm_compute; reflexivity. Qed.

End ClassifierClaims.

(* ====================================================================== *)
(** * The access policy: what the specification states *)
(* ====================================================================== *)

Module PolicyClaims.

Import Text TextFacts Policy RequestNotions.

Section Table.

Variable upper : str -> str.
Variable permitted : str -> list str.

(** What the policy authorizes: the bypass intents, and for a role of the
    RoleSet the intents of its row. *)
Lemma authorize_cases (intent role : str) :
  authorize upper permitted intent role = true <->
  In intent BYPASS_INTENTS \/
  (In (upper role) ROLE_SET /\ In intent (permitted (upper role))).
Proof.
  unfold authorize. destruct (mem intent BYPASS_INTENTS) eqn:B.
  - apply mem_In in B. split; [now left | reflexivity].
  - apply mem_false in B. cbv zeta. destruct (mem (upper role) ROLE_SET) eqn:R.
    + apply mem_In in R. rewrite mem_In. split; [now right | now intros [?|[_ ?]]].
    + apply mem_false in R. split; [discriminate | now intros [?|[? _]]].
Qed.

(** The policy is a lookup: it reads the table at the rows of the RoleSet
    and nowhere else. *)
Lemma authorize_is_a_lookup (permitted' : str -> list str) (intent role : str) :
  (forall r, In r ROLE_SET -> permitted r = permitted' r) ->
  authorize upper permitted intent role = authorize upper permitted' intent role.
Proof.
  intros H. unfold authorize. destruct (mem intent BYPASS_INTENTS); [reflexivity|].
  cbv zeta. destruct (mem (upper role) ROLE_SET) eqn:R; [|reflexivity].
  apply mem_In in R. now rewrite (H _ R).
Qed.

(** C7: the intents help and unknown are authorized for every role,
    whatever the table and also for a role string outside the RoleSet
    {ADMIN, OPERATOR, CARRIER}: for these bypass intents the AUTHORIZE
    state hands the request on to DISPATCH instead of producing the
    forbidden response, while for a role outside the RoleSet every other
    intent is denied and ends in the forbidden response; so such a role is
    authorized for exactly the two bypass intents. *)
Theorem bypass_intents_are_authorized (intent role : str) :
  authorize upper permitted (u "help") role = true /\
  authorize upper permitted (u "unknown") role = true /\
  (In intent BYPASS_INTENTS ->
   authorize upper permitted intent role = true /\
   authorize_state upper permitted intent role = Dispatch intent) /\
  (~ In (upper role) ROLE_SET ->
   (~ In intent BYPASS_INTENTS ->
    authorize upper permitted intent role = false /\
    authorize_state upper permitted intent role = Forbidden) /\
   (authorize upper permitted intent role = true <->
    intent = u "help" \/ intent = u "unknown")).
Proof.
  split; [reflexivity|]. split; [reflexivity|]. split.
  - intros H. unfold authorize_state.
    rewrite (proj2 (authorize_cases intent role) (or_introl H)). now split.
  - intros R.
    assert (F : ~ In intent BYPASS_INTENTS ->
                authorize upper permitted intent role = false).
    { intros B. destruct (authorize upper permitted intent role) eqn:A; [|reflexivity].
      apply authorize_cases in A as [A|[A _]]; contradiction. }
    split.
    + intros B. unfold authorize_state. rewrite (F B). now split.
    + rewrite authorize_cases. split.
      * intros [[<-|[<-|[]]]|[A _]]; [now left | now right | contradiction].
      * intros [->| ->]; left; [now left | right; now left].
Qed.

End Table.

Lemma bypass_intents_are_authorized_witness :
  ~ In (Py.upper (u "anon")) ROLE_SET /\
  ~ In (u "booking_status") BYPASS_INTENTS /\
  authorize_state Py.upper tested_table (u "unknown") (u "anon")
  = Dispatch (u "unknown") /\
  authorize_state Py.upper tested_table (u "booking_status") (u "anon") = Forbidden.
Proof.
  assert (R : ~ In (Py.upper (u "anon")) ROLE_SET)
    by (apply mem_false; vm_compute; reflexivity).
  assert (B : ~ In (u "booking_status") BYPASS_INTENTS)
    by (apply mem_false; vm_compute; reflexivity).
  assert (U : In (u "unknown") BYPASS_INTENTS) by (right; left; reflexivity).
  split; [exact R|]. split; [exact B|]. split.
  - exact (proj2 (proj1 (proj2 (proj2 (bypass_intents_are_authorized
             Py.upper tested_table (u "unknown") (u "anon")))) U)).
  - exact (proj2 (proj1 (proj2 (proj2 (proj2 (bypass_intents_are_authorized
             Py.upper tested_table (u "booking_status") (u "anon")))) R) B)).
Defined.

(** The policy under the table of [tests/test_orchestrator_rbac.py] gives
    what that file asserts of [_rbac_check]: the six intents for ADMIN and
    OPERATOR, five for CARRIER and no [blockchain_audit], nothing but the
    bypass intents for ANON, PUBLIC, GUEST and the empty role. *)
Lemma policy_meets_its_tests :
  forallb (fun role =>
    forallb (fun intent => authorize Py.upper tested_table (u intent) (u role))
      ["booking_status"; "booking_create"; "slot_availability";
       "passage_history"; "blockchain_audit"; "help"]%string)
    ["ADMIN"; "OPERATOR"]%string = true /\
  forallb (fun intent => authorize Py.upper tested_table (u intent) (u "CARRIER"))
    ["booking_status"; "booking_create"; "slot_availability";
     "passage_history"; "help"]%string = true /\
  authorize Py.upper tested_table (u "blockchain_audit") (u "CARRIER") = false /\
  forallb (fun role =>
    forallb (fun intent =>
               negb (authorize Py.upper tested_table (u intent) (u role)))
      ["booking_status"; "slot_availability"; "booking_create"]%string
    && authorize Py.upper tested_table (u "help") (u role)
    && authorize Py.upper tested_table (u "unknown") (u role))
    ["ANON"; "PUBLIC"; "GUEST"; EmptyString]%string = true.
Proof. repeat split; vm_compute; reflexivity. Qed.

End PolicyClaims.
